(** * IkLearnEdge backend: booking and payment-review workflow

    A shallow embedding of the Express route handlers of
    [routes/bookings.js] and [routes/payments.js], of the role guards of
    [middleware/auth.js] and of the [query] / [transaction] helpers of
    [models/database.js], over a relational store whose tables follow
    [schema.sql].

    Conventions of the embedding.
    - A table is the list of its rows in insertion order; [SERIAL] keys are
      drawn from sequences which, as in PostgreSQL, are not rolled back and
      advance even when the insert is rejected.
    - [DECIMAL(10,2)] columns are rationals ([Q]).  JavaScript numbers are
      IEEE 754 binary64 values: where a handler computes with them, the
      embedding uses the operations of the Standard Library's [SpecFloat]
      at precision 53 and maximal exponent 1024.
    - Every round trip to the store (a statement, [BEGIN], [COMMIT],
      [ROLLBACK], acquiring a client) may fail; which ones do is decided by
      an oracle indexed by the number of round trips issued so far.  Foreign
      keys are checked by the inserts; other store-side failures (lost
      connection, value too long for its column) are left to the oracle.
    - A handler is modelled from the point where [authenticate] has resolved
      [req.user]; requests are served one at a time. *)

From Stdlib Require Import ZArith QArith Qround List String Bool Lia.
From Stdlib Require Import Permutation Sorted Qpower SpecFloat.
Import ListNotations.
Local Open Scope string_scope.
Local Open Scope Z_scope.

(** ** Rows of the tables ([schema.sql]) *)

Module Schema.

Record user := mkUser {
  u_id : Z;
  u_email : string;
  u_name : string;
  u_role : string;
  u_profile_picture : option string }.

Record student := mkStudent {
  st_id : Z;
  st_user_id : Z;
  st_grade_level : option string }.

Record teacher := mkTeacher {
  t_id : Z;
  t_user_id : Z;
  t_meeting_link : option string }.

Record subject := mkSubject {
  sub_id : Z;
  sub_name : string }.

Record pricing_tier := mkTier {
  pt_id : Z;
  pt_subject_id : Z;
  pt_grade_level : string;
  pt_price_per_hour : Q }.

Record booking := mkBooking {
  b_id : Z;
  b_student_id : Z;
  b_teacher_id : Z;
  b_subject_id : Z;
  b_grade_level : string;
  b_scheduled_date : Z;
  b_duration : Z;
  b_price_per_hour : Q;
  b_total_amount : Q;
  b_status : string;
  b_meeting_link : string;
  b_notes : string;
  b_created_at : Z;
  b_updated_at : Z }.

Record payment_proof := mkProof {
  pp_id : Z;
  pp_booking_id : Z;
  pp_file_url : string;
  pp_file_name : string;
  pp_status : string;
  pp_review_notes : option string;
  pp_reviewed_at : option Z;
  pp_uploaded_at : Z }.

(** [UPDATE bookings SET status = .., updated_at = NOW()] on one row. *)
Definition set_booking_status (status : string) (now : Z) (b : booking) : booking :=
  mkBooking (b_id b) (b_student_id b) (b_teacher_id b) (b_subject_id b)
    (b_grade_level b) (b_scheduled_date b) (b_duration b) (b_price_per_hour b)
    (b_total_amount b) status (b_meeting_link b) (b_notes b) (b_created_at b) now.

(** [UPDATE payment_proofs SET status = .., review_notes = .., reviewed_at = NOW()]
    on one row. *)
Definition set_proof_review (status notes : string) (now : Z) (p : payment_proof)
  : payment_proof :=
  mkProof (pp_id p) (pp_booking_id p) (pp_file_url p) (pp_file_name p)
    status (Some notes) (Some now) (pp_uploaded_at p).

Record Tables := mkTables {
  users : list user;
  students : list student;
  teachers : list teacher;
  subjects : list subject;
  pricing_tiers : list pricing_tier;
  bookings : list booking;
  payment_proofs : list payment_proof }.

Definition set_bookings (bs : list booking) (t : Tables) : Tables :=
  mkTables (users t) (students t) (teachers t) (subjects t) (pricing_tiers t)
    bs (payment_proofs t).

Definition set_payment_proofs (ps : list payment_proof) (t : Tables) : Tables :=
  mkTables (users t) (students t) (teachers t) (subjects t) (pricing_tiers t)
    (bookings t) ps.

(** The [SERIAL] sequences behind [bookings.id] and [payment_proofs.id]. *)
Record Sequences := mkSeqs {
  bookings_id_seq : Z;
  payment_proofs_id_seq : Z }.

(** [UPDATE tbl SET .. WHERE cond]: every row satisfying [cond] is rewritten. *)
Definition update_where {A} (cond : A -> bool) (f : A -> A) (tbl : list A) : list A :=
  map (fun r => if cond r then f r else r) tbl.

(** A foreign key [REFERENCES tbl(id)]: some row of [tbl] carries the key. *)
Definition references {A} (id_of : A -> Z) (tbl : list A) (k : Z) : bool :=
  existsb (fun r => id_of r =? k) tbl.

End Schema.
Export Schema.

(** ** The store helpers ([models/database.js]) *)

Module Database.

Inductive Error := StoreError | TypeError.

Inductive Outcome (A : Type) :=
| Ok (a : A)
| Throw (e : Error).
Arguments Ok {A} a.
Arguments Throw {A} e.

(** What the handler cannot control: which round trips fail, and the clock
    read by [NOW()] / [CURRENT_TIMESTAMP]. *)
Record Env := mkEnv {
  fails : nat -> bool;
  NOW : Z }.

(** The store as the serving connection sees it, and the round trips issued. *)
Record Conn := mkConn {
  tables : Tables;
  seqs : Sequences;
  issued : nat }.

Definition M (A : Type) : Type := Env -> Conn -> Outcome A * Conn.

Definition ret {A} (a : A) : M A := fun _ c => (Ok a, c).

Definition bind {A B} (m : M A) (k : A -> M B) : M B :=
  fun env c =>
    match m env c with
    | (Ok a, c') => k a env c'
    | (Throw e, c') => (Throw e, c')
    end.

Definition throw {A} (e : Error) : M A := fun _ c => (Throw e, c).

(** [try { body } catch (error) { handler }] *)
Definition try_catch {A} (body : M A) (handler : Error -> M A) : M A :=
  fun env c =>
    match body env c with
    | (Ok a, c') => (Ok a, c')
    | (Throw e, c') => handler e env c'
    end.

Declare Scope db_scope.
Delimit Scope db_scope with db.
Notation "x <- m ;; k" := (bind m (fun x => k))
  (at level 61, m at next level, right associativity) : db_scope.
Notation "m ;;; k" := (bind m (fun _ => k))
  (at level 61, right associativity) : db_scope.
Local Open Scope db_scope.

(** A statement: given the clock, the tables and the sequences, its rows and
    the new tables, or [None] when a constraint rejects it, and the sequences
    afterwards (a rejected insert has still drawn its key). *)
Definition Stmt (A : Type) : Type :=
  Z -> Tables -> Sequences -> option (A * Tables) * Sequences.

(** [SELECT]: the tables are only read. *)
Definition select {A} (rows : Tables -> A) : Stmt A :=
  fun _ t s => (Some (rows t, t), s).

(** [pool.query(text, params)] / [client.query(text, params)]: one round
    trip.  [query] of [database.js] logs and rethrows, so it is the same. *)
Definition query {A} (stmt : Stmt A) : M A :=
  fun env c =>
    if fails env (issued c)
    then (Throw StoreError, mkConn (tables c) (seqs c) (S (issued c)))
    else match stmt (NOW env) (tables c) (seqs c) with
         | (Some (a, t'), s') => (Ok a, mkConn t' s' (S (issued c)))
         | (None, s') => (Throw StoreError, mkConn (tables c) s' (S (issued c)))
         end.

(** [result.rows[0].field]: reading a field of [undefined] is a [TypeError]. *)
Definition rows0 {A} (rows : list A) : M A :=
  match rows with
  | r :: _ => ret r
  | [] => throw TypeError
  end.

(** [pool.connect()], [BEGIN] and [COMMIT] are round trips that leave the
    tables of this connection as they are. *)
Definition control : M unit := query (fun _ t s => (Some (tt, t), s)).

(** [ROLLBACK]: the tables return to their contents at [BEGIN]; values drawn
    from sequences are not given back.  Uncommitted work is discarded whether
    or not the client hears back; the oracle only decides whether the
    [ROLLBACK] call itself throws. *)
Definition rollback (snapshot : Tables) : M unit :=
  fun env c =>
    let c' := mkConn snapshot (seqs c) (S (issued c)) in
    if fails env (issued c) then (Throw StoreError, c') else (Ok tt, c').

Definition get_tables : M Tables := fun _ c => (Ok (tables c), c).

(** [transaction(callback)]:
    connect; try { BEGIN; callback; COMMIT } catch { ROLLBACK; throw };
    the [client.release()] of its [finally] does nothing to the store. *)
Definition transaction {A} (callback : M A) : M A :=
  control ;;;
  snapshot <- get_tables ;;
  try_catch
    (control ;;;
     result <- callback ;;
     control ;;;
     ret result)
    (fun error => rollback snapshot ;;; throw error).

(** A store on which no round trip fails. *)
Definition reliable (now : Z) : Env := mkEnv (fun _ => false) now.

(** The store answers every round trip of this environment. *)
Definition answers (env : Env) : Prop := forall n, fails env n = false.

End Database.
Export Database.

(** ** Responses and role guards ([middleware/auth.js]) *)

Module Http.

(** [b.*] joined with the counter-party's name and picture and the subject's
    name ([GET /api/bookings]). *)
Record booking_row := mkBookingRow {
  br_booking : booking;
  br_party_name : string;
  br_party_picture : option string;
  br_subject_name : string }.

(** [pp.*] joined with the booking's amount and subject and both parties'
    names ([GET /api/payments/pending]). *)
Record payment_row := mkPaymentRow {
  pr_proof : payment_proof;
  pr_total_amount : Q;
  pr_subject_id : Z;
  pr_subject_name : string;
  pr_student_name : string;
  pr_teacher_name : string }.

Inductive Payload :=
| NoData
| ValidationErrors
| BookingData (row : option booking)
| BookingRows (rows : list booking_row)
| PaymentRows (rows : list payment_row).

(** [res.status(code).json({ success, message, data })]; the [count] field
    of the list responses is [rows.length] and is not stored separately. *)
Record Response := mkResponse {
  statusCode : Z;
  success : bool;
  message : option string;
  data : Payload }.

Definition failure (code : Z) (msg : string) : Response :=
  mkResponse code false (Some msg) NoData.

(** The error taxonomy of the HTTP surface. *)
Definition InvalidArgument (r : Response) : Prop := statusCode r = 400.
Definition Forbidden (r : Response) : Prop := statusCode r = 403.
Definition NotFound (r : Response) : Prop := statusCode r = 404.
Definition Internal (r : Response) : Prop := statusCode r = 500.

(** [array.includes(value)] on strings. *)
Definition includes (xs : list string) (x : string) : bool :=
  existsb (String.eqb x) xs.

(** [value || ''] on a possibly missing string. *)
Definition or_empty (o : option string) : string :=
  match o with Some s => s | None => "" end.

Definition requireAdmin (user : user) (next : M Response) : M Response :=
  if negb (u_role user =? "admin")%string
  then ret (failure 403 "Access denied. Admin only.")
  else next.

Definition requireStudent (user : user) (next : M Response) : M Response :=
  if negb (u_role user =? "student")%string
  then ret (failure 403 "Access denied. Student only.")
  else next.

(** Serving one request: the response and the connection afterwards.  Every
    handler catches what it throws, so the outcome is always a response. *)
Definition serve (handler : M Response) (env : Env) (c : Conn) : Response * Conn :=
  match handler env c with
  | (Ok r, c') => (r, c')
  | (Throw _, c') => (failure 500 "Unhandled", c')
  end.

End Http.
Export Http.

(** ** Relational operators used by the statements *)

Module Sql.

(** [JOIN tbl ON key = tbl.id] / [WHERE tbl.id = key]. *)
Definition matching {A} (id_of : A -> Z) (k : Z) (tbl : list A) : list A :=
  filter (fun r => id_of r =? k) tbl.

Fixpoint insert_by {A} (le : A -> A -> bool) (x : A) (l : list A) : list A :=
  match l with
  | [] => [x]
  | y :: l' => if le x y then x :: l else y :: insert_by le x l'
  end.

(** [ORDER BY]: a stable sort of the rows. *)
Definition order_by {A} (le : A -> A -> bool) (l : list A) : list A :=
  fold_right (insert_by le) [] l.

(** The order [ORDER BY key ASC] asks for. *)
Definition by_key {A} (key : A -> Z) (x y : A) : Prop := key x <= key y.

Definition asc {A} (key : A -> Z) (x y : A) : bool := key x <=? key y.
Definition desc {A} (key : A -> Z) (x y : A) : bool := key y <=? key x.

(** [SELECT id FROM students WHERE user_id = $1] *)
Definition students_of_user (uid : Z) : Stmt (list student) :=
  select (fun t => filter (fun st => st_user_id st =? uid) (students t)).

(** [SELECT id FROM teachers WHERE user_id = $1] *)
Definition teachers_of_user (uid : Z) : Stmt (list teacher) :=
  select (fun t => filter (fun te => t_user_id te =? uid) (teachers t)).

(** Keys are pairwise different ([PRIMARY KEY], [UNIQUE]). *)
Fixpoint distinct {K} (eqb : K -> K -> bool) (ks : list K) : bool :=
  match ks with
  | [] => true
  | k :: ks' => negb (existsb (eqb k) ks') && distinct eqb ks'
  end.

Definition tier_key (p : pricing_tier) : Z * string :=
  (pt_subject_id p, pt_grade_level p).

Definition tier_key_eqb (a b : Z * string) : bool :=
  (fst a =? fst b) && (snd a =? snd b)%string.

(** The constraints of [schema.sql] that the statements below rely on:
    primary keys and [UNIQUE(subject_id, grade_level)], the foreign keys, and
    sequences that are ahead of the keys they have handed out. *)
Definition integrity (t : Tables) (s : Sequences) : bool :=
  distinct Z.eqb (map u_id (users t)) &&
  distinct Z.eqb (map st_id (students t)) &&
  distinct Z.eqb (map t_id (teachers t)) &&
  distinct Z.eqb (map sub_id (subjects t)) &&
  distinct Z.eqb (map b_id (bookings t)) &&
  distinct Z.eqb (map pp_id (payment_proofs t)) &&
  distinct tier_key_eqb (map tier_key (pricing_tiers t)) &&
  forallb (fun st => references u_id (users t) (st_user_id st)) (students t) &&
  forallb (fun te => references u_id (users t) (t_user_id te)) (teachers t) &&
  forallb (fun p => references sub_id (subjects t) (pt_subject_id p)) (pricing_tiers t) &&
  forallb (fun b => references st_id (students t) (b_student_id b) &&
                    references t_id (teachers t) (b_teacher_id b) &&
                    references sub_id (subjects t) (b_subject_id b)) (bookings t) &&
  forallb (fun p => references b_id (bookings t) (pp_booking_id p)) (payment_proofs t) &&
  forallb (fun b => b_id b <? bookings_id_seq s) (bookings t) &&
  forallb (fun p => pp_id p <? payment_proofs_id_seq s) (payment_proofs t).

End Sql.
Export Sql.

(** ** Booking routes ([routes/bookings.js]) *)

Module Bookings.
Local Open Scope db_scope.

(** The student's bookings joined with teacher, teacher's user and subject,
    [WHERE b.student_id = $1 ORDER BY b.created_at DESC]. *)
Definition bookings_of_student (studentId : Z) : Stmt (list booking_row) :=
  select (fun t =>
    order_by (desc (fun r => b_created_at (br_booking r)))
      (filter (fun r => b_student_id (br_booking r) =? studentId)
        (flat_map (fun b =>
           flat_map (fun te =>
             flat_map (fun u =>
               map (fun s => mkBookingRow b (u_name u) (u_profile_picture u) (sub_name s))
                   (matching sub_id (b_subject_id b) (subjects t)))
               (matching u_id (t_user_id te) (users t)))
             (matching t_id (b_teacher_id b) (teachers t)))
           (bookings t)))).

(** The teacher's bookings joined with student, student's user and subject,
    [WHERE b.teacher_id = $1 ORDER BY b.created_at DESC]. *)
Definition bookings_of_teacher (teacherId : Z) : Stmt (list booking_row) :=
  select (fun t =>
    order_by (desc (fun r => b_created_at (br_booking r)))
      (filter (fun r => b_teacher_id (br_booking r) =? teacherId)
        (flat_map (fun b =>
           flat_map (fun st =>
             flat_map (fun u =>
               map (fun s => mkBookingRow b (u_name u) (u_profile_picture u) (sub_name s))
                   (matching sub_id (b_subject_id b) (subjects t)))
               (matching u_id (st_user_id st) (users t)))
             (matching st_id (b_student_id b) (students t)))
           (bookings t)))).

(** [GET /api/bookings] *)
Definition get_bookings (user : user) : M Response :=
  try_catch
    (if (u_role user =? "student")%string then
       studentResult <- query (students_of_user (u_id user)) ;;
       match studentResult with
       | [] => ret (failure 404 "Student not found")
       | st :: _ =>
           let studentId := st_id st in
           result <- query (bookings_of_student studentId) ;;
           ret (mkResponse 200 true None (BookingRows result))
       end
     else if (u_role user =? "teacher")%string then
       teacherResult <- query (teachers_of_user (u_id user)) ;;
       match teacherResult with
       | [] => ret (failure 404 "Teacher not found")
       | te :: _ =>
           let teacherId := t_id te in
           result <- query (bookings_of_teacher teacherId) ;;
           ret (mkResponse 200 true None (BookingRows result))
       end
     else ret (failure 403 "Not authorized"))
    (fun _ => ret (failure 500 "Failed to get bookings")).

(** The JSON body of [POST /api/bookings].  [teacherId] and [subjectId] are
    integers, so their [isInt()] validators pass; [scheduledDate] is the
    instant the field denotes, [None] when it is not an ISO 8601 date;
    missing [notes] are the empty string, as [notes || ''] makes them. *)
Record booking_body := mkBookingBody {
  teacherId : Z;
  subjectId : Z;
  scheduledDate : option Z;
  duration : Z;
  notes : string }.

(** [validationResult(req).isEmpty()]: [isISO8601()] on the date and
    [isInt({ min: 30, max: 240 })] on the duration. *)
Definition validationResult (body : booking_body) : bool :=
  match scheduledDate body with Some _ => true | None => false end &&
  (30 <=? duration body) && (duration body <=? 240).

(** [Math.round]: the nearest integer, halves towards plus infinity. *)
Definition Math_round (x : Q) : Z := Qfloor (x + (1 # 2))%Q.

(** A JavaScript number: an IEEE 754 binary64 value. *)
Definition number : Type := spec_float.

(** The number an integer literal or an integer of a JSON body denotes. *)
Definition number_of_Z (n : Z) : number := binary_normalize 53 1024 n 0 false.

(** [Number(text)], which [*] applies to the text [node-postgres] returns
    for a [DECIMAL(10,2)] column: the number nearest to the decimal value.
    Numerator and denominator of such a value are below [2^53], so this is
    their quotient as binary64 division rounds it. *)
Definition Number (text : Q) : number :=
  SFdiv 53 1024 (number_of_Z (Qnum text)) (number_of_Z (Zpos (Qden text))).

(** The rational a finite number is. *)
Definition number_value (x : number) : Q :=
  match x with
  | S754_finite s m e =>
      ((if s then inject_Z (Zneg m) else inject_Z (Zpos m)) * Qpower 2 e)%Q
  | _ => 0%Q
  end.

(** [Math.round((pricePerHour * duration) / 60)]: the product and the
    quotient are binary64 operations, [Math.round] is applied to the number
    they give. *)
Definition totalAmount (pricePerHour : Q) (duration : Z) : Z :=
  Math_round
    (number_value
       (SFdiv 53 1024
          (SFmul 53 1024 (Number pricePerHour) (number_of_Z duration))
          (number_of_Z 60))).
Arguments totalAmount : simpl never.

(** [SELECT id, grade_level FROM students WHERE user_id = $1] is
    [students_of_user].
    [SELECT price_per_hour FROM pricing_tiers
     WHERE subject_id = $1 AND grade_level = $2]; a [NULL] grade matches
    nothing. *)
Definition price_of (subjectId : Z) (gradeLevel : option string)
  : Stmt (list pricing_tier) :=
  select (fun t =>
    filter (fun p => (pt_subject_id p =? subjectId) &&
                     match gradeLevel with
                     | Some g => (pt_grade_level p =? g)%string
                     | None => false
                     end) (pricing_tiers t)).

(** [SELECT meeting_link FROM teachers WHERE id = $1] *)
Definition teacher_by_id (teacherId : Z) : Stmt (list teacher) :=
  select (fun t => matching t_id teacherId (teachers t)).

(** [INSERT INTO bookings (..) VALUES (.., 'pending_payment', ..) RETURNING *].
    The key comes from the sequence; [grade_level] and [scheduled_date] are
    [NOT NULL]; the three foreign keys and the primary key are checked. *)
Definition insert_booking (studentId teacherId subjectId : Z)
    (gradeLevel : option string) (scheduledDate : option Z) (duration : Z)
    (pricePerHour : Q) (totalAmount : Z) (meetingLink notes : string)
  : Stmt (list booking) :=
  fun now t s =>
    let s' := mkSeqs (bookings_id_seq s + 1) (payment_proofs_id_seq s) in
    match gradeLevel, scheduledDate with
    | Some g, Some d =>
        if references st_id (students t) studentId &&
           references t_id (teachers t) teacherId &&
           references sub_id (subjects t) subjectId &&
           negb (references b_id (bookings t) (bookings_id_seq s))
        then
          let row := mkBooking (bookings_id_seq s) studentId teacherId subjectId g d
                       duration pricePerHour (inject_Z totalAmount)
                       "pending_payment" meetingLink notes now now in
          (Some ([row], set_bookings (bookings t ++ [row]) t), s')
        else (None, s')
    | _, _ => (None, s')
    end.

(** [POST /api/bookings] *)
Definition post_bookings (user : user) (body : booking_body) : M Response :=
  requireStudent user
    (try_catch
       (if negb (validationResult body)
        then ret (mkResponse 400 false None ValidationErrors)
        else
          studentResult <- query (students_of_user (u_id user)) ;;
          match studentResult with
          | [] => ret (failure 404 "Student not found")
          | st :: _ =>
              let studentId := st_id st in
              let gradeLevel := st_grade_level st in
              priceResult <- query (price_of (subjectId body) gradeLevel) ;;
              match priceResult with
              | [] => ret (failure 400 "Price not found for this subject and grade level")
              | tier :: _ =>
                  let pricePerHour := pt_price_per_hour tier in
                  let totalAmount := totalAmount pricePerHour (duration body) in
                  teacherResult <- query (teacher_by_id (teacherId body)) ;;
                  let meetingLink :=
                    or_empty (match teacherResult with
                              | te :: _ => t_meeting_link te
                              | [] => None
                              end) in
                  result <- query (insert_booking studentId (teacherId body)
                                     (subjectId body) gradeLevel (scheduledDate body)
                                     (duration body) pricePerHour totalAmount
                                     meetingLink (notes body)) ;;
                  ret (mkResponse 201 true (Some "Booking created successfully")
                         (BookingData (hd_error result)))
              end
          end)
       (fun _ => ret (failure 500 "Failed to create booking"))).

Definition validStatuses : list string :=
  ["pending_payment"; "payment_under_review"; "confirmed"; "completed"; "cancelled"].

(** [SELECT student_id, teacher_id FROM bookings WHERE id = $1] *)
Definition booking_by_id (id : Z) : Stmt (list booking) :=
  select (fun t => matching b_id id (bookings t)).

(** [UPDATE bookings SET status = $1, updated_at = NOW() WHERE id = $2
     RETURNING *] *)
Definition update_booking_status (status : string) (id : Z) : Stmt (list booking) :=
  fun now t s =>
    (Some (map (set_booking_status status now) (matching b_id id (bookings t)),
           set_bookings
             (update_where (fun b => b_id b =? id) (set_booking_status status now)
                (bookings t)) t),
     s).

(** The caller's first student (teacher) profile is the booking's student
    (teacher). *)
Definition isStudent (studentResult : list student) (booking : booking) : bool :=
  match studentResult with
  | st :: _ => st_id st =? b_student_id booking
  | [] => false
  end.

Definition isTeacher (teacherResult : list teacher) (booking : booking) : bool :=
  match teacherResult with
  | te :: _ => t_id te =? b_teacher_id booking
  | [] => false
  end.

(** The authorization block of [PUT /api/bookings/:id/status]: [true] when
    one of its three [return res.status(403)] is taken. *)
Definition not_authorized (user : user) (booking : booking) (status : string)
  : M bool :=
  if negb (u_role user =? "admin")%string then
    studentResult <- query (students_of_user (u_id user)) ;;
    teacherResult <- query (teachers_of_user (u_id user)) ;;
    let isStudent := isStudent studentResult booking in
    let isTeacher := isTeacher teacherResult booking in
    if isStudent && negb (status =? "cancelled")%string then ret true
    else if isTeacher && negb (includes ["confirmed"; "completed"] status) then ret true
    else if negb isStudent && negb isTeacher then ret true
    else ret false
  else ret false.

(** [PUT /api/bookings/:id/status] *)
Definition put_booking_status (user : user) (id : Z) (status : string) : M Response :=
  try_catch
    (if negb (includes validStatuses status)
     then ret (failure 400 "Invalid status")
     else
       bookingResult <- query (booking_by_id id) ;;
       match bookingResult with
       | [] => ret (failure 404 "Booking not found")
       | booking :: _ =>
           denied <- not_authorized user booking status ;;
           if denied : bool then ret (failure 403 "Not authorized")
           else
             result <- query (update_booking_status status id) ;;
             ret (mkResponse 200 true (Some "Booking status updated")
                    (BookingData (hd_error result)))
       end)
    (fun _ => ret (failure 500 "Failed to update booking status")).

End Bookings.

(** ** Payment routes ([routes/payments.js]) *)

Module Payments.
Local Open Scope db_scope.

(** [pp.*] joined with booking, subject, student, student's user, teacher and
    teacher's user, [WHERE pp.status = 'pending' ORDER BY pp.uploaded_at ASC]. *)
Definition pending_proofs : Stmt (list payment_row) :=
  select (fun t =>
    order_by (asc (fun r => pp_uploaded_at (pr_proof r)))
      (filter (fun r => (pp_status (pr_proof r) =? "pending")%string)
        (flat_map (fun pp =>
           flat_map (fun b =>
             flat_map (fun s =>
               flat_map (fun st =>
                 flat_map (fun su =>
                   flat_map (fun te =>
                     map (fun tu =>
                            mkPaymentRow pp (b_total_amount b) (b_subject_id b)
                              (sub_name s) (u_name su) (u_name tu))
                         (matching u_id (t_user_id te) (users t)))
                     (matching t_id (b_teacher_id b) (teachers t)))
                   (matching u_id (st_user_id st) (users t)))
                 (matching st_id (b_student_id b) (students t)))
               (matching sub_id (b_subject_id b) (subjects t)))
             (matching b_id (pp_booking_id pp) (bookings t)))
           (payment_proofs t)))).

(** [GET /api/payments/pending] *)
Definition get_pending (user : user) : M Response :=
  requireAdmin user
    (try_catch
       (result <- query pending_proofs ;;
        ret (mkResponse 200 true None (PaymentRows result)))
       (fun _ => ret (failure 500 "Failed to get pending payments"))).

(** The JSON body of [POST /api/payments].  A missing field is represented
    by the falsy [0] or empty string: the handler treats both alike. *)
Record payment_body := mkPaymentBody {
  bookingId : Z;
  fileUrl : string;
  fileName : string }.

(** [fileName || 'payment-proof'] *)
Definition or_default (x d : string) : string :=
  if (x =? "")%string then d else x.

(** [SELECT id FROM bookings WHERE id = $1 AND student_id = $2] *)
Definition booking_of_student (bookingId studentId : Z) : Stmt (list booking) :=
  select (fun t =>
    filter (fun b => (b_id b =? bookingId) && (b_student_id b =? studentId))
           (bookings t)).

(** [INSERT INTO payment_proofs (booking_id, file_url, file_name, status)
     VALUES ($1, $2, $3, 'pending')]; the key comes from the sequence,
    [uploaded_at] defaults to the current time; the foreign key and the
    primary key are checked. *)
Definition insert_proof (bookingId : Z) (fileUrl fileName : string) : Stmt unit :=
  fun now t s =>
    let s' := mkSeqs (bookings_id_seq s) (payment_proofs_id_seq s + 1) in
    if references b_id (bookings t) bookingId &&
       negb (references pp_id (payment_proofs t) (payment_proofs_id_seq s))
    then
      let row := mkProof (payment_proofs_id_seq s) bookingId fileUrl fileName
                   "pending" None None now in
      (Some (tt, set_payment_proofs (payment_proofs t ++ [row]) t), s')
    else (None, s').

(** [UPDATE bookings SET status = $1, updated_at = NOW() WHERE id = $2] *)
Definition set_status_of_booking (status : string) (bookingId : Z) : Stmt unit :=
  fun now t s =>
    (Some (tt,
           set_bookings
             (update_where (fun b => b_id b =? bookingId)
                (set_booking_status status now) (bookings t)) t),
     s).

(** The callback handed to [transaction] by [POST /api/payments]: create the
    payment proof, then update the booking status. *)
Definition upload_unit (bookingId : Z) (fileUrl fileName : string) : M unit :=
  query (insert_proof bookingId fileUrl (or_default fileName "payment-proof")) ;;;
  query (set_status_of_booking "payment_under_review" bookingId).

(** [POST /api/payments] *)
Definition post_payments (user : user) (body : payment_body) : M Response :=
  requireStudent user
    (try_catch
       (if (bookingId body =? 0) || (fileUrl body =? "")%string
        then ret (failure 400 "Booking ID and file URL are required")
        else
          studentResult <- query (students_of_user (u_id user)) ;;
          st <- rows0 studentResult ;;
          let studentId := st_id st in
          bookingResult <- query (booking_of_student (bookingId body) studentId) ;;
          if (List.length bookingResult =? 0)%nat
          then ret (failure 404 "Booking not found")
          else
            transaction
              (upload_unit (bookingId body) (fileUrl body) (fileName body)) ;;;
            ret (mkResponse 201 true
                   (Some "Payment proof uploaded successfully") NoData))
       (fun _ => ret (failure 500 "Failed to upload payment proof"))).

(** The JSON body of [PUT /api/payments/:id/verify]; missing [notes] are
    the empty string, which is what [notes || ''] makes of them. *)
Record verify_body := mkVerifyBody {
  status : string;
  notes : string }.

(** [UPDATE payment_proofs SET status = $1, review_notes = $2,
     reviewed_at = NOW() WHERE id = $3] *)
Definition review_proof (status notes : string) (id : Z) : Stmt unit :=
  fun now t s =>
    (Some (tt,
           set_payment_proofs
             (update_where (fun p => pp_id p =? id)
                (set_proof_review status notes now) (payment_proofs t)) t),
     s).

(** [SELECT booking_id FROM payment_proofs WHERE id = $1] *)
Definition proof_by_id (id : Z) : Stmt (list payment_proof) :=
  select (fun t => matching pp_id id (payment_proofs t)).

(** [status === 'approved' ? 'confirmed' : 'pending_payment'] *)
Definition newBookingStatus (status : string) : string :=
  if (status =? "approved")%string then "confirmed" else "pending_payment".

(** The callback handed to [transaction] by [PUT /api/payments/:id/verify]:
    update the payment proof, get its booking id, update the booking status. *)
Definition review_unit (status notes : string) (id : Z) : M unit :=
  query (review_proof status notes id) ;;;
  paymentResult <- query (proof_by_id id) ;;
  row <- rows0 paymentResult ;;
  let bookingId := pp_booking_id row in
  query (set_status_of_booking (newBookingStatus status) bookingId).

(** [PUT /api/payments/:id/verify] *)
Definition put_verify (user : user) (id : Z) (body : verify_body) : M Response :=
  requireAdmin user
    (try_catch
       (if negb (includes ["approved"; "rejected"] (status body))
        then ret (failure 400 "Status must be approved or rejected")
        else
          transaction (review_unit (status body) (notes body) id) ;;;
          ret (mkResponse 200 true
                 (Some ("Payment " ++ status body ++ " successfully")) NoData))
       (fun _ => ret (failure 500 "Failed to verify payment"))).

End Payments.

(** ** A small store: the seeded "Math" subject, one teacher, two students *)

Module Sample.

Definition admin : user := mkUser 1 "admin@iklearnedge.com" "Admin" "admin" None.
Definition tara : user := mkUser 2 "tara@example.com" "Tara" "teacher" None.
Definition sam : user := mkUser 3 "sam@example.com" "Sam" "student" None.
Definition sid : user := mkUser 4 "sid@example.com" "Sid" "student" None.
Definition tom : user := mkUser 5 "tom@example.com" "Tom" "teacher" None.

Definition sam_profile : student := mkStudent 10 3 (Some "Grade 6-8 (Middle)").
Definition sid_profile : student := mkStudent 11 4 (Some "Grade 11-12 (College)").
Definition tara_profile : teacher := mkTeacher 20 2 (Some "https://meet.example/tara").
Definition tom_profile : teacher := mkTeacher 21 5 None.

Definition math : subject := mkSubject 1 "Math".
Definition math_middle : pricing_tier := mkTier 100 1 "Grade 6-8 (Middle)" (18 # 1).

(** Sam's booking with Tara, a proof uploaded and waiting. *)
Definition sam_booking : booking :=
  mkBooking 1000 10 20 1 "Grade 6-8 (Middle)" 5000 90 (18 # 1) (27 # 1)
    "payment_under_review" "https://meet.example/tara" "" 40 70.

(** A booking of Sam's with Tom, proof uploaded earlier than the one above. *)
Definition sam_booking2 : booking :=
  mkBooking 1001 10 21 1 "Grade 6-8 (Middle)" 6000 60 (18 # 1) (18 # 1)
    "payment_under_review" "" "" 45 50.

Definition proof1 : payment_proof :=
  mkProof 500 1000 "https://files.example/p1.png" "payment-proof" "pending" None None 70.
Definition proof2 : payment_proof :=
  mkProof 501 1001 "https://files.example/p2.png" "receipt.png" "pending" None None 50.
Definition proof3 : payment_proof :=
  mkProof 502 1001 "https://files.example/p3.png" "old.png" "rejected"
    (Some "illegible") (Some 48) 46.

Definition sample_tables : Tables :=
  mkTables [admin; tara; sam; sid; tom] [sam_profile; sid_profile]
    [tara_profile; tom_profile] [math] [math_middle]
    [sam_booking; sam_booking2] [proof1; proof2; proof3].

Definition store : Conn := mkConn sample_tables (mkSeqs 1002 503) 0.

(** The same people and catalog before any booking was made. *)
Definition fresh_store : Conn :=
  mkConn (set_payment_proofs [] (set_bookings [] sample_tables)) (mkSeqs 1 1) 0.

(** Sam books Math for 90 minutes with Tara. *)
Definition sam_request : Bookings.booking_body :=
  Bookings.mkBookingBody 20 1 (Some 9000) 90 "".

(** Sid's grade has no Math tier. *)
Definition sid_request : Bookings.booking_body :=
  Bookings.mkBookingBody 20 1 (Some 9000) 60 "".

End Sample.

(** ** Observations on a store, used to state the properties *)

Module Observe.

(** The row of a table that a key designates: the first one carrying it. *)
Definition find_proof (t : Tables) (id : Z) : option payment_proof :=
  hd_error (matching pp_id id (payment_proofs t)).

Definition find_booking (t : Tables) (id : Z) : option booking :=
  hd_error (matching b_id id (bookings t)).

(** The statuses of a proof and of a booking, read together. *)
Definition pair_status (t : Tables) (proofId bookingId : Z) : option (string * string) :=
  match find_proof t proofId, find_booking t bookingId with
  | Some p, Some b => Some (pp_status p, b_status b)
  | _, _ => None
  end.

(** What the specification promises an administrator who asks for the
    bookings: the request succeeds and its rows are all the bookings of the
    store. *)
Definition admin_sees_all_bookings (env : Env) (c : Conn) (caller : user) : Prop :=
  let r := fst (serve (Bookings.get_bookings caller) env c) in
  statusCode r = 200 /\
  exists rows, data r = BookingRows rows /\
               Permutation (map br_booking rows) (bookings (tables c)).

(** A status update was accepted: 200, and the booking now has the status. *)
Definition accepted (r : Response) (c' : Conn) (id : Z) (status : string) : Prop :=
  statusCode r = 200 /\
  option_map b_status (find_booking (tables c') id) = Some status.

(** A request either succeeded with its effect [done], or failed as Internal
    and left every table as it was. *)
Definition all_or_nothing (r : Response) (c c' : Conn) (done : Prop) : Prop :=
  (success r = true /\ done) \/ (Internal r /\ tables c' = tables c).

(** A request was refused as Forbidden and changed no table. *)
Definition refused (r : Response) (c c' : Conn) : Prop :=
  Forbidden r /\ tables c' = tables c.

(** The three refusals of the authorization block of the status update, for
    a caller who is not an administrator. *)
Definition denied_by_matrix (t : Tables) (caller : user) (booking : booking)
    (status : string) : bool :=
  let owner_s :=
    Bookings.isStudent
      (filter (fun st => st_user_id st =? u_id caller) (students t)) booking in
  let owner_t :=
    Bookings.isTeacher
      (filter (fun te => t_user_id te =? u_id caller) (teachers t)) booking in
  (owner_s && negb (status =? "cancelled")%string) ||
  (owner_t && negb (includes ["confirmed"; "completed"] status)) ||
  (negb owner_s && negb owner_t).

End Observe.
Export Observe.

(** ** The remaining middleware ([middleware/auth.js]) *)

Module Middleware.
Local Open Scope db_scope.

Definition requireTeacher (user : user) (next : M Response) : M Response :=
  if negb (u_role user =? "teacher")%string
  then ret (failure 403 "Access denied. Teacher only.")
  else next.

Definition requireTeacherOrAdmin (user : user) (next : M Response) : M Response :=
  if negb (u_role user =? "teacher")%string && negb (u_role user =? "admin")%string
  then ret (failure 403 "Access denied. Teacher or Admin only.")
  else next.

(** The JavaScript values a user id can arrive as: [req.user.id] is a number
    (an [INTEGER] column), a route parameter is a string, a body field is
    whatever the JSON held. *)
Inductive js_value :=
| js_undefined
| js_number (n : Z)
| js_string (s : string).

(** [a !== b] *)
Definition strict_neq (a b : js_value) : bool :=
  match a, b with
  | js_undefined, js_undefined => false
  | js_number m, js_number n => negb (m =? n)
  | js_string s, js_string t => negb (s =? t)%string
  | _, _ => true
  end.

(** [req.params[paramName]] *)
Fixpoint param (params : list (string * string)) (paramName : string) : js_value :=
  match params with
  | [] => js_undefined
  | (k, v) :: rest => if (k =? paramName)%string then js_string v else param rest paramName
  end.

(** [a || b] *)
Definition js_or (a b : js_value) : js_value :=
  match a with
  | js_undefined => b
  | js_number n => if n =? 0 then b else a
  | js_string s => if (s =? "")%string then b else a
  end.

Definition requireOwnerOrAdmin (paramName : string) (params : list (string * string))
    (body_userId : js_value) (user : user) (next : M Response) : M Response :=
  let resourceUserId := js_or (param params paramName) body_userId in
  if negb (u_role user =? "admin")%string &&
     strict_neq (js_number (u_id user)) resourceUserId
  then ret (failure 403 "Access denied. Not authorized.")
  else next.

(** The separator of [authHeader.split(' ')]. *)
Definition space : Ascii.ascii := Ascii.ascii_of_nat 32.

(** [s.split(sep)] for a one-character separator. *)
Fixpoint split_on (sep : Ascii.ascii) (s : string) : list string :=
  match s with
  | EmptyString => [EmptyString]
  | String ch rest =>
      if Ascii.eqb ch sep then EmptyString :: split_on sep rest
      else match split_on sep rest with
           | w :: ws => String ch w :: ws
           | [] => [String ch EmptyString]
           end
  end.

(** What [jwt.verify(token, secret)] does: it returns the decoded payload, of
    which only [userId] is read (it may be missing), or throws an error whose
    [name] the middleware inspects. *)
Inductive Verified :=
| Decoded (userId : option Z)
| JsonWebTokenError
| TokenExpiredError
| OtherError.

(** [SELECT id, email, name, role, profile_picture FROM users WHERE id = $1];
    a missing id is sent as [NULL] and matches nothing. *)
Definition user_by_id (userId : option Z) : Stmt (list user) :=
  select (fun t =>
    match userId with
    | Some k => matching u_id k (users t)
    | None => []
    end).

Section Authenticate.

(** [jwt.verify] with the secret of the deployment: the library is not part
    of the repository. *)
Variable jwt_verify : string -> Verified.

(** [authenticate]; [authorization] is [req.headers.authorization], and
    [next] receives [req.user]. *)
Definition authenticate (authorization : option string) (next : user -> M Response)
  : M Response :=
  match authorization with
  | None => ret (failure 401 "Access denied. No token provided.")
  | Some authHeader =>
      if (authHeader =? "")%string || negb (String.prefix "Bearer " authHeader)
      then ret (failure 401 "Access denied. No token provided.")
      else
        let token := nth 1 (split_on space authHeader) "" in
        match jwt_verify token with
        | Decoded userId =>
            step <- try_catch
                      (result <- query (user_by_id userId) ;;
                       match result with
                       | [] => ret (inl (failure 401 "User not found"))
                       | row :: _ => ret (inr row)
                       end)
                      (fun _ => ret (inl (failure 500 "Authentication error"))) ;;
            match step with
            | inl response => ret response
            | inr user => next user
            end
        | JsonWebTokenError => ret (failure 401 "Invalid token")
        | TokenExpiredError => ret (failure 401 "Token expired")
        | OtherError => ret (failure 500 "Authentication error")
        end
  end.

(** [router.put('/:id/verify', authenticate, requireAdmin, handler)] *)
Definition route_put_verify (authorization : option string) (id : Z)
    (body : Payments.verify_body) : M Response :=
  authenticate authorization (fun user => Payments.put_verify user id body).

(** [router.post('/', authenticate, requireStudent, validators, handler)]
    of the payments router. *)
Definition route_post_payments (authorization : option string)
    (body : Payments.payment_body) : M Response :=
  authenticate authorization (fun user => Payments.post_payments user body).

(** [router.post('/', authenticate, requireStudent, validators, handler)]
    of the bookings router. *)
Definition route_post_bookings (authorization : option string)
    (body : Bookings.booking_body) : M Response :=
  authenticate authorization (fun user => Bookings.post_bookings user body).

(** [router.put('/:id/status', authenticate, handler)] *)
Definition route_put_booking_status (authorization : option string) (id : Z)
    (status : string) : M Response :=
  authenticate authorization (fun user => Bookings.put_booking_status user id status).

End Authenticate.

End Middleware.

(** ** Read routes of bookings, payments and prices *)

Module Views.
Local Open Scope db_scope.

(** [res.status(code).json({ success, message, data })] for the routes whose
    [data] is not one of the shapes of [Payload]. *)
Record Reply (D : Type) := mkReply {
  r_statusCode : Z;
  r_success : bool;
  r_message : option string;
  r_data : option D }.
Arguments mkReply {D} _ _ _ _.
Arguments r_statusCode {D} _.
Arguments r_success {D} _.
Arguments r_message {D} _.
Arguments r_data {D} _.

Definition refusal {D} (code : Z) (msg : string) : Reply D :=
  mkReply code false (Some msg) None.

(** [b.*] with both parties' names and pictures and the subject's name
    ([GET /api/bookings/:id]). *)
Record booking_detail := mkBookingDetail {
  bd_booking : booking;
  bd_teacher_name : string;
  bd_teacher_picture : option string;
  bd_student_name : string;
  bd_student_picture : option string;
  bd_subject_name : string }.

(** The booking joined with teacher, teacher's user, student, student's user
    and subject, [WHERE b.id = $1]. *)
Definition booking_detail_by_id (id : Z) : Stmt (list booking_detail) :=
  select (fun t =>
    filter (fun r => b_id (bd_booking r) =? id)
      (flat_map (fun b =>
         flat_map (fun te =>
           flat_map (fun tu =>
             flat_map (fun st =>
               flat_map (fun su =>
                 map (fun sub =>
                        mkBookingDetail b (u_name tu) (u_profile_picture tu)
                          (u_name su) (u_profile_picture su) (sub_name sub))
                     (matching sub_id (b_subject_id b) (subjects t)))
                 (matching u_id (st_user_id st) (users t)))
               (matching st_id (b_student_id b) (students t)))
             (matching u_id (t_user_id te) (users t)))
           (matching t_id (b_teacher_id b) (teachers t)))
         (bookings t))).

(** [GET /api/bookings/:id] *)
Definition get_booking (user : user) (id : Z) : M (Reply booking_detail) :=
  try_catch
    (result <- query (booking_detail_by_id id) ;;
     match result with
     | [] => ret (refusal 404 "Booking not found")
     | booking :: _ =>
         if negb (u_role user =? "admin")%string then
           studentResult <- query (students_of_user (u_id user)) ;;
           teacherResult <- query (teachers_of_user (u_id user)) ;;
           let isStudent := Bookings.isStudent studentResult (bd_booking booking) in
           let isTeacher := Bookings.isTeacher teacherResult (bd_booking booking) in
           if negb isStudent && negb isTeacher
           then ret (refusal 403 "Not authorized")
           else ret (mkReply 200 true None (Some booking))
         else ret (mkReply 200 true None (Some booking))
     end)
    (fun _ => ret (refusal 500 "Failed to get booking")).

(** The student's confirmed bookings still to come, joined as in
    [GET /api/bookings],
    [WHERE b.student_id = $1 AND b.status = 'confirmed'
       AND b.scheduled_date > NOW() ORDER BY b.scheduled_date ASC]. *)
Definition upcoming_of_student (studentId : Z) : Stmt (list booking_row) :=
  fun now t s =>
    (Some
       (order_by (asc (fun r => b_scheduled_date (br_booking r)))
          (filter (fun r => (b_student_id (br_booking r) =? studentId) &&
                            (b_status (br_booking r) =? "confirmed")%string &&
                            (now <? b_scheduled_date (br_booking r)))
             (flat_map (fun b =>
                flat_map (fun te =>
                  flat_map (fun u =>
                    map (fun sub =>
                           mkBookingRow b (u_name u) (u_profile_picture u) (sub_name sub))
                        (matching sub_id (b_subject_id b) (subjects t)))
                    (matching u_id (t_user_id te) (users t)))
                  (matching t_id (b_teacher_id b) (teachers t)))
                (bookings t))),
        t),
     s).

(** The same for a teacher, joined with the student's user. *)
Definition upcoming_of_teacher (teacherId : Z) : Stmt (list booking_row) :=
  fun now t s =>
    (Some
       (order_by (asc (fun r => b_scheduled_date (br_booking r)))
          (filter (fun r => (b_teacher_id (br_booking r) =? teacherId) &&
                            (b_status (br_booking r) =? "confirmed")%string &&
                            (now <? b_scheduled_date (br_booking r)))
             (flat_map (fun b =>
                flat_map (fun st =>
                  flat_map (fun u =>
                    map (fun sub =>
                           mkBookingRow b (u_name u) (u_profile_picture u) (sub_name sub))
                        (matching sub_id (b_subject_id b) (subjects t)))
                    (matching u_id (st_user_id st) (users t)))
                  (matching st_id (b_student_id b) (students t)))
                (bookings t))),
        t),
     s).

(** [GET /api/bookings/upcoming/classes] *)
Definition get_upcoming (user : user) : M Response :=
  try_catch
    (if (u_role user =? "student")%string then
       studentResult <- query (students_of_user (u_id user)) ;;
       st <- rows0 studentResult ;;
       let studentId := st_id st in
       result <- query (upcoming_of_student studentId) ;;
       ret (mkResponse 200 true None (BookingRows result))
     else if (u_role user =? "teacher")%string then
       teacherResult <- query (teachers_of_user (u_id user)) ;;
       te <- rows0 teacherResult ;;
       let teacherId := t_id te in
       result <- query (upcoming_of_teacher teacherId) ;;
       ret (mkResponse 200 true None (BookingRows result))
     else ret (failure 403 "Not authorized"))
    (fun _ => ret (failure 500 "Failed to get upcoming classes")).

(** [pp.*] with the booking's amount and subject ([GET /api/payments]). *)
Record payment_summary := mkPaymentSummary {
  ps_proof : payment_proof;
  ps_total_amount : Q;
  ps_subject_id : Z;
  ps_subject_name : string }.

(** The proofs joined with booking and subject, under the [WHERE] of the
    caller's branch, [ORDER BY pp.uploaded_at DESC]. *)
Definition payments_where (cond : booking -> bool) : Stmt (list payment_summary) :=
  select (fun t =>
    order_by (desc (fun r => pp_uploaded_at (ps_proof r)))
      (flat_map (fun pp =>
         flat_map (fun b =>
           if cond b then
             map (fun sub =>
                    mkPaymentSummary pp (b_total_amount b) (b_subject_id b) (sub_name sub))
                 (matching sub_id (b_subject_id b) (subjects t))
           else [])
           (matching b_id (pp_booking_id pp) (bookings t)))
         (payment_proofs t))).

(** [GET /api/payments] *)
Definition get_payments (user : user) : M (Reply (list payment_summary)) :=
  try_catch
    (result <-
       (if (u_role user =? "student")%string then
          studentResult <- query (students_of_user (u_id user)) ;;
          st <- rows0 studentResult ;;
          let studentId := st_id st in
          query (payments_where (fun b => b_student_id b =? studentId))
        else if (u_role user =? "teacher")%string then
          teacherResult <- query (teachers_of_user (u_id user)) ;;
          te <- rows0 teacherResult ;;
          let teacherId := t_id te in
          query (payments_where (fun b => b_teacher_id b =? teacherId))
        else query (payments_where (fun _ => true))) ;;
     ret (mkReply 200 true None (Some result)))
    (fun _ => ret (refusal 500 "Failed to get payments")).

(** [GET /api/subjects/:id/price]; [gradeLevel] is [req.query.gradeLevel],
    [None] when the query string has none.  The statement is the one
    [POST /api/bookings] uses, [Bookings.price_of]. *)
Definition get_price (id : Z) (gradeLevel : option string) : M (Reply Q) :=
  try_catch
    (match gradeLevel with
     | None => ret (refusal 400 "Grade level is required")
     | Some g =>
         if (g =? "")%string then ret (refusal 400 "Grade level is required")
         else
           result <- query (Bookings.price_of id (Some g)) ;;
           match result with
           | [] => ret (refusal 404 "Price not found for this subject and grade level")
           | tier :: _ => ret (mkReply 200 true None (Some (pt_price_per_hour tier)))
           end
     end)
    (fun _ => ret (refusal 500 "Failed to get price")).

(** Serving a request of these routes. *)
Definition answer {D} (handler : M (Reply D)) (env : Env) (c : Conn) : Reply D * Conn :=
  match handler env c with
  | (Ok r, c') => (r, c')
  | (Throw _, c') => (refusal 500 "Unhandled", c')
  end.

End Views.

(** ** Invariants of the store *)

Module Invariant.

(** Sequences only move forward. *)
Definition ahead (s s' : Sequences) : Prop :=
  bookings_id_seq s <= bookings_id_seq s' /\
  payment_proofs_id_seq s <= payment_proofs_id_seq s'.

(** The store of a connection satisfies the constraints of the schema. *)
Definition sound (c : Conn) : Prop := integrity (tables c) (seqs c) = true.

(** A computation keeps the constraints, whatever the store does and
    whether it returns or throws. *)
Definition keeps {A} (m : M A) : Prop :=
  forall env c,
    sound c ->
    sound (snd (m env c)) /\ ahead (seqs c) (seqs (snd (m env c))).

(** A computation only reads. *)
Definition reads_only {A} (m : M A) : Prop :=
  forall env c,
    tables (snd (m env c)) = tables c /\ seqs (snd (m env c)) = seqs c.

(** A computation catches whatever it throws. *)
Definition never_throws {A} (m : M A) : Prop :=
  forall env c, exists r c', m env c = (Ok r, c').

(** The rows of a table other than the one with key [k]. *)
Definition others {A} (id_of : A -> Z) (k : Z) (tbl : list A) : list A :=
  filter (fun r => negb (id_of r =? k)) tbl.

End Invariant.
Export Invariant.

(** ** Deleting a user ([routes/admin.js]) and a student's statistics
       ([routes/students.js]) *)

Module Accounts.
Local Open Scope db_scope.

(** [SELECT id FROM users WHERE id = $1] *)
Definition user_row (id : Z) : Stmt (list user) :=
  select (fun t => matching u_id id (users t)).

(** [DELETE FROM users WHERE id = $1].  The profiles of the user go with it
    ([ON DELETE CASCADE] on [students.user_id] and [teachers.user_id]); a
    booking that references one of them stops the statement
    ([bookings.student_id] and [bookings.teacher_id] have no cascade).  The
    tables that are not modelled only cascade. *)
Definition delete_user (id : Z) : Stmt unit :=
  fun now t s =>
    let gone_students := filter (fun st => st_user_id st =? id) (students t) in
    let gone_teachers := filter (fun te => t_user_id te =? id) (teachers t) in
    if existsb (fun b => references st_id gone_students (b_student_id b) ||
                         references t_id gone_teachers (b_teacher_id b)) (bookings t)
    then (None, s)
    else
      (Some (tt,
             mkTables (filter (fun u => negb (u_id u =? id)) (users t))
               (filter (fun st => negb (st_user_id st =? id)) (students t))
               (filter (fun te => negb (t_user_id te =? id)) (teachers t))
               (subjects t) (pricing_tiers t) (bookings t) (payment_proofs t)),
       s).

(** [DELETE /api/admin/users/:id] *)
Definition delete_users (user : user) (id : Z) : M Response :=
  requireAdmin user
    (try_catch
       (userResult <- query (user_row id) ;;
        if (List.length userResult =? 0)%nat
        then ret (failure 404 "User not found")
        else
          query (delete_user id) ;;;
          ret (mkResponse 200 true (Some "User deleted successfully") NoData))
       (fun _ => ret (failure 500 "Failed to delete user"))).

(** The [data] of [GET /api/students/stats]. *)
Record student_stats := mkStats {
  totalBookings : Z;
  upcomingClasses : Z;
  completedClasses : Z;
  totalSpent : Q;
  favoriteTeachers : Z }.

(** [SELECT COUNT( * ) FROM bookings WHERE ..], read with [parseInt]. *)
Definition count_bookings (cond : Z -> booking -> bool) : Stmt Z :=
  fun now t s => (Some (Z.of_nat (List.length (filter (cond now) (bookings t))), t), s).

(** [status IN ('confirmed', 'completed')] *)
Definition paid (b : booking) : bool :=
  (b_status b =? "confirmed")%string || (b_status b =? "completed")%string.

(** [SELECT COALESCE(SUM(total_amount), 0) FROM bookings
     WHERE student_id = $1 AND status IN ('confirmed', 'completed')], read
    with [parseFloat]. *)
Definition sum_spent (studentId : Z) : Stmt Q :=
  select (fun t =>
    fold_right Qplus 0%Q
      (map b_total_amount
         (filter (fun b => (b_student_id b =? studentId) && paid b) (bookings t)))).

(** [SELECT COUNT(DISTINCT teacher_id) FROM bookings
     WHERE student_id = $1 AND status IN ('confirmed', 'completed')] *)
Definition count_teachers (studentId : Z) : Stmt Z :=
  select (fun t =>
    Z.of_nat (List.length
      (nodup Z.eq_dec
         (map b_teacher_id
            (filter (fun b => (b_student_id b =? studentId) && paid b) (bookings t)))))).

(** [GET /api/students/stats] *)
Definition get_stats (user : user) : M (Views.Reply student_stats) :=
  if negb (u_role user =? "student")%string
  then ret (Views.refusal 403 "Access denied. Student only.")
  else
    try_catch
      (studentResult <- query (students_of_user (u_id user)) ;;
       match studentResult with
       | [] => ret (Views.refusal 404 "Student not found")
       | st :: _ =>
           let studentId := st_id st in
           totalBookings <-
             query (count_bookings (fun _ b => b_student_id b =? studentId)) ;;
           upcomingClasses <-
             query (count_bookings (fun now b =>
                      (b_student_id b =? studentId) &&
                      (b_status b =? "confirmed")%string &&
                      (now <? b_scheduled_date b))) ;;
           completedClasses <-
             query (count_bookings (fun _ b =>
                      (b_student_id b =? studentId) &&
                      (b_status b =? "completed")%string)) ;;
           totalSpent <- query (sum_spent studentId) ;;
           favoriteTeachers <- query (count_teachers studentId) ;;
           ret (Views.mkReply 200 true None
                  (Some (mkStats totalBookings upcomingClasses completedClasses
                           totalSpent favoriteTeachers)))
       end)
      (fun _ => ret (Views.refusal 500 "Failed to get statistics")).

End Accounts.

(** ** What the further properties are stated with *)

Module Shown.

(** A statement keeps the constraints when its effect does, and when it is
    rejected it moves the sequences forward at most. *)
Definition stmt_keeps {A} (stmt : Stmt A) : Prop :=
  forall now t s,
    integrity t s = true ->
    match stmt now t s with
    | (Some (_, t'), s') => integrity t' s' = true /\ ahead s s'
    | (None, s') => ahead s s'
    end.

(** A statement only reads. *)
Definition stmt_reads {A} (stmt : Stmt A) : Prop :=
  forall now t s, exists a, stmt now t s = (Some (a, t), s).

(** A booking without what a status update writes. *)
Definition booking_terms (b : booking) : booking := set_booking_status "" 0 b.

(** A payment proof without what a review writes. *)
Definition proof_terms (p : payment_proof) : payment_proof := set_proof_review "" "" 0 p.

(** [t'] holds the bookings and proofs of [t] with their terms, in order,
    perhaps followed by new ones, and the other tables of [t]. *)
Definition extends (t t' : Tables) : Prop :=
  (exists more, map booking_terms (bookings t')
                = (map booking_terms (bookings t) ++ more)%list) /\
  (exists more, map proof_terms (payment_proofs t')
                = (map proof_terms (payment_proofs t) ++ more)%list) /\
  users t' = users t /\ students t' = students t /\ teachers t' = teachers t /\
  subjects t' = subjects t /\ pricing_tiers t' = pricing_tiers t.

Definition only_extends {A} (m : M A) : Prop :=
  forall env c, extends (tables c) (tables (snd (m env c))).

(** The effect of a statement is an extension. *)
Definition stmt_extends {A} (stmt : Stmt A) : Prop :=
  forall now t s,
    match stmt now t s with
    | (Some (_, t'), _) => extends t t'
    | (None, _) => True
    end.

(** The order [ORDER BY key DESC] asks for. *)
Definition by_key_desc {A} (key : A -> Z) (x y : A) : Prop := key y <= key x.

(** The user behind the teacher of a booking. *)
Definition teacher_user (t : Tables) (b : booking) : option user :=
  match hd_error (matching t_id (b_teacher_id b) (teachers t)) with
  | Some te => hd_error (matching u_id (t_user_id te) (users t))
  | None => None
  end.

(** The user behind the student of a booking. *)
Definition student_user (t : Tables) (b : booking) : option user :=
  match hd_error (matching st_id (b_student_id b) (students t)) with
  | Some st => hd_error (matching u_id (st_user_id st) (users t))
  | None => None
  end.

(** The subject of a booking. *)
Definition subject_of (t : Tables) (b : booking) : option subject :=
  hd_error (matching sub_id (b_subject_id b) (subjects t)).

(** A row of a booking list shows the booking with this user as the other
    party and the name of its subject. *)
Definition shows (t : Tables) (party : Tables -> booking -> option user)
    (r : booking_row) : Prop :=
  exists u sub,
    party t (br_booking r) = Some u /\ subject_of t (br_booking r) = Some sub /\
    br_party_name r = u_name u /\ br_party_picture r = u_profile_picture u /\
    br_subject_name r = sub_name sub.

(** The booking of a proof satisfies [cond]. *)
Definition proof_where (t : Tables) (cond : booking -> bool) (pp : payment_proof) : bool :=
  match find_booking t (pp_booking_id pp) with
  | Some b => cond b
  | None => false
  end.

(** A row of a payment list shows the amount and subject of the proof's
    booking. *)
Definition summarizes (t : Tables) (r : Views.payment_summary) : Prop :=
  exists b sub,
    find_booking t (pp_booking_id (Views.ps_proof r)) = Some b /\
    subject_of t b = Some sub /\
    Views.ps_total_amount r = b_total_amount b /\
    Views.ps_subject_id r = b_subject_id b /\
    Views.ps_subject_name r = sub_name sub.

(** A booking detail shows the booking with both parties and its subject. *)
Definition details (t : Tables) (d : Views.booking_detail) : Prop :=
  exists tu su sub,
    teacher_user t (Views.bd_booking d) = Some tu /\
    student_user t (Views.bd_booking d) = Some su /\
    subject_of t (Views.bd_booking d) = Some sub /\
    Views.bd_teacher_name d = u_name tu /\
    Views.bd_teacher_picture d = u_profile_picture tu /\
    Views.bd_student_name d = u_name su /\
    Views.bd_student_picture d = u_profile_picture su /\
    Views.bd_subject_name d = sub_name sub.

(** The token [authenticate] cuts out of the header. *)
Definition token_of (h : string) : string :=
  nth 1 (Middleware.split_on Middleware.space h) "".

(** The user a request is made for: its header carries a token that
    [jwt_verify] decodes to the id of a row of [users]. *)
Definition stored_user (jwt_verify : string -> Middleware.Verified)
    (authorization : option string) (t : Tables) (u : user) : Prop :=
  exists h uid,
    authorization = Some h /\ String.prefix "Bearer " h = true /\
    jwt_verify (token_of h) = Middleware.Decoded (Some uid) /\
    hd_error (matching u_id uid (users t)) = Some u.

(** A token service that knows one token, the administrator's. *)
Definition sample_jwt (token : string) : Middleware.Verified :=
  if (token =? "admin-token")%string then Middleware.Decoded (Some 1)
  else Middleware.JsonWebTokenError.

End Shown.
Export Shown.

(** ** The parties of a booking, and further stores *)

Module Parties.

(** A student profile of the user. *)
Definition student_profile (t : Tables) (u : user) (st : student) : Prop :=
  In st (students t) /\ st_user_id st = u_id u.

(** A teacher profile of the user. *)
Definition teacher_profile (t : Tables) (u : user) (te : teacher) : Prop :=
  In te (teachers t) /\ t_user_id te = u_id u.

(** The user is the student of the booking: [bookings.student_id] is the key
    of a student profile of theirs. *)
Definition booked_by (t : Tables) (u : user) (b : booking) : Prop :=
  exists st, student_profile t u st /\ st_id st = b_student_id b.

(** The user is the teacher of the booking. *)
Definition taught_by (t : Tables) (u : user) (b : booking) : Prop :=
  exists te, teacher_profile t u te /\ t_id te = b_teacher_id b.

(** The user has at most one profile of each kind.  The schema does not
    enforce it: there is no [UNIQUE] on [students.user_id] or
    [teachers.user_id]. *)
Definition one_profile (t : Tables) (u : user) : Prop :=
  (forall st st', student_profile t u st -> student_profile t u st' ->
                  st_id st = st_id st') /\
  (forall te te', teacher_profile t u te -> teacher_profile t u te' ->
                  t_id te = t_id te').

End Parties.
Export Parties.

Module Scenarios.

(** Tara's week: two confirmed classes to come (the later one booked
    first), one confirmed class that is over, one booking still unpaid, and
    a confirmed class of Sam's with Tom. *)
Definition class_late : booking :=
  mkBooking 2000 10 20 1 "Grade 6-8 (Middle)" 9000 60 (18 # 1) (18 # 1)
    "confirmed" "https://meet.example/tara" "" 10 20.
Definition class_soon : booking :=
  mkBooking 2001 11 20 1 "Grade 11-12 (College)" 7000 60 (18 # 1) (18 # 1)
    "confirmed" "https://meet.example/tara" "" 11 21.
Definition class_over : booking :=
  mkBooking 2002 10 20 1 "Grade 6-8 (Middle)" 50 60 (18 # 1) (18 # 1)
    "confirmed" "https://meet.example/tara" "" 12 22.
Definition class_unpaid : booking :=
  mkBooking 2003 10 20 1 "Grade 6-8 (Middle)" 8000 60 (18 # 1) (18 # 1)
    "pending_payment" "https://meet.example/tara" "" 13 23.
Definition class_with_tom : booking :=
  mkBooking 2004 10 21 1 "Grade 6-8 (Middle)" 6000 60 (18 # 1) (18 # 1)
    "confirmed" "" "" 14 24.

Definition agenda : Conn :=
  mkConn
    (set_payment_proofs []
       (set_bookings [class_late; class_soon; class_over; class_unpaid; class_with_tom]
          Sample.sample_tables))
    (mkSeqs 2005 1) 0.

(** A catalog in which Math for Sam's grade costs 10.20 an hour and Physics
    17 an hour. *)
Definition physics : subject := mkSubject 2 "Physics".
Definition math_cents : pricing_tier := mkTier 100 1 "Grade 6-8 (Middle)" (1020 # 100).
Definition physics_middle : pricing_tier := mkTier 101 2 "Grade 6-8 (Middle)" (17 # 1).

Definition catalog_tables : Tables :=
  mkTables [Sample.admin; Sample.tara; Sample.sam; Sample.sid; Sample.tom]
    [Sample.sam_profile; Sample.sid_profile]
    [Sample.tara_profile; Sample.tom_profile] [Sample.math; physics]
    [math_cents; physics_middle] [] [].

Definition catalog : Conn := mkConn catalog_tables (mkSeqs 1 1) 0.

(** Sam books 50 minutes of Math, and 30 minutes of Physics. *)
Definition math_50 : Bookings.booking_body := Bookings.mkBookingBody 20 1 (Some 9000) 50 "".
Definition physics_30 : Bookings.booking_body :=
  Bookings.mkBookingBody 20 2 (Some 9000) 30 "".

End Scenarios.

Module Exact.

(** [round(price_per_hour * duration / 60)] as the specification writes it:
    over the rationals, halves up. *)
Definition exact_amount (pricePerHour : Q) (duration : Z) : Z :=
  Bookings.Math_round (pricePerHour * inject_Z duration / inject_Z 60)%Q.

End Exact.
Export Exact.

(** ** Properties *)

Module Facts.

Lemma includes_In (xs : list string) (x : string) :
  includes xs x = true <-> In x xs.
Proof.
  unfold includes. rewrite existsb_exists. split.
  - intros [y [Hy E]]. apply String.eqb_eq in E. now subst.
  - intros H. exists x. split; [assumption | apply String.eqb_refl].
Qed.

Lemma includes_not_In (xs : list string) (x : string) :
  ~ In x xs -> includes xs x = false.
Proof.
  intros H. destruct (includes xs x) eqn:E; [| reflexivity].
  apply includes_In in E. contradiction.
Qed.

(** An update that keeps the key commutes with a lookup by key. *)
Lemma matching_update_where {A} (id_of : A -> Z) (cond : A -> bool) (f : A -> A)
    (k : Z) (tbl : list A) :
  (forall r, id_of (f r) = id_of r) ->
  matching id_of k (update_where cond f tbl)
  = update_where cond f (matching id_of k tbl).
Proof.
  intros Hid. unfold matching, update_where.
  induction tbl as [| r tbl IH]; simpl; [reflexivity |].
  assert (E : id_of (if cond r then f r else r) = id_of r)
    by (destruct (cond r); [apply Hid | reflexivity]).
  rewrite E. destruct (id_of r =? k); simpl; now rewrite IH.
Qed.

Lemma references_matching {A} (id_of : A -> Z) (tbl : list A) (k : Z) :
  references id_of tbl k = false <-> matching id_of k tbl = [].
Proof.
  unfold references, matching.
  induction tbl as [| r tbl IH]; simpl; [tauto |].
  destruct (id_of r =? k); simpl; [split; discriminate | exact IH].
Qed.

Lemma find_booking_id t id b : find_booking t id = Some b -> b_id b = id.
Proof.
  unfold find_booking, matching. intros H.
  destruct (filter _ _) as [| x l] eqn:E; [discriminate |].
  injection H as ->.
  assert (I : In b (b :: l)) by (left; reflexivity).
  rewrite <- E in I. apply filter_In in I. destruct I as [_ I].
  now apply Z.eqb_eq in I.
Qed.

(** [transaction] publishes the work of its callback or none of it. *)
Lemma transaction_outcome {A} (callback : M A) (env : Env) (c : Conn) :
  match transaction callback env c with
  | (Ok a, c') =>
      exists c2, callback env (mkConn (tables c) (seqs c) (S (S (issued c))))
                 = (Ok a, c2) /\
                 tables c' = tables c2 /\ seqs c' = seqs c2
  | (Throw _, c') => tables c' = tables c
  end.
Proof.
  unfold transaction, bind, try_catch, control, get_tables, rollback, throw, ret, query.
  destruct (fails env (issued c)); simpl; [reflexivity |].
  destruct (fails env (S (issued c))); simpl.
  - destruct (fails env (S (S (issued c)))); reflexivity.
  - destruct (callback env _) as [[a | e] c2] eqn:E; simpl.
    + destruct (fails env (issued c2)) eqn:Ef; simpl.
      * destruct (fails env (S (issued c2))); reflexivity.
      * exists c2. repeat split.
    + destruct (fails env (issued c2)); reflexivity.
Qed.

Lemma transaction_answers {A} (callback : M A) (env : Env) (c : Conn) a c2 :
  answers env ->
  callback env (mkConn (tables c) (seqs c) (S (S (issued c)))) = (Ok a, c2) ->
  transaction callback env c = (Ok a, mkConn (tables c2) (seqs c2) (S (issued c2))).
Proof.
  intros H E.
  unfold transaction, bind, try_catch, control, get_tables, rollback, throw, ret, query.
  rewrite !H. simpl. rewrite E. rewrite H. reflexivity.
Qed.

Lemma find_proof_id t id p : find_proof t id = Some p -> pp_id p = id.
Proof.
  unfold find_proof, matching. intros H.
  destruct (filter _ _) as [| x l] eqn:E; [discriminate |].
  injection H as ->.
  assert (I : In p (p :: l)) by (left; reflexivity).
  rewrite <- E in I. apply filter_In in I. destruct I as [_ I].
  now apply Z.eqb_eq in I.
Qed.

Lemma ahead_fresh {A} (id_of : A -> Z) (tbl : list A) (k : Z) :
  forallb (fun r => id_of r <? k) tbl = true -> references id_of tbl k = false.
Proof.
  unfold references. induction tbl as [| r tbl IH]; simpl; [reflexivity |].
  intros H. apply andb_prop in H. destruct H as [H1 H2].
  apply Z.ltb_lt in H1. rewrite (IH H2).
  destruct (id_of r =? k) eqn:E; [apply Z.eqb_eq in E; lia | reflexivity].
Qed.

Lemma find_booking_In t id b :
  In b (bookings t) -> b_id b = id -> exists b0, find_booking t id = Some b0.
Proof.
  intros HI Hid. unfold find_booking.
  destruct (matching b_id id (bookings t)) as [| b0 l] eqn:E.
  - exfalso. assert (I : In b (matching b_id id (bookings t))).
    { apply filter_In. split; [exact HI | now apply Z.eqb_eq]. }
    rewrite E in I. exact I.
  - exists b0. reflexivity.
Qed.

Lemma find_booking_references t id b :
  find_booking t id = Some b -> references b_id (bookings t) id = true.
Proof.
  intros F. destruct (references b_id (bookings t) id) eqn:E; [reflexivity |].
  apply references_matching in E. unfold find_booking in F. rewrite E in F. discriminate.
Qed.

Lemma distinct_filter {A K} (key : A -> K) (eqb : K -> K -> bool) (pred : A -> bool)
    (l : list A) (x : A) :
  distinct eqb (map key l) = true ->
  (forall y z, pred y = true -> pred z = true -> eqb (key y) (key z) = true) ->
  In x l -> pred x = true ->
  filter pred l = [x].
Proof.
  intros D Hk. induction l as [| z l IH]; simpl; intros HI Hx; [contradiction |].
  simpl in D. apply andb_prop in D. destruct D as [D1 D2].
  apply negb_true_iff in D1.
  assert (N : forall y, In y l -> pred y = true -> pred z = true -> False).
  { intros y Hy Py Pz.
    assert (E : existsb (eqb (key z)) (map key l) = true).
    { apply existsb_exists. exists (key y). split; [now apply in_map | now apply Hk]. }
    rewrite E in D1. discriminate. }
  destruct (pred z) eqn:Pz.
  - assert (F : filter pred l = []).
    { destruct (filter pred l) as [| y l'] eqn:E; [reflexivity |].
      exfalso. assert (I : In y (y :: l')) by (left; reflexivity).
      rewrite <- E in I. apply filter_In in I. destruct I as [I1 I2].
      exact (N y I1 I2 eq_refl). }
    rewrite F. destruct HI as [-> | HI]; [reflexivity |].
    exfalso. exact (N x HI Hx eq_refl).
  - destruct HI as [-> | HI]; [congruence |]. exact (IH D2 HI Hx).
Qed.

Lemma In_references {A} (id_of : A -> Z) (tbl : list A) (x : A) :
  In x tbl -> references id_of tbl (id_of x) = true.
Proof.
  intros H. unfold references. apply existsb_exists.
  exists x. split; [exact H | apply Z.eqb_refl].
Qed.

(** A key that is referenced and unique designates exactly one row. *)
Lemma unique_row {A} (id_of : A -> Z) (tbl : list A) (k : Z) :
  distinct Z.eqb (map id_of tbl) = true ->
  references id_of tbl k = true ->
  exists r, In r tbl /\ id_of r = k /\ matching id_of k tbl = [r].
Proof.
  intros D R. unfold references in R. apply existsb_exists in R.
  destruct R as [r [HI E]]. exists r. split; [exact HI |].
  split; [now apply Z.eqb_eq |].
  unfold matching. apply (distinct_filter id_of Z.eqb); auto.
  intros y z Hy Hz. apply Z.eqb_eq in Hy, Hz. apply Z.eqb_eq. congruence.
Qed.

Lemma insert_by_perm {A} (le : A -> A -> bool) (x : A) (l : list A) :
  Permutation (insert_by le x l) (x :: l).
Proof.
  induction l as [| y l IH]; simpl; [reflexivity |].
  destruct (le x y); [reflexivity |].
  rewrite IH. apply perm_swap.
Qed.

Lemma order_by_perm {A} (le : A -> A -> bool) (l : list A) :
  Permutation (order_by le l) l.
Proof.
  unfold order_by. induction l as [| x l IH]; simpl; [reflexivity |].
  rewrite insert_by_perm. now apply perm_skip.
Qed.

Section Ascending.
Context {A : Type} (key : A -> Z).

Lemma insert_by_sorted (x : A) (l : list A) :
  StronglySorted (by_key key) l -> StronglySorted (by_key key) (insert_by (asc key) x l).
Proof.
  induction 1 as [| y l S IH F]; simpl.
  - constructor; constructor.
  - unfold asc at 1. destruct (key x <=? key y) eqn:E.
    + apply Z.leb_le in E. constructor.
      * constructor; assumption.
      * constructor; [exact E |].
        rewrite Forall_forall in F |- *. intros z Hz.
        specialize (F z Hz). unfold by_key in *. lia.
    + apply Z.leb_gt in E. constructor; [exact IH |].
      rewrite Forall_forall in F |- *. intros z Hz.
      apply (Permutation_in _ (insert_by_perm (asc key) x l)) in Hz.
      destruct Hz as [<- | Hz]; [unfold by_key; lia | exact (F z Hz)].
Qed.

Lemma order_by_sorted (l : list A) :
  StronglySorted (by_key key) (order_by (asc key) l).
Proof.
  unfold order_by. induction l as [| x l IH]; simpl.
  - constructor.
  - now apply insert_by_sorted.
Qed.

End Ascending.

(** A join that finds exactly one partner per row keeps the rows as they are. *)
Lemma join_one_each {A B} (J : A -> list B) (proj : B -> A) (P : A -> bool) (l : list A) :
  (forall x, In x l -> exists r, J x = [r] /\ proj r = x) ->
  map proj (filter (fun r => P (proj r)) (flat_map J l)) = filter P l.
Proof.
  induction l as [| x l IH]; simpl; intros H; [reflexivity |].
  destruct (H x (or_introl eq_refl)) as [r [E Hr]].
  rewrite E. simpl. rewrite Hr.
  rewrite <- IH by (intros y Hy; apply H; now right).
  destruct (P x); simpl; [rewrite Hr |]; reflexivity.
Qed.

(** The constraints that [integrity] checks, one by one. *)
Lemma integrity_parts (t : Tables) (s : Sequences) :
  integrity t s = true ->
  distinct Z.eqb (map u_id (users t)) = true /\
  distinct Z.eqb (map st_id (students t)) = true /\
  distinct Z.eqb (map t_id (teachers t)) = true /\
  distinct Z.eqb (map sub_id (subjects t)) = true /\
  distinct Z.eqb (map b_id (bookings t)) = true /\
  distinct Z.eqb (map pp_id (payment_proofs t)) = true /\
  distinct tier_key_eqb (map tier_key (pricing_tiers t)) = true /\
  (forall st, In st (students t) -> references u_id (users t) (st_user_id st) = true) /\
  (forall te, In te (teachers t) -> references u_id (users t) (t_user_id te) = true) /\
  (forall p, In p (pricing_tiers t) ->
             references sub_id (subjects t) (pt_subject_id p) = true) /\
  (forall b, In b (bookings t) ->
             references st_id (students t) (b_student_id b) = true /\
             references t_id (teachers t) (b_teacher_id b) = true /\
             references sub_id (subjects t) (b_subject_id b) = true) /\
  (forall p, In p (payment_proofs t) ->
             references b_id (bookings t) (pp_booking_id p) = true) /\
  references b_id (bookings t) (bookings_id_seq s) = false /\
  references pp_id (payment_proofs t) (payment_proofs_id_seq s) = false.
Proof.
  unfold integrity. rewrite !andb_true_iff, !forallb_forall.
  intros [[[[[[[[[[[[[U S] T] Sb] B] P] Ti] Fs] Ft] Fp] Fb] Fpp] Ab] Ap].
  repeat (split; [assumption |]).
  split; [| split; [assumption |]].
  - intros b Hb. specialize (Fb b Hb). rewrite !andb_true_iff in Fb. tauto.
  - split; apply ahead_fresh; now apply forallb_forall.
Qed.

Lemma integrity_proofs_fresh t s :
  integrity t s = true ->
  references pp_id (payment_proofs t) (payment_proofs_id_seq s) = false.
Proof. intros H. apply integrity_parts in H. tauto. Qed.

Lemma integrity_join t s :
  integrity t s = true ->
  forall pp, In pp (payment_proofs t) ->
  exists b sub st su te tu,
    matching b_id (pp_booking_id pp) (bookings t) = [b] /\
    matching sub_id (b_subject_id b) (subjects t) = [sub] /\
    matching st_id (b_student_id b) (students t) = [st] /\
    matching u_id (st_user_id st) (users t) = [su] /\
    matching t_id (b_teacher_id b) (teachers t) = [te] /\
    matching u_id (t_user_id te) (users t) = [tu].
Proof.
  intros H pp Hpp.
  destruct (integrity_parts _ _ H)
    as (U & S & T & Sb & B & _ & _ & Fs & Ft & _ & Fb & Fpp & _).
  destruct (unique_row b_id (bookings t) (pp_booking_id pp) B (Fpp pp Hpp))
    as [b [Hb [_ Eb]]].
  destruct (Fb b Hb) as (Rst & Rte & Rsub).
  destruct (unique_row sub_id (subjects t) (b_subject_id b) Sb Rsub) as [sub [_ [_ Es]]].
  destruct (unique_row st_id (students t) (b_student_id b) S Rst) as [st [Hst [_ Est]]].
  destruct (unique_row t_id (teachers t) (b_teacher_id b) T Rte) as [te [Hte [_ Ete]]].
  destruct (unique_row u_id (users t) (st_user_id st) U (Fs st Hst)) as [su [_ [_ Esu]]].
  destruct (unique_row u_id (users t) (t_user_id te) U (Ft te Hte)) as [tu [_ [_ Etu]]].
  exists b, sub, st, su, te, tu. tauto.
Qed.

(** The handlers' ownership tests against the tables. *)
Lemma isStudent_booked t u b :
  Bookings.isStudent (filter (fun st => st_user_id st =? u_id u) (students t)) b = true ->
  booked_by t u b.
Proof.
  destruct (filter _ (students t)) as [| st0 sts] eqn:E; simpl; [discriminate |].
  intros H. exists st0. split; [| now apply Z.eqb_eq].
  assert (J : In st0 (st0 :: sts)) by (left; reflexivity).
  rewrite <- E in J. apply filter_In in J. destruct J as [J1 J2].
  split; [exact J1 | now apply Z.eqb_eq].
Qed.

Lemma booked_isStudent t u b :
  one_profile t u -> booked_by t u b ->
  Bookings.isStudent (filter (fun st => st_user_id st =? u_id u) (students t)) b = true.
Proof.
  intros [One _] [st [[Hin Hu] Hid]].
  assert (J : In st (filter (fun st => st_user_id st =? u_id u) (students t))).
  { apply filter_In. split; [exact Hin | now apply Z.eqb_eq]. }
  destruct (filter _ (students t)) as [| st0 sts] eqn:E; [destruct J |].
  simpl. apply Z.eqb_eq. rewrite <- Hid. apply One; [| split; assumption].
  assert (J0 : In st0 (st0 :: sts)) by (left; reflexivity).
  rewrite <- E in J0. apply filter_In in J0. destruct J0 as [J1 J2].
  split; [exact J1 | now apply Z.eqb_eq].
Qed.

Lemma isTeacher_taught t u b :
  Bookings.isTeacher (filter (fun te => t_user_id te =? u_id u) (teachers t)) b = true ->
  taught_by t u b.
Proof.
  destruct (filter _ (teachers t)) as [| te0 tes] eqn:E; simpl; [discriminate |].
  intros H. exists te0. split; [| now apply Z.eqb_eq].
  assert (J : In te0 (te0 :: tes)) by (left; reflexivity).
  rewrite <- E in J. apply filter_In in J. destruct J as [J1 J2].
  split; [exact J1 | now apply Z.eqb_eq].
Qed.

Lemma taught_isTeacher t u b :
  one_profile t u -> taught_by t u b ->
  Bookings.isTeacher (filter (fun te => t_user_id te =? u_id u) (teachers t)) b = true.
Proof.
  intros [_ One] [te [[Hin Hu] Hid]].
  assert (J : In te (filter (fun te => t_user_id te =? u_id u) (teachers t))).
  { apply filter_In. split; [exact Hin | now apply Z.eqb_eq]. }
  destruct (filter _ (teachers t)) as [| te0 tes] eqn:E; [destruct J |].
  simpl. apply Z.eqb_eq. rewrite <- Hid. apply One; [| split; assumption].
  assert (J0 : In te0 (te0 :: tes)) by (left; reflexivity).
  rewrite <- E in J0. apply filter_In in J0. destruct J0 as [J1 J2].
  split; [exact J1 | now apply Z.eqb_eq].
Qed.

(** The two tests decide whether the caller is a party, when the caller has
    one profile at most. *)
Lemma party_tests t u b :
  one_profile t u ->
  (booked_by t u b <->
   Bookings.isStudent (filter (fun st => st_user_id st =? u_id u) (students t)) b = true) /\
  (taught_by t u b <->
   Bookings.isTeacher (filter (fun te => t_user_id te =? u_id u) (teachers t)) b = true).
Proof.
  intros One. split; split;
    auto using isStudent_booked, booked_isStudent, isTeacher_taught, taught_isTeacher.
Qed.

(** The people of the sample stores have one profile each. *)
Lemma sample_one_profile (u : user) (bs : list booking) (ps : list payment_proof) :
  one_profile (set_payment_proofs ps (set_bookings bs Sample.sample_tables)) u.
Proof.
  split.
  - intros st st' [H1 E1] [H2 E2]. simpl in H1, H2.
    destruct H1 as [<- | [<- | []]], H2 as [<- | [<- | []]];
      simpl in *; try reflexivity; rewrite <- E1 in E2; discriminate E2.
  - intros te te' [H1 E1] [H2 E2]. simpl in H1, H2.
    destruct H1 as [<- | [<- | []]], H2 as [<- | [<- | []]];
      simpl in *; try reflexivity; rewrite <- E1 in E2; discriminate E2.
Qed.

End Facts.
Import Facts.

Module UpdateBookingStatus.
Import Bookings.

(** C7. A status outside the five defined ones is answered with 400
    (InvalidArgument) whoever calls and whatever the booking id; the handler
    has then issued no round trip to the store, which is left exactly as it
    was, on any store behaviour. *)
Theorem invalid_status_rejected_first (env : Env) (c : Conn) (caller : user)
    (id : Z) (status : string) :
  ~ In status validStatuses ->
  serve (put_booking_status caller id status) env c
  = (failure 400 "Invalid status", c).
Proof.
  intros H. unfold serve, put_booking_status, try_catch.
  rewrite (includes_not_In _ _ H). reflexivity.
Qed.

Lemma invalid_status_rejected_first_witness :
  ~ In "refunded" validStatuses /\
  serve (put_booking_status Sample.sam 1000 "refunded") (reliable 100) Sample.store
  = (failure 400 "Invalid status", Sample.store).
Proof.
  assert (H : ~ In "refunded" validStatuses).
  { simpl. intros [E | [E | [E | [E | [E | []]]]]]; discriminate E. }
  split; [exact H |].
  exact (invalid_status_rejected_first (reliable 100) Sample.store Sample.sam
           1000 "refunded" H).
Defined.

Lemma put_status_run now c caller id status booking :
  includes validStatuses status = true ->
  find_booking (tables c) id = Some booking ->
  let r := fst (serve (put_booking_status caller id status) (reliable now) c) in
  let c' := snd (serve (put_booking_status caller id status) (reliable now) c) in
  if (u_role caller =? "admin")%string || negb (denied_by_matrix (tables c) caller booking status)
  then accepted r c' id status
  else refused r c c'.
Proof.
  intros Hv F. cbv zeta. pose proof (find_booking_id _ _ _ F) as Hid.
  pose proof F as F'. unfold find_booking in F'.
  destruct (matching b_id id (bookings (tables c))) as [| b0 rest] eqn:EM; [discriminate |].
  injection F' as ->.
  assert (U : option_map b_status (find_booking (set_bookings
            (update_where (fun b => b_id b =? id) (set_booking_status status now)
               (bookings (tables c))) (tables c)) id) = Some status).
  { unfold find_booking. simpl.
    rewrite matching_update_where by reflexivity. rewrite EM. simpl.
    rewrite Hid, Z.eqb_refl. reflexivity. }
  unfold denied_by_matrix, serve, put_booking_status, try_catch, not_authorized, accepted, refused, Forbidden.
  rewrite Hv.
  unfold bind, query, booking_by_id, students_of_user, teachers_of_user, update_booking_status, select, ret.
  set (inc := includes ["confirmed"; "completed"] status). clearbody inc.
  set (canc := (status =? "cancelled")%string). clearbody canc.
  simpl. rewrite EM.
  destruct (u_role caller =? "admin")%string; simpl.
  - split; [reflexivity | exact U].
  - destruct (isStudent _ booking), (isTeacher _ booking), canc, inc; simpl;
    try (split; reflexivity); (split; [reflexivity | exact U]).
Qed.

(** C5. The role matrix of the status update, for an existing booking and a
    valid target status, on a store that answers, for a caller with at most
    one student and one teacher profile.  An administrator may set any of
    the five statuses on any booking.  The student of the booking (the
    caller whose student profile [bookings.student_id] names) is refused
    (Forbidden) every target but [cancelled], and may set [cancelled]; the
    teacher of the booking is refused every target but [confirmed] and
    [completed], and may set those; any other caller, a student or teacher
    of other bookings included, is refused.  (The two permissions are for a
    caller who is not at once the student and the teacher of the booking.)
    A refusal changes no table. *)
Theorem role_matrix (now : Z) (c : Conn) (caller : user) (id : Z)
    (status : string) (booking : booking) :
  In status validStatuses ->
  find_booking (tables c) id = Some booking ->
  one_profile (tables c) caller ->
  let student := booked_by (tables c) caller booking in
  let teacher := taught_by (tables c) caller booking in
  let r := fst (serve (put_booking_status caller id status) (reliable now) c) in
  let c' := snd (serve (put_booking_status caller id status) (reliable now) c) in
  (u_role caller = "admin" -> accepted r c' id status) /\
  (u_role caller <> "admin" -> student -> status <> "cancelled" ->
   refused r c c') /\
  (u_role caller <> "admin" -> student -> ~ teacher ->
   status = "cancelled" -> accepted r c' id status) /\
  (u_role caller <> "admin" -> teacher ->
   status <> "confirmed" -> status <> "completed" -> refused r c c') /\
  (u_role caller <> "admin" -> teacher -> ~ student ->
   status = "confirmed" \/ status = "completed" -> accepted r c' id status) /\
  (u_role caller <> "admin" -> ~ student -> ~ teacher ->
   refused r c c').
Proof.
  intros Hv F One student teacher r c'.
  apply includes_In in Hv.
  pose proof (put_status_run now c caller id status booking Hv F) as R.
  cbv zeta in R. unfold denied_by_matrix in R.
  destruct (party_tests (tables c) caller booking One) as [Ps Pt].
  fold student in Ps. fold teacher in Pt. fold r c' in R.
  set (owner_s := isStudent _ booking) in *.
  set (owner_t := isTeacher _ booking) in *.
  clearbody r c' owner_s owner_t student teacher.
  assert (Ns : ~ student -> owner_s = false).
  { intros N. destruct owner_s; [| reflexivity]. exfalso. apply N, Ps. reflexivity. }
  assert (Nt : ~ teacher -> owner_t = false).
  { intros N. destruct owner_t; [| reflexivity]. exfalso. apply N, Pt. reflexivity. }
  assert (A : forall x, x <> "admin" -> (x =? "admin")%string = false)
    by (intros x Hx; now apply String.eqb_neq).
  assert (I : includes ["confirmed"; "completed"] status = true <->
              (status = "confirmed" \/ status = "completed")).
  { rewrite includes_In. simpl. intuition congruence. }
  refine (conj _ (conj _ (conj _ (conj _ (conj _ _))))).
  - intros E. rewrite E in R. exact R.
  - intros Hr Hs Hc. apply Ps in Hs. rewrite (A _ Hr), Hs in R.
    apply String.eqb_neq in Hc. rewrite Hc in R. exact R.
  - intros Hr Hs Ht ->. apply Ps in Hs. apply Nt in Ht.
    rewrite (A _ Hr), Hs, Ht in R. exact R.
  - intros Hr Ht H1 H2. apply Pt in Ht. rewrite (A _ Hr), Ht in R.
    destruct (includes ["confirmed"; "completed"] status) eqn:EI.
    + destruct (proj1 I eq_refl); contradiction.
    + destruct owner_s, (status =? "cancelled")%string; exact R.
  - intros Hr Ht Hs Hc. apply I in Hc. apply Pt in Ht. apply Ns in Hs.
    rewrite (A _ Hr), Ht, Hs, Hc in R. exact R.
  - intros Hr Hs Ht. apply Ns in Hs. apply Nt in Ht.
    rewrite (A _ Hr), Hs, Ht in R. exact R.
Qed.

Lemma role_matrix_witness :
  accepted
    (fst (serve (put_booking_status Sample.admin 1000 "completed") (reliable 100) Sample.store))
    (snd (serve (put_booking_status Sample.admin 1000 "completed") (reliable 100) Sample.store))
    1000 "completed" /\
  accepted
    (fst (serve (put_booking_status Sample.sam 1000 "cancelled") (reliable 100) Sample.store))
    (snd (serve (put_booking_status Sample.sam 1000 "cancelled") (reliable 100) Sample.store))
    1000 "cancelled" /\
  refused
    (fst (serve (put_booking_status Sample.sam 1000 "confirmed") (reliable 100) Sample.store))
    Sample.store
    (snd (serve (put_booking_status Sample.sam 1000 "confirmed") (reliable 100) Sample.store)) /\
  accepted
    (fst (serve (put_booking_status Sample.tara 1000 "confirmed") (reliable 100) Sample.store))
    (snd (serve (put_booking_status Sample.tara 1000 "confirmed") (reliable 100) Sample.store))
    1000 "confirmed" /\
  refused
    (fst (serve (put_booking_status Sample.tara 1000 "cancelled") (reliable 100) Sample.store))
    Sample.store
    (snd (serve (put_booking_status Sample.tara 1000 "cancelled") (reliable 100) Sample.store)) /\
  refused
    (fst (serve (put_booking_status Sample.sid 1000 "cancelled") (reliable 100) Sample.store))
    Sample.store
    (snd (serve (put_booking_status Sample.sid 1000 "cancelled") (reliable 100) Sample.store)) /\
  refused
    (fst (serve (put_booking_status Sample.tom 1000 "confirmed") (reliable 100) Sample.store))
    Sample.store
    (snd (serve (put_booking_status Sample.tom 1000 "confirmed") (reliable 100) Sample.store)).
Proof.
  assert (F : find_booking (tables Sample.store) 1000 = Some Sample.sam_booking)
    by reflexivity.
  assert (One : forall u, one_profile (tables Sample.store) u).
  { intros u. exact (sample_one_profile u _ _). }
  assert (V : forall s, In s ["completed"; "cancelled"; "confirmed"] -> In s validStatuses).
  { intros s H. simpl in *. tauto. }
  assert (Sam_s : booked_by (tables Sample.store) Sample.sam Sample.sam_booking).
  { exists Sample.sam_profile. split; [split; [left |] |]; reflexivity. }
  assert (Tara_t : taught_by (tables Sample.store) Sample.tara Sample.sam_booking).
  { exists Sample.tara_profile. split; [split; [left |] |]; reflexivity. }
  assert (No_s : forall u, u_id u <> 3 ->
                   ~ booked_by (tables Sample.store) u Sample.sam_booking).
  { intros u N [st [[Hin Hu] Hid]]. simpl in Hin.
    destruct Hin as [<- | [<- | []]]; simpl in *; [congruence | discriminate Hid]. }
  assert (No_t : forall u, u_id u <> 2 ->
                   ~ taught_by (tables Sample.store) u Sample.sam_booking).
  { intros u N [te [[Hin Hu] Hid]]. simpl in Hin.
    destruct Hin as [<- | [<- | []]]; simpl in *; [congruence | discriminate Hid]. }
  pose (M := fun caller status (H : In status ["completed"; "cancelled"; "confirmed"]) =>
               role_matrix 100 Sample.store caller 1000 status Sample.sam_booking
                 (V status H) F (One caller)).
  refine (conj _ (conj _ (conj _ (conj _ (conj _ (conj _ _)))))).
  - refine (proj1 (M Sample.admin "completed" _) eq_refl). simpl; tauto.
  - refine (proj1 (proj2 (proj2 (M Sample.sam "cancelled" _))) _ Sam_s _ eq_refl);
      [simpl; tauto | discriminate | apply No_t; discriminate].
  - refine (proj1 (proj2 (M Sample.sam "confirmed" _)) _ Sam_s _);
      [simpl; tauto | discriminate | discriminate].
  - refine (proj1 (proj2 (proj2 (proj2 (proj2 (M Sample.tara "confirmed" _)))))
              _ Tara_t _ (or_introl eq_refl));
      [simpl; tauto | discriminate | apply No_s; discriminate].
  - refine (proj1 (proj2 (proj2 (proj2 (M Sample.tara "cancelled" _)))) _ Tara_t _ _);
      [simpl; tauto | discriminate | discriminate | discriminate].
  - refine (proj2 (proj2 (proj2 (proj2 (proj2 (M Sample.sid "cancelled" _))))) _ _ _);
      [simpl; tauto | discriminate | apply No_s; discriminate | apply No_t; discriminate].
  - refine (proj2 (proj2 (proj2 (proj2 (proj2 (M Sample.tom "confirmed" _))))) _ _ _);
      [simpl; tauto | discriminate | apply No_s; discriminate | apply No_t; discriminate].
Defined.

End UpdateBookingStatus.

Module ReviewPayment.
Import Payments.

(** What the review unit leaves behind when it completes. *)
Lemma review_unit_effect env c1 status notes id p b :
  find_proof (tables c1) id = Some p ->
  find_booking (tables c1) (pp_booking_id p) = Some b ->
  match review_unit status notes id env c1 with
  | (Ok _, c2) =>
      pair_status (tables c2) id (pp_booking_id p)
      = Some (status, newBookingStatus status)
  | (Throw _, _) => exists n, fails env n = true
  end.
Proof.
  intros Fp Fb.
  pose proof (find_proof_id _ _ _ Fp) as Hp.
  pose proof (find_booking_id _ _ _ Fb) as Hb.
  unfold find_proof in Fp. unfold find_booking in Fb.
  destruct (matching pp_id id (payment_proofs (tables c1))) as [| p0 ps] eqn:EMp;
    [discriminate |].
  injection Fp as ->.
  destruct (matching b_id (pp_booking_id p) (bookings (tables c1))) as [| b0 bs] eqn:EMb;
    [discriminate |].
  injection Fb as ->.
  unfold review_unit, bind, query, review_proof, proof_by_id, select,
    set_status_of_booking, rows0.
  destruct (fails env (issued c1)) eqn:E1; [eauto |]. simpl.
  destruct (fails env (S (issued c1))) eqn:E2; [eauto |].
  rewrite matching_update_where by reflexivity.
  rewrite EMp. simpl. rewrite Hp, Z.eqb_refl. simpl.
  destruct (fails env (S (S (issued c1)))) eqn:E3; [eauto |].
  unfold pair_status, find_proof, find_booking. simpl.
  rewrite !matching_update_where by reflexivity.
  rewrite EMp, EMb. simpl. rewrite Hp, Hb, !Z.eqb_refl. reflexivity.
Qed.

Lemma review_unit_absent env c1 status notes id :
  find_proof (tables c1) id = None ->
  exists e c2, review_unit status notes id env c1 = (Throw e, c2).
Proof.
  intros Fp. unfold find_proof in Fp.
  destruct (matching pp_id id (payment_proofs (tables c1))) as [| p0 ps] eqn:EMp;
    [clear Fp | discriminate].
  unfold review_unit, bind, query, review_proof, proof_by_id, select,
    set_status_of_booking, rows0.
  destruct (fails env (issued c1)); [eauto |]. simpl.
  destruct (fails env (S (issued c1))); [eauto |].
  rewrite matching_update_where by reflexivity.
  rewrite EMp. simpl. eauto.
Qed.

Lemma put_verify_run env c caller id body :
  u_role caller = "admin" ->
  In (status body) ["approved"; "rejected"] ->
  serve (put_verify caller id body) env c
  = match transaction (review_unit (status body) (notes body) id) env c with
    | (Ok _, c') =>
        (mkResponse 200 true
           (Some ("Payment " ++ status body ++ " successfully")) NoData, c')
    | (Throw _, c') => (failure 500 "Failed to verify payment", c')
    end.
Proof.
  intros Hr Hv. apply includes_In in Hv.
  unfold serve, put_verify, requireAdmin, try_catch, bind, ret.
  rewrite Hr, Hv. simpl.
  destruct (transaction _ env c) as [[u | e] c']; reflexivity.
Qed.

Lemma review_valid env c caller id body p b decision :
  u_role caller = "admin" ->
  status body = decision ->
  In decision ["approved"; "rejected"] ->
  find_proof (tables c) id = Some p ->
  find_booking (tables c) (pp_booking_id p) = Some b ->
  let r := fst (serve (put_verify caller id body) env c) in
  let c' := snd (serve (put_verify caller id body) env c) in
  all_or_nothing r c c'
    (pair_status (tables c') id (pp_booking_id p)
     = Some (decision, newBookingStatus decision)) /\
  (answers env -> success r = true).
Proof.
  intros Hr Hd Hv Fp Fb. subst decision. cbv zeta. rewrite (put_verify_run env c caller id body Hr Hv).
  pose proof (review_unit_effect env (mkConn (tables c) (seqs c) (S (S (issued c))))
                (status body) (notes body) id p b Fp Fb) as U.
  split.
  - pose proof (transaction_outcome (review_unit (status body) (notes body) id) env c) as T.
    destruct (transaction _ env c) as [[u | e] c']; simpl.
    + left. split; [reflexivity |].
      destruct T as [c2 [E [Et _]]]. rewrite E in U. rewrite Et. exact U.
    + right. split; [reflexivity | exact T].
  - intros A.
    destruct (review_unit _ _ _ env _) as [[u | e] c2] eqn:E.
    + rewrite (transaction_answers _ env c u c2 A E). reflexivity.
    + destruct U as [n U]. rewrite A in U. discriminate.
Qed.

(** C1. For an administrator and an existing payment proof whose booking
    exists: a review with decision [approved] either succeeds, and then the
    proof is [approved] and its booking [confirmed], or fails as Internal
    with every table as before; a review with decision [rejected] either
    succeeds, and then the proof is [rejected] and the booking
    [pending_payment], or fails with every table as before.  Whatever the
    store does, the pair is never left half updated; and when the store
    answers, the review succeeds. *)
Theorem review_resolves_pair (env : Env) (c : Conn) (caller : user) (id : Z)
    (body : verify_body) (p : payment_proof) (b : booking) :
  u_role caller = "admin" ->
  find_proof (tables c) id = Some p ->
  find_booking (tables c) (pp_booking_id p) = Some b ->
  let r := fst (serve (put_verify caller id body) env c) in
  let c' := snd (serve (put_verify caller id body) env c) in
  (status body = "approved" ->
   all_or_nothing r c c'
     (pair_status (tables c') id (pp_booking_id p) = Some ("approved", "confirmed")) /\
   (answers env -> success r = true)) /\
  (status body = "rejected" ->
   all_or_nothing r c c'
     (pair_status (tables c') id (pp_booking_id p) = Some ("rejected", "pending_payment")) /\
   (answers env -> success r = true)).
Proof.
  intros Hr Fp Fb. cbv zeta. split; intros Hs.
  - apply (review_valid env c caller id body p b "approved" Hr Hs); simpl; tauto.
  - apply (review_valid env c caller id body p b "rejected" Hr Hs); simpl; tauto.
Qed.

Lemma review_resolves_pair_witness :
  u_role Sample.admin = "admin" /\
  find_proof (tables Sample.store) 500 = Some Sample.proof1 /\
  find_booking (tables Sample.store) 1000 = Some Sample.sam_booking /\
  pair_status
    (tables (snd (serve (put_verify Sample.admin 500 (mkVerifyBody "approved" ""))
                    (reliable 100) Sample.store))) 500 1000
  = Some ("approved", "confirmed").
Proof.
  assert (H1 : u_role Sample.admin = "admin") by reflexivity.
  assert (H2 : find_proof (tables Sample.store) 500 = Some Sample.proof1) by reflexivity.
  assert (H3 : find_booking (tables Sample.store) (pp_booking_id Sample.proof1)
               = Some Sample.sam_booking) by reflexivity.
  split; [exact H1 |]. split; [exact H2 |]. split; [exact H3 |].
  destruct (proj1 (proj1 (review_resolves_pair (reliable 100) Sample.store Sample.admin
                            500 (mkVerifyBody "approved" "") Sample.proof1
                            Sample.sam_booking H1 H2 H3) eq_refl))
    as [[_ Done] | [Bad _]].
  - exact Done.
  - vm_compute in Bad. discriminate Bad.
Defined.

(** C10. For an administrator and a valid decision, reviewing a proof id
    that designates no payment proof is answered with 500 (Internal), not
    404, whatever the store does, and every table is as before: the unit
    throws on reading the booking id of the missing row, and the update that
    matched no row is rolled back. *)
Theorem review_of_missing_proof (env : Env) (c : Conn) (caller : user) (id : Z)
    (body : verify_body) :
  u_role caller = "admin" ->
  In (status body) ["approved"; "rejected"] ->
  find_proof (tables c) id = None ->
  fst (serve (put_verify caller id body) env c)
  = failure 500 "Failed to verify payment" /\
  tables (snd (serve (put_verify caller id body) env c)) = tables c.
Proof.
  intros Hr Hv Fp. rewrite (put_verify_run env c caller id body Hr Hv).
  pose proof (transaction_outcome (review_unit (status body) (notes body) id) env c) as T.
  destruct (transaction _ env c) as [[u | e] c']; simpl.
  - destruct T as [c2 [E _]].
    destruct (review_unit_absent env (mkConn (tables c) (seqs c) (S (S (issued c))))
                (status body) (notes body) id Fp) as [e [c3 E']].
    rewrite E' in E. discriminate.
  - split; [reflexivity | exact T].
Qed.

Lemma review_of_missing_proof_witness :
  u_role Sample.admin = "admin" /\
  In "rejected" ["approved"; "rejected"] /\
  find_proof (tables Sample.store) 999 = None /\
  fst (serve (put_verify Sample.admin 999 (mkVerifyBody "rejected" "illegible"))
         (reliable 100) Sample.store)
  = failure 500 "Failed to verify payment" /\
  tables (snd (serve (put_verify Sample.admin 999 (mkVerifyBody "rejected" "illegible"))
                 (reliable 100) Sample.store))
  = tables Sample.store.
Proof.
  assert (H1 : u_role Sample.admin = "admin") by reflexivity.
  assert (H2 : In "rejected" ["approved"; "rejected"]) by (simpl; tauto).
  assert (H3 : find_proof (tables Sample.store) 999 = None) by reflexivity.
  split; [exact H1 |]. split; [exact H2 |]. split; [exact H3 |].
  exact (review_of_missing_proof (reliable 100) Sample.store Sample.admin 999
           (mkVerifyBody "rejected" "illegible") H1 H2 H3).
Defined.

End ReviewPayment.

Module SubmitPaymentProof.
Import Payments.

(** What the upload unit leaves behind when it completes, and why it may not. *)
Lemma upload_unit_effect env c1 bookingId fileUrl fileName b :
  find_booking (tables c1) bookingId = Some b ->
  match upload_unit bookingId fileUrl fileName env c1 with
  | (Ok _, c2) =>
      exists p, payment_proofs (tables c2) = (payment_proofs (tables c1) ++ [p])%list /\
                pp_booking_id p = bookingId /\ pp_status p = "pending" /\
                option_map b_status (find_booking (tables c2) bookingId)
                = Some "payment_under_review"
  | (Throw _, _) =>
      (exists n, fails env n = true) \/
      references pp_id (payment_proofs (tables c1)) (payment_proofs_id_seq (seqs c1)) = true
  end.
Proof.
  intros Fb.
  pose proof (find_booking_id _ _ _ Fb) as Hb.
  pose proof (find_booking_references _ _ _ Fb) as Hr.
  unfold find_booking in Fb.
  destruct (matching b_id bookingId (bookings (tables c1))) as [| b0 bs] eqn:EMb;
    [discriminate |].
  injection Fb as ->.
  unfold upload_unit, bind, query, insert_proof, set_status_of_booking.
  destruct (fails env (issued c1)) eqn:E1; [eauto |].
  rewrite Hr. simpl.
  destruct (references pp_id _ _) eqn:Ef; simpl; [right; reflexivity |].
  destruct (fails env (S (issued c1))) eqn:E2; [eauto |].
  eexists. split; [reflexivity |]. split; [reflexivity |]. split; [reflexivity |].
  unfold find_booking. simpl.
  rewrite matching_update_where by reflexivity.
  rewrite EMb. simpl. rewrite Hb, Z.eqb_refl. reflexivity.
Qed.

Lemma post_payments_run env c caller body st :
  u_role caller = "student" ->
  bookingId body <> 0 -> fileUrl body <> "" ->
  hd_error (filter (fun st => st_user_id st =? u_id caller) (students (tables c)))
  = Some st ->
  serve (post_payments caller body) env c
  = if fails env (issued c)
    then (failure 500 "Failed to upload payment proof",
          mkConn (tables c) (seqs c) (S (issued c)))
    else
      let c0 := mkConn (tables c) (seqs c) (S (S (issued c))) in
      if fails env (S (issued c))
      then (failure 500 "Failed to upload payment proof", c0)
      else
        match filter (fun b => (b_id b =? bookingId body) && (b_student_id b =? st_id st))
                (bookings (tables c)) with
        | [] => (failure 404 "Booking not found", c0)
        | _ :: _ =>
            match transaction
                    (upload_unit (bookingId body) (fileUrl body) (fileName body))
                    env c0 with
            | (Ok _, c') =>
                (mkResponse 201 true (Some "Payment proof uploaded successfully") NoData,
                 c')
            | (Throw _, c') => (failure 500 "Failed to upload payment proof", c')
            end
        end.
Proof.
  intros Hr Hid Hurl Hst.
  apply Z.eqb_neq in Hid. apply String.eqb_neq in Hurl.
  unfold serve, post_payments, requireStudent, try_catch.
  rewrite Hr, Hid, Hurl. simpl.
  unfold bind, query, students_of_user, booking_of_student, select, rows0, ret, throw.
  destruct (fails env (issued c)); [reflexivity |].
  destruct (filter _ (students (tables c))) as [| st0 sts]; [discriminate |].
  injection Hst as ->. simpl.
  destruct (fails env (S (issued c))); [reflexivity |].
  destruct (filter _ (bookings (tables c))) as [| b1 bs]; [reflexivity |].
  simpl. destruct (transaction _ env _) as [[u | e] c']; reflexivity.
Qed.

(** C4. For a student caller with a profile and a booking of that student,
    submitting a payment proof runs one transaction: either it succeeds
    (201), and then one payment proof with status [pending] has been added
    for the booking and the booking is [payment_under_review], or it fails as
    Internal and neither the proof nor the status change is there: every
    table is as before.  On a store that answers and satisfies the schema's
    constraints it succeeds. *)
Theorem upload_is_atomic (env : Env) (c : Conn) (caller : user) (body : payment_body)
    (st : student) (b : booking) :
  u_role caller = "student" ->
  bookingId body <> 0 -> fileUrl body <> "" ->
  hd_error (filter (fun st => st_user_id st =? u_id caller) (students (tables c)))
  = Some st ->
  In b (bookings (tables c)) -> b_id b = bookingId body -> b_student_id b = st_id st ->
  let r := fst (serve (post_payments caller body) env c) in
  let c' := snd (serve (post_payments caller body) env c) in
  all_or_nothing r c c'
    (statusCode r = 201 /\
     exists p, payment_proofs (tables c') = (payment_proofs (tables c) ++ [p])%list /\
               pp_booking_id p = bookingId body /\ pp_status p = "pending" /\
               option_map b_status (find_booking (tables c') (bookingId body))
               = Some "payment_under_review") /\
  (answers env -> integrity (tables c) (seqs c) = true -> statusCode r = 201).
Proof.
  intros Hr Hid Hurl Hst HI Hb Hown. cbv zeta.
  destruct (find_booking_In _ _ _ HI Hb) as [b0 Fb].
  rewrite (post_payments_run env c caller body st Hr Hid Hurl Hst).
  destruct (fails env (issued c)) eqn:E1.
  { simpl. split; [right; split; reflexivity |].
    intros A. rewrite A in E1. discriminate. }
  cbv zeta.
  destruct (fails env (S (issued c))) eqn:E2.
  { simpl. split; [right; split; reflexivity |].
    intros A. rewrite A in E2. discriminate. }
  destruct (filter _ (bookings (tables c))) as [| b1 bs] eqn:Own.
  { exfalso.
    assert (I : In b (filter (fun b => (b_id b =? bookingId body) &&
                                (b_student_id b =? st_id st)) (bookings (tables c)))).
    { apply filter_In. split; [exact HI |]. rewrite Hb, Hown, !Z.eqb_refl. reflexivity. }
    rewrite Own in I. exact I. }
  set (c0 := mkConn (tables c) (seqs c) (S (S (issued c)))).
  pose proof (upload_unit_effect env (mkConn (tables c0) (seqs c0) (S (S (issued c0))))
                (bookingId body) (fileUrl body) (fileName body) b0 Fb) as U.
  pose proof (transaction_outcome
                (upload_unit (bookingId body) (fileUrl body) (fileName body)) env c0) as T.
  split.
  - destruct (transaction _ env c0) as [[u | e] c']; simpl.
    + left. split; [reflexivity |]. split; [reflexivity |].
      destruct T as [c2 [E [Et _]]]. rewrite E in U. rewrite Et. exact U.
    + right. split; [reflexivity | exact T].
  - intros A I.
    destruct (upload_unit _ _ _ env _) as [[u | e] c2] eqn:E.
    + rewrite (transaction_answers _ env c0 u c2 A E). reflexivity.
    + destruct U as [[n U] | U]; [rewrite A in U; discriminate |].
      simpl in U. rewrite (integrity_proofs_fresh _ _ I) in U. discriminate.
Qed.

Lemma upload_is_atomic_witness :
  statusCode
    (fst (serve (post_payments Sample.sam
                   (mkPaymentBody 1000 "https://files.example/p9.png" ""))
            (reliable 100) Sample.store)) = 201.
Proof.
  assert (H1 : u_role Sample.sam = "student") by reflexivity.
  assert (H2 : 1000 <> 0) by discriminate.
  assert (H3 : "https://files.example/p9.png" <> "") by discriminate.
  assert (H4 : hd_error (filter (fun st => st_user_id st =? u_id Sample.sam)
                           (students (tables Sample.store)))
               = Some Sample.sam_profile) by reflexivity.
  assert (H5 : In Sample.sam_booking (bookings (tables Sample.store)))
    by (left; reflexivity).
  assert (H6 : answers (reliable 100)) by (intros n; reflexivity).
  assert (H7 : integrity (tables Sample.store) (seqs Sample.store) = true)
    by reflexivity.
  exact (proj2 (upload_is_atomic (reliable 100) Sample.store Sample.sam
                  (mkPaymentBody 1000 "https://files.example/p9.png" "")
                  Sample.sam_profile Sample.sam_booking H1 H2 H3 H4 H5 eq_refl eq_refl)
           H6 H7).
Defined.

(** C8. A student who submits a payment proof gets the same answer, 404
    "Booking not found", when the booking does not exist at all (store [c1])
    and when it exists but belongs to another student's profile (store
    [c2]); in both cases every table is as before. *)
Theorem foreign_booking_not_found (env : Env) (c1 c2 : Conn) (caller : user)
    (body : payment_body) (st1 st2 : student) (b : booking) :
  u_role caller = "student" ->
  bookingId body <> 0 -> fileUrl body <> "" ->
  answers env ->
  hd_error (filter (fun st => st_user_id st =? u_id caller) (students (tables c1)))
  = Some st1 ->
  hd_error (filter (fun st => st_user_id st =? u_id caller) (students (tables c2)))
  = Some st2 ->
  find_booking (tables c1) (bookingId body) = None ->
  In b (bookings (tables c2)) -> b_id b = bookingId body ->
  (forall b', In b' (bookings (tables c2)) -> b_id b' = bookingId body ->
              b_student_id b' <> st_id st2) ->
  let r1 := fst (serve (post_payments caller body) env c1) in
  let r2 := fst (serve (post_payments caller body) env c2) in
  r1 = r2 /\ NotFound r1 /\
  tables (snd (serve (post_payments caller body) env c1)) = tables c1 /\
  tables (snd (serve (post_payments caller body) env c2)) = tables c2.
Proof.
  intros Hr Hid Hurl A Hst1 Hst2 F1 HI Hb Hforeign. cbv zeta.
  rewrite (post_payments_run env c1 caller body st1 Hr Hid Hurl Hst1).
  rewrite (post_payments_run env c2 caller body st2 Hr Hid Hurl Hst2).
  rewrite !A. cbv zeta.
  assert (E1 : filter (fun b => (b_id b =? bookingId body) && (b_student_id b =? st_id st1))
                 (bookings (tables c1)) = []).
  { unfold find_booking, matching in F1.
    induction (bookings (tables c1)) as [| x l IH]; simpl in *; [reflexivity |].
    destruct (b_id x =? bookingId body); simpl in *; [discriminate | auto]. }
  assert (E2 : filter (fun b => (b_id b =? bookingId body) && (b_student_id b =? st_id st2))
                 (bookings (tables c2)) = []).
  { destruct (filter _ (bookings (tables c2))) as [| x l] eqn:E; [reflexivity |].
    exfalso. assert (I : In x (x :: l)) by (left; reflexivity).
    rewrite <- E in I. apply filter_In in I. destruct I as [I1 I2].
    apply andb_prop in I2. destruct I2 as [I2 I3].
    apply Z.eqb_eq in I2, I3. exact (Hforeign x I1 I2 I3). }
  rewrite E1, E2. simpl. repeat split.
Qed.


Lemma foreign_booking_not_found_witness :
  fst (serve (post_payments Sample.sid (mkPaymentBody 1000 "https://files.example/x.png" ""))
         (reliable 100) Sample.fresh_store)
  = fst (serve (post_payments Sample.sid (mkPaymentBody 1000 "https://files.example/x.png" ""))
           (reliable 100) Sample.store).
Proof.
  assert (H1 : u_role Sample.sid = "student") by reflexivity.
  assert (H2 : 1000 <> 0) by discriminate.
  assert (H3 : "https://files.example/x.png" <> "") by discriminate.
  assert (H4 : answers (reliable 100)) by (intros n; reflexivity).
  assert (H5 : In Sample.sam_booking (bookings (tables Sample.store)))
    by (left; reflexivity).
  assert (H6 : forall b', In b' (bookings (tables Sample.store)) -> b_id b' = 1000 ->
                          b_student_id b' <> st_id Sample.sid_profile).
  { intros b' [<- | [<- | []]] _; discriminate. }
  exact (proj1 (foreign_booking_not_found (reliable 100) Sample.fresh_store Sample.store
                  Sample.sid (mkPaymentBody 1000 "https://files.example/x.png" "")
                  Sample.sid_profile Sample.sid_profile Sample.sam_booking
                  H1 H2 H3 H4 eq_refl eq_refl eq_refl H5 eq_refl H6)).
Defined.

End SubmitPaymentProof.

Module CreateBooking.
Import Bookings.

(** X27.  [POST /api/bookings] on a store that answers and satisfies the
    constraints, for a student with a profile, a valid request, a tier for
    the requested subject and the student's grade level, and an existing
    teacher: the answer is 201 with the new booking, which is appended to
    [bookings] and is the only change to the store.  The booking takes the
    next key of the sequence, the caller's student profile, the teacher,
    subject, date, duration and notes of the request, the student's grade
    level and the tier's price as they are now, the status
    [pending_payment] and the teacher's meeting link, empty if unset.  (Its
    total is the subject of C2.) *)
Theorem booking_created (now : Z) (c : Conn) (caller : user) (body : booking_body)
    (st : student) (tier : pricing_tier) (te : teacher) :
  u_role caller = "student" ->
  validationResult body = true ->
  integrity (tables c) (seqs c) = true ->
  hd_error (filter (fun st => st_user_id st =? u_id caller) (students (tables c)))
  = Some st ->
  In tier (pricing_tiers (tables c)) ->
  pt_subject_id tier = subjectId body ->
  st_grade_level st = Some (pt_grade_level tier) ->
  In te (teachers (tables c)) -> t_id te = teacherId body ->
  let r := fst (serve (post_bookings caller body) (reliable now) c) in
  let t' := tables (snd (serve (post_bookings caller body) (reliable now) c)) in
  exists row date,
    scheduledDate body = Some date /\
    statusCode r = 201 /\ data r = BookingData (Some row) /\
    bookings t' = (bookings (tables c) ++ [row])%list /\
    t' = set_bookings (bookings t') (tables c) /\
    row = mkBooking (bookings_id_seq (seqs c)) (st_id st) (teacherId body)
            (subjectId body) (pt_grade_level tier) date (duration body)
            (pt_price_per_hour tier) (b_total_amount row) "pending_payment"
            (or_empty (t_meeting_link te)) (notes body) now now.
Proof.
  intros Hr Hv I Hst Ht Hsub Hg Hte Htid. cbv zeta.
  (* the rows the three lookups return *)
  assert (Etier : filter (fun p => (pt_subject_id p =? subjectId body) &&
                                   (pt_grade_level p =? pt_grade_level tier)%string)
                    (pricing_tiers (tables c)) = [tier]).
  { apply (distinct_filter tier_key tier_key_eqb).
    - apply integrity_parts in I. tauto.
    - intros y z Hy Hz. apply andb_prop in Hy, Hz.
      destruct Hy as [Y1 Y2], Hz as [Z1 Z2].
      apply Z.eqb_eq in Y1, Z1. apply String.eqb_eq in Y2, Z2.
      unfold tier_key_eqb, tier_key. simpl.
      rewrite Y1, Z1, Y2, Z2, Z.eqb_refl, String.eqb_refl. reflexivity.
    - exact Ht.
    - rewrite Hsub, Z.eqb_refl, String.eqb_refl. reflexivity. }
  assert (Eteacher : matching t_id (teacherId body) (teachers (tables c)) = [te]).
  { apply (distinct_filter t_id Z.eqb).
    - apply integrity_parts in I. tauto.
    - intros y z Hy Hz. apply Z.eqb_eq in Hy, Hz. apply Z.eqb_eq. congruence.
    - exact Hte.
    - now apply Z.eqb_eq. }
  (* the constraints the insert checks *)
  assert (Rst : references st_id (students (tables c)) (st_id st) = true).
  { apply In_references.
    destruct (filter _ (students (tables c))) as [| st0 sts] eqn:E; [discriminate |].
    injection Hst as ->.
    assert (J : In st (st :: sts)) by (left; reflexivity).
    rewrite <- E in J. apply filter_In in J. tauto. }
  assert (Rte : references t_id (teachers (tables c)) (teacherId body) = true).
  { rewrite <- Htid. now apply In_references. }
  assert (Rsub : references sub_id (subjects (tables c)) (subjectId body) = true).
  { rewrite <- Hsub. apply integrity_parts in I. now apply I. }
  assert (Fresh : references b_id (bookings (tables c)) (bookings_id_seq (seqs c)) = false)
    by (apply integrity_parts in I; tauto).
  unfold validationResult in Hv.
  destruct (scheduledDate body) as [d |] eqn:Ed; [| discriminate].
  unfold serve, post_bookings, requireStudent, try_catch.
  rewrite Hr. unfold validationResult. rewrite Ed, Hv. simpl.
  unfold bind, query, students_of_user, price_of, teacher_by_id, insert_booking, select, ret.
  simpl.
  destruct (filter _ (students (tables c))) as [| st0 sts]; [discriminate |].
  injection Hst as ->. rewrite Hg. simpl. rewrite Etier. simpl.
  fold (matching t_id (teacherId body) (teachers (tables c))).
  rewrite Eteacher. simpl. rewrite Rst, Rte, Rsub, Fresh. simpl.
  eexists. exists d.
  split; [reflexivity |]. split; [reflexivity |]. split; [reflexivity |].
  split; [reflexivity |]. split; reflexivity.
Qed.

Lemma booking_created_witness :
  exists row,
    data (fst (serve (post_bookings Sample.sam Sample.sam_request) (reliable 100)
                 Sample.store)) = BookingData (Some row) /\
    row = mkBooking 1002 10 20 1 "Grade 6-8 (Middle)" 9000 90 (18 # 1)
            (b_total_amount row) "pending_payment" "https://meet.example/tara" ""
            100 100.
Proof.
  assert (H1 : u_role Sample.sam = "student") by reflexivity.
  assert (H2 : validationResult Sample.sam_request = true) by reflexivity.
  assert (H3 : integrity (tables Sample.store) (seqs Sample.store) = true) by reflexivity.
  assert (H4 : hd_error (filter (fun st => st_user_id st =? u_id Sample.sam)
                           (students (tables Sample.store)))
               = Some Sample.sam_profile) by reflexivity.
  assert (H5 : In Sample.math_middle (pricing_tiers (tables Sample.store)))
    by (left; reflexivity).
  assert (H6 : In Sample.tara_profile (teachers (tables Sample.store)))
    by (left; reflexivity).
  destruct (booking_created 100 Sample.store Sample.sam Sample.sam_request
              Sample.sam_profile Sample.math_middle Sample.tara_profile
              H1 H2 H3 H4 H5 eq_refl eq_refl H6 eq_refl)
    as [row [date [Ed [_ [D [_ [_ R]]]]]]].
  injection Ed as <-.
  exists row. split; [exact D | exact R].
Defined.

(** C2.  The total of a booking is not the rounding of
    [price_per_hour * duration / 60] when the price has cents.  At 10.20 an
    hour, 50 minutes cost 8.50 and the booking is created with a total of 8,
    where [Math.round(8.5)] is 9; at 17 an hour, 30 minutes cost the same
    8.50 and the total is 9.  [pricePerHour * duration] is a binary64
    product: 10.20 is not a binary64 number, and the product falls just
    below 510. *)
Theorem cents_rounded_down :
  exists row1 row2,
    fst (serve (post_bookings Sample.sam Scenarios.math_50) (reliable 100)
           Scenarios.catalog)
    = mkResponse 201 true (Some "Booking created successfully")
        (BookingData (Some row1)) /\
    fst (serve (post_bookings Sample.sam Scenarios.physics_30) (reliable 100)
           Scenarios.catalog)
    = mkResponse 201 true (Some "Booking created successfully")
        (BookingData (Some row2)) /\
    b_price_per_hour row1 = 1020 # 100 /\ b_duration row1 = 50 /\
    b_price_per_hour row2 = 17 # 1 /\ b_duration row2 = 30 /\
    (b_price_per_hour row1 * inject_Z (b_duration row1) / inject_Z 60 == 17 # 2)%Q /\
    (b_price_per_hour row2 * inject_Z (b_duration row2) / inject_Z 60 == 17 # 2)%Q /\
    Math_round (17 # 2) = 9 /\
    b_total_amount row1 = inject_Z 8 /\
    b_total_amount row2 = inject_Z 9.
Proof.
  eexists. eexists.
  split; [vm_compute; reflexivity |]. split; [vm_compute; reflexivity |].
  refine (conj _ (conj _ (conj _ (conj _ (conj _ (conj _ (conj _ (conj _ _))))))));
    vm_compute; reflexivity.
Qed.

(** Without a tier for the subject and the student's grade the request is
    answered with 400 and nothing is written. *)
Lemma missing_tier_run (now : Z) (c : Conn) (caller : user) (body : booking_body)
    (st : student) :
  u_role caller = "student" ->
  validationResult body = true ->
  hd_error (filter (fun st => st_user_id st =? u_id caller) (students (tables c)))
  = Some st ->
  (forall p, In p (pricing_tiers (tables c)) -> pt_subject_id p = subjectId body ->
             st_grade_level st <> Some (pt_grade_level p)) ->
  serve (post_bookings caller body) (reliable now) c
  = (failure 400 "Price not found for this subject and grade level",
     mkConn (tables c) (seqs c) (S (S (issued c)))).
Proof.
  intros Hr Hv Hst Hno.
  unfold serve, post_bookings, requireStudent, try_catch.
  rewrite Hr, Hv. simpl.
  unfold bind, query, students_of_user, price_of, select, ret. simpl.
  destruct (filter _ (students (tables c))) as [| st0 sts]; [discriminate |].
  injection Hst as ->. simpl.
  destruct (filter _ (pricing_tiers (tables c))) as [| p ps] eqn:E; [reflexivity |].
  exfalso. assert (I : In p (p :: ps)) by (left; reflexivity).
  rewrite <- E in I. apply filter_In in I. destruct I as [I1 I2].
  apply andb_prop in I2. destruct I2 as [I2 I3].
  apply Z.eqb_eq in I2. apply (Hno p I1 I2).
  destruct (st_grade_level st) as [g |]; [| discriminate].
  apply String.eqb_eq in I3. now subst.
Qed.

(** C3. Sid's grade level has no tier for Math: the booking request is
    answered with 400 "Price not found for this subject and grade level",
    which is InvalidArgument and not NotFound (404); no booking is
    inserted. *)
Theorem missing_tier_answer :
  fst (serve (post_bookings Sample.sid Sample.sid_request) (reliable 100) Sample.store)
  = failure 400 "Price not found for this subject and grade level" /\
  ~ NotFound (fst (serve (post_bookings Sample.sid Sample.sid_request) (reliable 100)
                     Sample.store)) /\
  tables (snd (serve (post_bookings Sample.sid Sample.sid_request) (reliable 100)
                 Sample.store))
  = tables Sample.store.
Proof.
  assert (H : forall p, In p (pricing_tiers (tables Sample.store)) ->
                        pt_subject_id p = subjectId Sample.sid_request ->
                        st_grade_level Sample.sid_profile <> Some (pt_grade_level p)).
  { intros p [<- | []] _. discriminate. }
  rewrite (missing_tier_run 100 Sample.store Sample.sid Sample.sid_request
             Sample.sid_profile eq_refl eq_refl eq_refl H).
  split; [reflexivity |]. split; [| reflexivity].
  unfold NotFound. simpl. discriminate.
Qed.

End CreateBooking.

Module GetBookingsForCaller.
Import Bookings.

(** C6, as the specification states it, fails: an administrator who asks
    for the bookings is refused and receives none. *)
Lemma admin_sees_all_bookings_fails :
  ~ admin_sees_all_bookings (reliable 100) Sample.store Sample.admin.
Proof.
  unfold admin_sees_all_bookings. intros [H _]. vm_compute in H. discriminate H.
Qed.

(** C6, amended.  Every caller whose role is neither [student] nor [teacher]
    is refused as Forbidden, before any round trip to the store; this includes
    administrators, who receive no bookings through this route. *)
Theorem other_roles_forbidden (env : Env) (c : Conn) (caller : user) :
  u_role caller <> "student" -> u_role caller <> "teacher" ->
  serve (get_bookings caller) env c = (failure 403 "Not authorized", c).
Proof.
  intros Hs Ht. apply String.eqb_neq in Hs, Ht.
  unfold serve, get_bookings, try_catch. rewrite Hs, Ht. reflexivity.
Qed.

Lemma other_roles_forbidden_witness :
  serve (get_bookings Sample.admin) (reliable 100) Sample.store
  = (failure 403 "Not authorized", Sample.store).
Proof.
  assert (H1 : u_role Sample.admin <> "student") by discriminate.
  assert (H2 : u_role Sample.admin <> "teacher") by discriminate.
  exact (other_roles_forbidden (reliable 100) Sample.store Sample.admin H1 H2).
Defined.

End GetBookingsForCaller.

Module ListPendingPayments.
Import Payments.

(** C9. Listing the pending payments is refused (Forbidden) to every caller
    who is not an administrator.  For an administrator, on a store that
    answers and satisfies the schema's constraints, it succeeds and its rows
    carry exactly the payment proofs whose status is [pending], ordered by
    upload time, oldest first. *)
Theorem pending_payments_listed :
  (forall env c caller,
     u_role caller <> "admin" ->
     Forbidden (fst (serve (get_pending caller) env c)) /\
     snd (serve (get_pending caller) env c) = c) /\
  (forall now c caller,
     u_role caller = "admin" ->
     integrity (tables c) (seqs c) = true ->
     exists rows,
       fst (serve (get_pending caller) (reliable now) c)
       = mkResponse 200 true None (PaymentRows rows) /\
       Permutation (map pr_proof rows)
         (filter (fun p => (pp_status p =? "pending")%string)
            (payment_proofs (tables c))) /\
       StronglySorted (by_key (fun r => pp_uploaded_at (pr_proof r))) rows).
Proof.
  split.
  - intros env c caller Hr. apply String.eqb_neq in Hr.
    unfold serve, get_pending, requireAdmin. rewrite Hr. simpl. split; reflexivity.
  - intros now c caller Hr I.
    unfold serve, get_pending, requireAdmin, try_catch, bind, query, pending_proofs,
      select, ret.
    rewrite Hr. simpl.
    eexists. split; [reflexivity |]. split; [| apply order_by_sorted].
    rewrite order_by_perm.
    rewrite (join_one_each _ pr_proof (fun p => (pp_status p =? "pending")%string));
      [reflexivity |].
    intros pp Hpp.
    destruct (integrity_join _ _ I pp Hpp) as [b [sub [st [su [te [tu E]]]]]].
    destruct E as [Eb [Es [Est [Esu [Ete Etu]]]]].
    eexists. rewrite Eb. simpl. rewrite Es. simpl. rewrite Est. simpl.
    rewrite Esu. simpl. rewrite Ete. simpl. rewrite Etu. simpl.
    split; reflexivity.
Qed.

Lemma pending_payments_listed_witness :
  exists rows,
    fst (serve (get_pending Sample.admin) (reliable 100) Sample.store)
    = mkResponse 200 true None (PaymentRows rows) /\
    Permutation (map pr_proof rows) [Sample.proof1; Sample.proof2] /\
    StronglySorted (by_key (fun r => pp_uploaded_at (pr_proof r))) rows.
Proof.
  assert (H1 : u_role Sample.admin = "admin") by reflexivity.
  assert (H2 : integrity (tables Sample.store) (seqs Sample.store) = true) by reflexivity.
  exact (proj2 pending_payments_listed 100 Sample.store Sample.admin H1 H2).
Defined.

End ListPendingPayments.

(** ** Further properties of the handlers *)

Module Transactions.

(** X1.  [transaction] of [models/database.js].  When [transaction(callback)]
    returns a value, the callback ran after the client was acquired and
    [BEGIN] was sent, returned that value, and [COMMIT] was answered.  When
    it throws, the tables are those it started from; if the client and
    [BEGIN] were answered and the callback returned, it throws only because
    [COMMIT] failed.  An error thrown by the callback is never swallowed:
    the transaction throws too, and it throws that same error when the
    client, [BEGIN] and [ROLLBACK] are answered. *)
Theorem transaction_contract {A} (callback : M A) (env : Env) (c : Conn) :
  let c1 := mkConn (tables c) (seqs c) (S (S (issued c))) in
  match transaction callback env c with
  | (Ok a, c') =>
      exists c2, callback env c1 = (Ok a, c2) /\
                 fails env (issued c2) = false /\
                 c' = mkConn (tables c2) (seqs c2) (S (issued c2))
  | (Throw e, c') =>
      tables c' = tables c /\
      (fails env (issued c) = false -> fails env (S (issued c)) = false ->
       forall a c2, callback env c1 = (Ok a, c2) -> fails env (issued c2) = true)
  end /\
  (forall e c2,
     callback env c1 = (Throw e, c2) ->
     exists e', fst (transaction callback env c) = Throw e' /\
                (fails env (issued c) = false -> fails env (S (issued c)) = false ->
                 fails env (issued c2) = false -> e' = e)).
Proof.
  cbv zeta.
  unfold transaction, bind, try_catch, control, get_tables, rollback, throw, ret, query.
  destruct (fails env (issued c)) eqn:F0; simpl.
  { split; [split; [reflexivity | discriminate] |]. intros e c2 E.
    eexists. split; [reflexivity | discriminate]. }
  destruct (fails env (S (issued c))) eqn:F1; simpl.
  { split.
    - destruct (fails env (S (S (issued c)))); simpl; (split; [reflexivity | discriminate]).
    - intros e c2 E. destruct (fails env (S (S (issued c)))); simpl;
        (eexists; split; [reflexivity | intros; discriminate]). }
  destruct (callback env _) as [[a | e] c2] eqn:E; simpl.
  - destruct (fails env (issued c2)) eqn:F2; simpl.
    + split; [| intros e c3 E'; discriminate E'].
      destruct (fails env (S (issued c2))); simpl;
        (split; [reflexivity |]; intros _ _ a' c3 E'; injection E' as <- <-; exact F2).
    + split; [| intros e c3 E'; discriminate E'].
      exists c2. repeat split. exact F2.
  - split.
    + destruct (fails env (issued c2)); simpl;
        (split; [reflexivity |]; intros _ _ a' c3 E'; discriminate E').
    + intros e' c3 E'. injection E' as <- <-.
      destruct (fails env (issued c2)); simpl; eexists; split; try reflexivity;
        intros; try discriminate; reflexivity.
Qed.

Lemma transaction_contract_witness :
  exists e,
    fst (transaction (Payments.review_unit "approved" "" 999) (reliable 100) Sample.store) = Throw e /\
    e = TypeError.
Proof.
  destruct (proj2 (transaction_contract (Payments.review_unit "approved" "" 999) (reliable 100)
                     Sample.store) TypeError _ eq_refl) as [e [E1 E2]].
  exists e. split; [exact E1 | apply E2; reflexivity].
Defined.

End Transactions.

Module StoreInvariant.

Lemma ahead_refl s : ahead s s.
Proof. unfold ahead. lia. Qed.

Lemma ahead_trans s1 s2 s3 : ahead s1 s2 -> ahead s2 s3 -> ahead s1 s3.
Proof. unfold ahead. lia. Qed.

Lemma forallb_below {A} (id_of : A -> Z) (l : list A) (k k' : Z) :
  k <= k' -> forallb (fun r => id_of r <? k) l = true ->
  forallb (fun r => id_of r <? k') l = true.
Proof.
  intros Hk. rewrite !forallb_forall. intros H r Hr.
  specialize (H r Hr). apply Z.ltb_lt in H. apply Z.ltb_lt. lia.
Qed.

(** Constraints that hold keep holding when the sequences advance. *)
Lemma integrity_ahead t s s' :
  integrity t s = true -> ahead s s' -> integrity t s' = true.
Proof.
  unfold integrity, ahead. rewrite !andb_true_iff.
  intros [[H Hb] Hp] [A1 A2].
  split; [split; [exact H |] |].
  - exact (forallb_below _ _ _ _ A1 Hb).
  - exact (forallb_below _ _ _ _ A2 Hp).
Qed.

Lemma keeps_ret {A} (a : A) : keeps (ret a).
Proof. intros env c H. simpl. split; [exact H | apply ahead_refl]. Qed.

Lemma keeps_throw {A} (e : Error) : keeps (@throw A e).
Proof. intros env c H. simpl. split; [exact H | apply ahead_refl]. Qed.

Lemma keeps_bind {A B} (m : M A) (k : A -> M B) :
  keeps m -> (forall a, keeps (k a)) -> keeps (bind m k).
Proof.
  intros Hm Hk env c H. unfold bind.
  destruct (Hm env c H) as [S1 A1].
  destruct (m env c) as [[a | e] c1]; simpl in *.
  - destruct (Hk a env c1 S1) as [S2 A2].
    split; [exact S2 | exact (ahead_trans _ _ _ A1 A2)].
  - split; assumption.
Qed.

Lemma keeps_try_catch {A} (m : M A) (h : Error -> M A) :
  keeps m -> (forall e, keeps (h e)) -> keeps (try_catch m h).
Proof.
  intros Hm Hh env c H. unfold try_catch.
  destruct (Hm env c H) as [S1 A1].
  destruct (m env c) as [[a | e] c1]; simpl in *.
  - split; assumption.
  - destruct (Hh e env c1 S1) as [S2 A2].
    split; [exact S2 | exact (ahead_trans _ _ _ A1 A2)].
Qed.

Lemma keeps_rows0 {A} (rows : list A) : keeps (rows0 rows).
Proof. destruct rows; [apply keeps_throw | apply keeps_ret]. Qed.

Lemma keeps_query {A} (stmt : Stmt A) : stmt_keeps stmt -> keeps (query stmt).
Proof.
  intros Hs env c H. unfold query.
  destruct (fails env (issued c)); simpl.
  - split; [exact H | apply ahead_refl].
  - specialize (Hs (NOW env) (tables c) (seqs c) H).
    destruct (stmt _ _ _) as [[[a t'] |] s']; simpl.
    + exact Hs.
    + split; [exact (integrity_ahead _ _ _ H Hs) | exact Hs].
Qed.

Lemma stmt_keeps_select {A} (rows : Tables -> A) : stmt_keeps (select rows).
Proof. intros now t s H. simpl. split; [exact H | apply ahead_refl]. Qed.

Lemma keeps_control : keeps control.
Proof.
  apply keeps_query. intros now t s H. split; [exact H | apply ahead_refl].
Qed.

Lemma transaction_unfold {A} (callback : M A) env c :
  transaction callback env c
  = match control env c with
    | (Ok _, c0) =>
        match bind control (fun _ => bind callback (fun result =>
                bind control (fun _ => ret result))) env c0 with
        | (Ok a, c1) => (Ok a, c1)
        | (Throw e, c1) => bind (rollback (tables c0)) (fun _ => throw e) env c1
        end
    | (Throw e, c0) => (Throw e, c0)
    end.
Proof.
  unfold transaction, get_tables. unfold bind at 1.
  destruct (control env c) as [[u | e] c0]; reflexivity.
Qed.

Lemma keeps_transaction {A} (callback : M A) :
  keeps callback -> keeps (transaction callback).
Proof.
  intros Hc env c H. rewrite transaction_unfold.
  destruct (keeps_control env c H) as [S0 A0].
  destruct (control env c) as [[u | e] c0]; simpl in S0, A0; [| split; assumption].
  assert (Hbody : keeps (bind control (fun _ => bind callback (fun result =>
                          bind control (fun _ => ret result))))).
  { apply keeps_bind; [apply keeps_control |]. intros _.
    apply keeps_bind; [exact Hc |]. intros a.
    apply keeps_bind; [apply keeps_control |]. intros _. apply keeps_ret. }
  destruct (Hbody env c0 S0) as [S1 A1].
  destruct (bind control _ env c0) as [[a | e] c1]; simpl in S1, A1.
  - split; [exact S1 | exact (ahead_trans _ _ _ A0 A1)].
  - unfold bind, rollback, throw.
    assert (S2 : integrity (tables c0) (seqs c1) = true)
      by exact (integrity_ahead _ _ _ S0 A1).
    destruct (fails env (issued c1)); simpl;
      (split; [exact S2 | exact (ahead_trans _ _ _ A0 A1)]).
Qed.

Lemma map_update_where {A B} (g : A -> B) (cond : A -> bool) (f : A -> A) (l : list A) :
  (forall r, g (f r) = g r) -> map g (update_where cond f l) = map g l.
Proof.
  intros H. unfold update_where. rewrite map_map. apply map_ext.
  intros r. destruct (cond r); [apply H | reflexivity].
Qed.

Lemma forallb_update_where {A} (P : A -> bool) (cond : A -> bool) (f : A -> A)
    (l : list A) :
  (forall r, P (f r) = P r) -> forallb P (update_where cond f l) = forallb P l.
Proof.
  intros H. unfold update_where. induction l as [| r l IH]; simpl; [reflexivity |].
  rewrite IH. destruct (cond r); [rewrite H |]; reflexivity.
Qed.

Lemma references_update_where {A} (id_of : A -> Z) (cond : A -> bool) (f : A -> A)
    (l : list A) (k : Z) :
  (forall r, id_of (f r) = id_of r) ->
  references id_of (update_where cond f l) k = references id_of l k.
Proof.
  intros H. unfold references, update_where.
  induction l as [| r l IH]; simpl; [reflexivity |].
  rewrite IH. destruct (cond r); [rewrite H |]; reflexivity.
Qed.

Lemma forallb_same {A} (f g : A -> bool) (l : list A) :
  (forall x, f x = g x) -> forallb f l = forallb g l.
Proof.
  intros H. induction l as [| x l IH]; simpl; [reflexivity |]. now rewrite H, IH.
Qed.

(** Rewriting the status of bookings touches no constraint. *)
Lemma integrity_booking_status t s cond status now :
  integrity (set_bookings (update_where cond (set_booking_status status now) (bookings t)) t) s
  = integrity t s.
Proof.
  unfold integrity. simpl.
  rewrite (map_update_where b_id) by reflexivity.
  rewrite (forallb_update_where
             (fun b => references st_id (students t) (b_student_id b) &&
                       references t_id (teachers t) (b_teacher_id b) &&
                       references sub_id (subjects t) (b_subject_id b))) by reflexivity.
  rewrite (forallb_update_where (fun b => b_id b <? bookings_id_seq s)) by reflexivity.
  rewrite (forallb_same
             (fun p => references b_id
                         (update_where cond (set_booking_status status now) (bookings t))
                         (pp_booking_id p))
             (fun p => references b_id (bookings t) (pp_booking_id p)))
    by (intros p; apply references_update_where; reflexivity).
  reflexivity.
Qed.

(** Recording a review touches no constraint. *)
Lemma integrity_proof_review t s cond status notes now :
  integrity (set_payment_proofs
               (update_where cond (set_proof_review status notes now) (payment_proofs t)) t) s
  = integrity t s.
Proof.
  unfold integrity. simpl.
  rewrite (map_update_where pp_id) by reflexivity.
  rewrite (forallb_update_where
             (fun p => references b_id (bookings t) (pp_booking_id p))) by reflexivity.
  rewrite (forallb_update_where (fun p => pp_id p <? payment_proofs_id_seq s))
    by reflexivity.
  reflexivity.
Qed.

Lemma distinct_snoc {A} (id_of : A -> Z) (l : list A) (r : A) :
  distinct Z.eqb (map id_of l) = true ->
  references id_of l (id_of r) = false ->
  distinct Z.eqb (map id_of (l ++ [r])) = true.
Proof.
  unfold references. induction l as [| x l IH]; simpl; intros D F; [reflexivity |].
  apply andb_prop in D. destruct D as [D1 D2].
  apply orb_false_elim in F. destruct F as [F1 F2].
  rewrite (IH D2 F2), andb_true_r.
  rewrite map_app, existsb_app. simpl.
  apply negb_true_iff in D1. rewrite D1, orb_false_r. simpl.
  rewrite F1. reflexivity.
Qed.

Lemma references_snoc {A} (id_of : A -> Z) (l : list A) (r : A) (k : Z) :
  references id_of l k = true -> references id_of (l ++ [r]) k = true.
Proof.
  unfold references. rewrite existsb_app. intros ->. reflexivity.
Qed.

(** A booking with a fresh key and valid references may be appended. *)
Lemma integrity_new_booking t s row :
  integrity t s = true ->
  b_id row = bookings_id_seq s ->
  references st_id (students t) (b_student_id row) = true ->
  references t_id (teachers t) (b_teacher_id row) = true ->
  references sub_id (subjects t) (b_subject_id row) = true ->
  integrity (set_bookings (bookings t ++ [row]) t)
    (mkSeqs (bookings_id_seq s + 1) (payment_proofs_id_seq s)) = true.
Proof.
  intros I Hid R1 R2 R3.
  pose proof (integrity_parts _ _ I) as P.
  destruct P as (_ & _ & _ & _ & B & _ & _ & _ & _ & _ & _ & _ & Fresh & _).
  revert I. unfold integrity. simpl. rewrite !andb_true_iff.
  intros [[[[[[[[[[[[[U S] T] Sb] _] Pp] Ti] Fs] Ft] Fp] Fb] Fpp] Ab] Ap].
  repeat split; try assumption.
  - apply distinct_snoc; [exact B | rewrite Hid; exact Fresh].
  - rewrite forallb_app, Fb. simpl. rewrite R1, R2, R3. reflexivity.
  - rewrite forallb_forall in Fpp |- *. intros p Hp.
    apply references_snoc. exact (Fpp p Hp).
  - rewrite forallb_app. simpl. rewrite Hid.
    assert (Le : bookings_id_seq s <= bookings_id_seq s + 1) by lia.
    rewrite (forallb_below b_id _ _ _ Le Ab).
    simpl. rewrite andb_true_r. apply Z.ltb_lt. lia.
Qed.

(** A payment proof with a fresh key for an existing booking may be appended. *)
Lemma integrity_new_proof t s row :
  integrity t s = true ->
  pp_id row = payment_proofs_id_seq s ->
  references b_id (bookings t) (pp_booking_id row) = true ->
  integrity (set_payment_proofs (payment_proofs t ++ [row]) t)
    (mkSeqs (bookings_id_seq s) (payment_proofs_id_seq s + 1)) = true.
Proof.
  intros I Hid R1.
  pose proof (integrity_parts _ _ I) as P.
  destruct P as (_ & _ & _ & _ & _ & Pp & _ & _ & _ & _ & _ & _ & _ & Fresh).
  revert I. unfold integrity. simpl. rewrite !andb_true_iff.
  intros [[[[[[[[[[[[[U S] T] Sb] B] _] Ti] Fs] Ft] Fp] Fb] Fpp] Ab] Ap].
  repeat split; try assumption.
  - apply distinct_snoc; [exact Pp | rewrite Hid; exact Fresh].
  - rewrite forallb_app, Fpp. simpl. rewrite R1. reflexivity.
  - rewrite forallb_app. simpl. rewrite Hid.
    assert (Le : payment_proofs_id_seq s <= payment_proofs_id_seq s + 1) by lia.
    rewrite (forallb_below pp_id _ _ _ Le Ap).
    simpl. rewrite andb_true_r. apply Z.ltb_lt. lia.
Qed.

Lemma stmt_keeps_insert_booking studentId teacherId subjectId gradeLevel scheduledDate
    duration pricePerHour totalAmount meetingLink notes :
  stmt_keeps (Bookings.insert_booking studentId teacherId subjectId gradeLevel
                scheduledDate duration pricePerHour totalAmount meetingLink notes).
Proof.
  intros now t s I. unfold Bookings.insert_booking.
  assert (A : ahead s (mkSeqs (bookings_id_seq s + 1) (payment_proofs_id_seq s)))
    by (unfold ahead; simpl; lia).
  destruct gradeLevel as [g |]; [| exact A].
  destruct scheduledDate as [d |]; [| exact A].
  destruct (references st_id (students t) studentId) eqn:R1; [| exact A].
  destruct (references t_id (teachers t) teacherId) eqn:R2; [| exact A].
  destruct (references sub_id (subjects t) subjectId) eqn:R3; [| exact A].
  destruct (negb (references b_id (bookings t) (bookings_id_seq s))); [| exact A].
  simpl. split; [| exact A].
  apply integrity_new_booking; auto.
Qed.

Lemma stmt_keeps_insert_proof bookingId fileUrl fileName :
  stmt_keeps (Payments.insert_proof bookingId fileUrl fileName).
Proof.
  intros now t s I. unfold Payments.insert_proof.
  assert (A : ahead s (mkSeqs (bookings_id_seq s) (payment_proofs_id_seq s + 1)))
    by (unfold ahead; simpl; lia).
  destruct (references b_id (bookings t) bookingId) eqn:R1; [| exact A].
  destruct (negb (references pp_id (payment_proofs t) (payment_proofs_id_seq s)));
    [| exact A].
  simpl. split; [| exact A].
  apply integrity_new_proof; auto.
Qed.

Lemma stmt_keeps_set_status status bookingId :
  stmt_keeps (Payments.set_status_of_booking status bookingId).
Proof.
  intros now t s I. unfold Payments.set_status_of_booking.
  rewrite integrity_booking_status. split; [exact I | apply ahead_refl].
Qed.

Lemma stmt_keeps_update_status status id :
  stmt_keeps (Bookings.update_booking_status status id).
Proof.
  intros now t s I. unfold Bookings.update_booking_status.
  rewrite integrity_booking_status. split; [exact I | apply ahead_refl].
Qed.

Lemma stmt_keeps_review status notes id :
  stmt_keeps (Payments.review_proof status notes id).
Proof.
  intros now t s I. unfold Payments.review_proof.
  rewrite integrity_proof_review. split; [exact I | apply ahead_refl].
Qed.

Ltac keep :=
  repeat match goal with
    | |- keeps (ret _) => apply keeps_ret
    | |- keeps (throw _) => apply keeps_throw
    | |- keeps (rows0 _) => apply keeps_rows0
    | |- keeps (transaction _) => apply keeps_transaction
    | |- keeps (try_catch _ _) => apply keeps_try_catch; [| intros ?]
    | |- keeps (bind _ _) => apply keeps_bind; [| intros ?]
    | |- keeps (query (select _)) => apply keeps_query, stmt_keeps_select
    | |- keeps (query (Bookings.insert_booking _ _ _ _ _ _ _ _ _ _)) =>
        apply keeps_query, stmt_keeps_insert_booking
    | |- keeps (query (Payments.insert_proof _ _ _)) =>
        apply keeps_query, stmt_keeps_insert_proof
    | |- keeps (query (Payments.set_status_of_booking _ _)) =>
        apply keeps_query, stmt_keeps_set_status
    | |- keeps (query (Bookings.update_booking_status _ _)) =>
        apply keeps_query, stmt_keeps_update_status
    | |- keeps (query (Payments.review_proof _ _ _)) =>
        apply keeps_query, stmt_keeps_review
    | |- keeps (if ?b then _ else _) => destruct b
    | |- keeps (match ?l with [] => _ | _ :: _ => _ end) => destruct l
    end.

(** X2.  The four writing handlers ([POST /api/bookings],
    [PUT /api/bookings/:id/status], [POST /api/payments],
    [PUT /api/payments/:id/verify]) keep the constraints of [schema.sql]
    (distinct primary keys, one tier per subject and grade, every foreign
    key resolved, sequences ahead of the keys in use) and never move a
    sequence backwards: for every caller, every request and every behaviour
    of the store, whether the handler answers with success or with an
    error. *)
Theorem writers_keep_integrity :
  (forall caller body, keeps (Bookings.post_bookings caller body)) /\
  (forall caller id status, keeps (Bookings.put_booking_status caller id status)) /\
  (forall caller body, keeps (Payments.post_payments caller body)) /\
  (forall caller id body, keeps (Payments.put_verify caller id body)).
Proof.
  split; [| split; [| split]].
  - intros caller body.
    unfold Bookings.post_bookings, requireStudent, students_of_user,
      Bookings.price_of, Bookings.teacher_by_id. cbv zeta. keep.
  - intros caller id status.
    unfold Bookings.put_booking_status, Bookings.not_authorized, Bookings.booking_by_id,
      students_of_user, teachers_of_user.
    cbv zeta. keep.
  - intros caller body.
    unfold Payments.post_payments, requireStudent, Payments.upload_unit,
      Payments.booking_of_student, students_of_user. cbv zeta. keep.
  - intros caller id body.
    unfold Payments.put_verify, requireAdmin, Payments.review_unit, Payments.proof_by_id.
    cbv zeta. keep.
Qed.

Lemma writers_keep_integrity_witness :
  sound (snd (Payments.post_payments Sample.sam
                (Payments.mkPaymentBody 1000 "https://files.example/p9.png" "")
                (reliable 100) Sample.store)).
Proof.
  assert (H : sound Sample.store) by reflexivity.
  exact (proj1 (proj1 (proj2 (proj2 writers_keep_integrity)) Sample.sam
                  (Payments.mkPaymentBody 1000 "https://files.example/p9.png" "")
                  (reliable 100) Sample.store H)).
Defined.

End StoreInvariant.

Module ErrorHandling.
Import Views.

Lemma never_throws_ret {A} (a : A) : never_throws (ret a).
Proof. intros env c. exists a, c. reflexivity. Qed.

(** A [catch] that answers turns every outcome into an answer. *)
Lemma never_throws_catch {A} (body : M A) (r : A) :
  never_throws (try_catch body (fun _ => ret r)).
Proof.
  intros env c. unfold try_catch, ret.
  destruct (body env c) as [[a | e] c']; eauto.
Qed.

Lemma never_throws_guard {A} (b : bool) (r : A) (next : M A) :
  never_throws next -> never_throws (if b then ret r else next).
Proof. intros H. destruct b; [apply never_throws_ret | exact H]. Qed.

(** X3.  No handler lets an exception escape: for every caller, request
    and behaviour of the store, each of the ten modelled route handlers of
    bookings, payments and prices ends with a response
    ([try { .. } catch { res.status(500) .. }] around every body). *)
Theorem handlers_never_throw :
  (forall caller, never_throws (Bookings.get_bookings caller)) /\
  (forall caller body, never_throws (Bookings.post_bookings caller body)) /\
  (forall caller id status, never_throws (Bookings.put_booking_status caller id status)) /\
  (forall caller, never_throws (Payments.get_pending caller)) /\
  (forall caller body, never_throws (Payments.post_payments caller body)) /\
  (forall caller id body, never_throws (Payments.put_verify caller id body)) /\
  (forall caller id, never_throws (get_booking caller id)) /\
  (forall caller, never_throws (get_upcoming caller)) /\
  (forall caller, never_throws (get_payments caller)) /\
  (forall id gradeLevel, never_throws (get_price id gradeLevel)).
Proof.
  repeat match goal with |- _ /\ _ => split end; intros;
    first [ apply never_throws_catch
          | apply never_throws_guard; apply never_throws_catch ].
Qed.

End ErrorHandling.

Module ReadOnly.
Import Views.

Lemma reads_ret {A} (a : A) : reads_only (ret a).
Proof. intros env c. split; reflexivity. Qed.

Lemma reads_throw {A} (e : Error) : reads_only (@throw A e).
Proof. intros env c. split; reflexivity. Qed.

Lemma reads_rows0 {A} (rows : list A) : reads_only (rows0 rows).
Proof. destruct rows; [apply reads_throw | apply reads_ret]. Qed.

Lemma reads_bind {A B} (m : M A) (k : A -> M B) :
  reads_only m -> (forall a, reads_only (k a)) -> reads_only (bind m k).
Proof.
  intros Hm Hk env c. unfold bind. destruct (Hm env c) as [T1 S1].
  destruct (m env c) as [[a | e] c1]; simpl in *.
  - destruct (Hk a env c1) as [T2 S2]. split; congruence.
  - split; assumption.
Qed.

Lemma reads_try_catch {A} (m : M A) (h : Error -> M A) :
  reads_only m -> (forall e, reads_only (h e)) -> reads_only (try_catch m h).
Proof.
  intros Hm Hh env c. unfold try_catch. destruct (Hm env c) as [T1 S1].
  destruct (m env c) as [[a | e] c1]; simpl in *.
  - split; assumption.
  - destruct (Hh e env c1) as [T2 S2]. split; congruence.
Qed.

Lemma reads_query {A} (stmt : Stmt A) : stmt_reads stmt -> reads_only (query stmt).
Proof.
  intros Hs env c. unfold query.
  destruct (fails env (issued c)); simpl; [split; reflexivity |].
  destruct (Hs (NOW env) (tables c) (seqs c)) as [a E]. rewrite E. split; reflexivity.
Qed.

Lemma stmt_reads_select {A} (rows : Tables -> A) : stmt_reads (select rows).
Proof. intros now t s. eexists. reflexivity. Qed.

Ltac readonly :=
  repeat match goal with
    | |- reads_only (ret _) => apply reads_ret
    | |- reads_only (throw _) => apply reads_throw
    | |- reads_only (rows0 _) => apply reads_rows0
    | |- reads_only (try_catch _ _) => apply reads_try_catch; [| intros ?]
    | |- reads_only (bind _ _) => apply reads_bind; [| intros ?]
    | |- reads_only (query (select _)) => apply reads_query, stmt_reads_select
    | |- reads_only (query _) =>
        apply reads_query; intros ? ? ?; eexists; reflexivity
    | |- reads_only (if ?b then _ else _) => destruct b
    | |- reads_only (match ?l with [] => _ | _ :: _ => _ end) => destruct l
    | |- reads_only (match ?o with Some _ => _ | None => _ end) => destruct o
    end.

(** X4.  The six [GET] handlers (bookings, pending payments, booking by
    id, upcoming classes, payments, price) leave every table and every
    sequence as they found them, for every caller and every behaviour of
    the store. *)
Theorem readers_change_nothing :
  (forall caller, reads_only (Bookings.get_bookings caller)) /\
  (forall caller, reads_only (Payments.get_pending caller)) /\
  (forall caller id, reads_only (get_booking caller id)) /\
  (forall caller, reads_only (get_upcoming caller)) /\
  (forall caller, reads_only (get_payments caller)) /\
  (forall id gradeLevel, reads_only (get_price id gradeLevel)).
Proof.
  repeat match goal with |- _ /\ _ => split end; intros.
  - unfold Bookings.get_bookings, students_of_user, teachers_of_user,
      Bookings.bookings_of_student, Bookings.bookings_of_teacher. cbv zeta. readonly.
  - unfold Payments.get_pending, requireAdmin, Payments.pending_proofs. readonly.
  - unfold get_booking, booking_detail_by_id, students_of_user, teachers_of_user.
    cbv zeta. readonly.
  - unfold get_upcoming, students_of_user, teachers_of_user. cbv zeta. readonly.
  - unfold get_payments, payments_where, students_of_user, teachers_of_user.
    cbv zeta. readonly.
  - unfold get_price, Bookings.price_of. readonly.
Qed.

End ReadOnly.

Module Frozen.
Import Bookings Payments.

Lemma extends_refl t : extends t t.
Proof.
  unfold extends. repeat split; try (exists []; now rewrite app_nil_r).
Qed.

Lemma extends_trans t1 t2 t3 : extends t1 t2 -> extends t2 t3 -> extends t1 t3.
Proof.
  unfold extends.
  intros [[m1 B1] [[n1 P1] [U1 [S1 [T1 [Sb1 Ti1]]]]]]
         [[m2 B2] [[n2 P2] [U2 [S2 [T2 [Sb2 Ti2]]]]]].
  split; [exists (m1 ++ m2)%list; now rewrite B2, B1, app_assoc |].
  split; [exists (n1 ++ n2)%list; now rewrite P2, P1, app_assoc |].
  repeat split; congruence.
Qed.

Lemma ext_ret {A} (a : A) : only_extends (ret a).
Proof. intros env c. apply extends_refl. Qed.

Lemma ext_throw {A} (e : Error) : only_extends (@throw A e).
Proof. intros env c. apply extends_refl. Qed.

Lemma ext_rows0 {A} (rows : list A) : only_extends (rows0 rows).
Proof. destruct rows; [apply ext_throw | apply ext_ret]. Qed.

Lemma ext_bind {A B} (m : M A) (k : A -> M B) :
  only_extends m -> (forall a, only_extends (k a)) -> only_extends (bind m k).
Proof.
  intros Hm Hk env c. unfold bind. pose proof (Hm env c) as E1.
  destruct (m env c) as [[a | e] c1]; simpl in *; [| exact E1].
  exact (extends_trans _ _ _ E1 (Hk a env c1)).
Qed.

Lemma ext_try_catch {A} (m : M A) (h : Error -> M A) :
  only_extends m -> (forall e, only_extends (h e)) -> only_extends (try_catch m h).
Proof.
  intros Hm Hh env c. unfold try_catch. pose proof (Hm env c) as E1.
  destruct (m env c) as [[a | e] c1]; simpl in *; [exact E1 |].
  exact (extends_trans _ _ _ E1 (Hh e env c1)).
Qed.

Lemma ext_query {A} (stmt : Stmt A) : stmt_extends stmt -> only_extends (query stmt).
Proof.
  intros Hs env c. unfold query.
  destruct (fails env (issued c)); simpl; [apply extends_refl |].
  specialize (Hs (NOW env) (tables c) (seqs c)).
  destruct (stmt _ _ _) as [[[a t'] |] s']; simpl; [exact Hs | apply extends_refl].
Qed.

Lemma ext_select {A} (rows : Tables -> A) : stmt_extends (select rows).
Proof. intros now t s. apply extends_refl. Qed.

Lemma ext_transaction {A} (callback : M A) :
  only_extends callback -> only_extends (transaction callback).
Proof.
  intros Hc env c.
  pose proof (transaction_outcome callback env c) as T.
  destruct (transaction callback env c) as [[a | e] c']; simpl.
  - destruct T as [c2 [E [Et _]]]. rewrite Et.
    pose proof (Hc env (mkConn (tables c) (seqs c) (S (S (issued c))))) as H.
    rewrite E in H. exact H.
  - rewrite T. apply extends_refl.
Qed.

Lemma terms_update_where cond status now l :
  map booking_terms (update_where cond (set_booking_status status now) l)
  = map booking_terms l.
Proof.
  unfold update_where. rewrite map_map. apply map_ext.
  intros b. destruct (cond b); reflexivity.
Qed.

Lemma proof_terms_update_where cond status notes now l :
  map proof_terms (update_where cond (set_proof_review status notes now) l)
  = map proof_terms l.
Proof.
  unfold update_where. rewrite map_map. apply map_ext.
  intros p. destruct (cond p); reflexivity.
Qed.

Lemma extends_booking_status t cond status now :
  extends t (set_bookings (update_where cond (set_booking_status status now) (bookings t)) t).
Proof.
  unfold extends. simpl. rewrite terms_update_where.
  repeat split; try (exists []; now rewrite app_nil_r).
Qed.

Lemma extends_proof_review t cond status notes now :
  extends t (set_payment_proofs
               (update_where cond (set_proof_review status notes now) (payment_proofs t)) t).
Proof.
  unfold extends. simpl. rewrite proof_terms_update_where.
  repeat split; try (exists []; now rewrite app_nil_r).
Qed.

Lemma ext_insert_booking studentId teacherId subjectId gradeLevel scheduledDate
    duration pricePerHour totalAmount meetingLink notes :
  stmt_extends (insert_booking studentId teacherId subjectId gradeLevel
                  scheduledDate duration pricePerHour totalAmount meetingLink notes).
Proof.
  intros now t s. unfold insert_booking.
  destruct gradeLevel; [| exact I]. destruct scheduledDate; [| exact I].
  destruct (_ && _); [| exact I].
  unfold extends. simpl. rewrite map_app.
  repeat split; try (exists []; now rewrite app_nil_r). eexists. reflexivity.
Qed.

Lemma ext_insert_proof bookingId fileUrl fileName :
  stmt_extends (insert_proof bookingId fileUrl fileName).
Proof.
  intros now t s. unfold insert_proof.
  destruct (_ && _); [| exact I].
  unfold extends. simpl. rewrite map_app.
  repeat split; try (exists []; now rewrite app_nil_r). eexists. reflexivity.
Qed.

Ltac ext :=
  repeat match goal with
    | |- only_extends (ret _) => apply ext_ret
    | |- only_extends (throw _) => apply ext_throw
    | |- only_extends (rows0 _) => apply ext_rows0
    | |- only_extends (transaction _) => apply ext_transaction
    | |- only_extends (try_catch _ _) => apply ext_try_catch; [| intros ?]
    | |- only_extends (bind _ _) => apply ext_bind; [| intros ?]
    | |- only_extends (query (select _)) => apply ext_query, ext_select
    | |- only_extends (query (insert_booking _ _ _ _ _ _ _ _ _ _)) =>
        apply ext_query, ext_insert_booking
    | |- only_extends (query (insert_proof _ _ _)) => apply ext_query, ext_insert_proof
    | |- only_extends (query (set_status_of_booking _ _)) =>
        apply ext_query; intros ? ? ?; apply extends_booking_status
    | |- only_extends (query (update_booking_status _ _)) =>
        apply ext_query; intros ? ? ?; apply extends_booking_status
    | |- only_extends (query (review_proof _ _ _)) =>
        apply ext_query; intros ? ? ?; apply extends_proof_review
    | |- only_extends (if ?b then _ else _) => destruct b
    | |- only_extends (match ?l with [] => _ | _ :: _ => _ end) => destruct l
    end.

(** X5.  What the four writing handlers never do: they delete no booking
    and no payment proof, do not reorder them, and change nothing in a
    booking but [status] and [updated_at], nothing in a proof but [status],
    [review_notes] and [reviewed_at]; users, students, teachers, subjects
    and pricing tiers are left as they are.  This holds for every request
    and every behaviour of the store. *)
Theorem writers_only_extend :
  (forall caller body, only_extends (post_bookings caller body)) /\
  (forall caller id status, only_extends (put_booking_status caller id status)) /\
  (forall caller body, only_extends (post_payments caller body)) /\
  (forall caller id body, only_extends (put_verify caller id body)).
Proof.
  split; [| split; [| split]].
  - intros caller body.
    unfold post_bookings, requireStudent, students_of_user, price_of, teacher_by_id.
    cbv zeta. ext.
  - intros caller id status.
    unfold put_booking_status, not_authorized, booking_by_id, students_of_user,
      teachers_of_user.
    cbv zeta. ext.
  - intros caller body.
    unfold post_payments, requireStudent, upload_unit, booking_of_student,
      students_of_user. cbv zeta. ext.
  - intros caller id body.
    unfold put_verify, requireAdmin, review_unit, proof_by_id. cbv zeta. ext.
Qed.

End Frozen.

Module Frames.
Import Bookings Payments.

Lemma others_update_where {A} (id_of : A -> Z) (f : A -> A) (k : Z) (l : list A) :
  (forall r, id_of (f r) = id_of r) ->
  others id_of k (update_where (fun r => id_of r =? k) f l) = others id_of k l.
Proof.
  intros H. unfold others, update_where.
  induction l as [| r l IH]; simpl; [reflexivity |].
  destruct (id_of r =? k) eqn:E; simpl.
  - rewrite H, E. simpl. exact IH.
  - rewrite E. simpl. now rewrite IH.
Qed.

Lemma find_update_where {A} (id_of : A -> Z) (f : A -> A) (k : Z) (l : list A) (r : A) :
  (forall r, id_of (f r) = id_of r) ->
  hd_error (matching id_of k l) = Some r ->
  hd_error (matching id_of k (update_where (fun r => id_of r =? k) f l)) = Some (f r).
Proof.
  intros H F. rewrite matching_update_where by exact H.
  destruct (matching id_of k l) as [| x rest] eqn:E; [discriminate |].
  injection F as ->. simpl.
  assert (I : In r (matching id_of k l)) by (rewrite E; left; reflexivity).
  apply filter_In in I. destruct I as [_ I]. rewrite I. reflexivity.
Qed.

Ltac crunch H :=
  repeat (simpl in H;
          match type of H with
          | context [fails ?e ?n] => destruct (fails e n)
          | context [match ?l with [] => _ | _ :: _ => _ end] => destruct l eqn:?
          | context [if ?b then _ else _] => destruct b eqn:?
          end);
  simpl in H.

Lemma put_status_ok env c caller id status r c' :
  serve (put_booking_status caller id status) env c = (r, c') ->
  statusCode r = 200 ->
  tables c'
  = set_bookings (update_where (fun b => b_id b =? id)
                    (set_booking_status status (NOW env)) (bookings (tables c)))
      (tables c).
Proof.
  intros E H.
  unfold serve, put_booking_status, try_catch, not_authorized, bind, query,
    booking_by_id, students_of_user, teachers_of_user, update_booking_status,
    select, ret in E.
  crunch E; injection E as <- <-; simpl in H; try discriminate H; reflexivity.
Qed.

(** X6.  [PUT /api/bookings/:id/status], when it answers 200 for an
    existing booking, has set [status] and [updated_at] of that booking and
    nothing else: every other booking and every other table is as before. *)
Theorem status_update_frame (env : Env) (c : Conn) (caller : user) (id : Z)
    (status : string) (b : booking) :
  find_booking (tables c) id = Some b ->
  statusCode (fst (serve (put_booking_status caller id status) env c)) = 200 ->
  let t' := tables (snd (serve (put_booking_status caller id status) env c)) in
  find_booking t' id = Some (set_booking_status status (NOW env) b) /\
  others b_id id (bookings t') = others b_id id (bookings (tables c)) /\
  t' = set_bookings (bookings t') (tables c).
Proof.
  intros F H. cbv zeta.
  destruct (serve (put_booking_status caller id status) env c) as [r c'] eqn:E.
  simpl in *. rewrite (put_status_ok _ _ _ _ _ _ _ E H).
  split; [| split].
  - unfold find_booking. simpl. apply find_update_where; [reflexivity | exact F].
  - simpl. apply others_update_where. reflexivity.
  - reflexivity.
Qed.

Lemma status_update_frame_witness :
  find_booking
    (tables (snd (serve (put_booking_status Sample.admin 1000 "completed")
                    (reliable 100) Sample.store))) 1000
  = Some (set_booking_status "completed" 100 Sample.sam_booking).
Proof.
  exact (proj1 (status_update_frame (reliable 100) Sample.store Sample.admin 1000
                  "completed" Sample.sam_booking eq_refl eq_refl)).
Defined.

Lemma review_unit_ok env c1 status notes id u c2 :
  review_unit status notes id env c1 = (Ok u, c2) ->
  exists p,
    find_proof (tables c1) id = Some p /\
    tables c2
    = set_bookings
        (update_where (fun b => b_id b =? pp_booking_id p)
           (set_booking_status (newBookingStatus status) (NOW env)) (bookings (tables c1)))
        (set_payment_proofs
           (update_where (fun q => pp_id q =? id)
              (set_proof_review status notes (NOW env)) (payment_proofs (tables c1)))
           (tables c1)).
Proof.
  unfold review_unit, bind, query, review_proof, proof_by_id, select,
    set_status_of_booking, rows0, ret, throw.
  destruct (fails env (issued c1)); [discriminate |]. simpl.
  destruct (fails env (S (issued c1))); [discriminate |].
  rewrite matching_update_where by reflexivity.
  unfold find_proof.
  destruct (matching pp_id id (payment_proofs (tables c1))) as [| p ps] eqn:EM;
    [discriminate |].
  assert (Hp : pp_id p = id).
  { assert (I : In p (matching pp_id id (payment_proofs (tables c1))))
      by (rewrite EM; left; reflexivity).
    apply filter_In in I. destruct I as [_ I]. now apply Z.eqb_eq. }
  simpl. rewrite Hp, Z.eqb_refl. simpl.
  destruct (fails env (S (S (issued c1)))); [discriminate |].
  intros E. injection E as _ <-. exists p. split; reflexivity.
Qed.

Lemma put_verify_ok env c caller id body r c' :
  serve (put_verify caller id body) env c = (r, c') ->
  statusCode r = 200 ->
  exists c2,
    review_unit (status body) (notes body) id env
      (mkConn (tables c) (seqs c) (S (S (issued c)))) = (Ok tt, c2) /\
    tables c' = tables c2.
Proof.
  intros E H.
  unfold serve, put_verify, requireAdmin, try_catch, bind, ret in E.
  destruct (negb (u_role caller =? "admin")%string);
    [injection E as <- <-; discriminate H |].
  destruct (negb (includes _ _));
    [injection E as <- <-; discriminate H |].
  pose proof (transaction_outcome (review_unit (status body) (notes body) id) env c) as T.
  destruct (transaction _ env c) as [[[] | e] c0];
    [| injection E as <- <-; discriminate H].
  injection E as _ <-. destruct T as [c2 [E2 [Et _]]]. exists c2. split; assumption.
Qed.

(** X7.  [PUT /api/payments/:id/verify], when it answers 200, found the
    proof, wrote the decision, the notes and [reviewed_at] on it, and
    touched no other proof, no booking other than the proof's, and no other
    table. *)
Theorem review_frame (env : Env) (c : Conn) (caller : user) (id : Z) (body : verify_body) :
  statusCode (fst (serve (put_verify caller id body) env c)) = 200 ->
  let t' := tables (snd (serve (put_verify caller id body) env c)) in
  exists p,
    find_proof (tables c) id = Some p /\
    find_proof t' id = Some (set_proof_review (status body) (notes body) (NOW env) p) /\
    others pp_id id (payment_proofs t') = others pp_id id (payment_proofs (tables c)) /\
    others b_id (pp_booking_id p) (bookings t')
    = others b_id (pp_booking_id p) (bookings (tables c)) /\
    t' = set_bookings (bookings t') (set_payment_proofs (payment_proofs t') (tables c)).
Proof.
  intros H. cbv zeta.
  destruct (serve (put_verify caller id body) env c) as [r c'] eqn:E. simpl in *.
  destruct (put_verify_ok _ _ _ _ _ _ _ E H) as [c2 [E2 Et]].
  destruct (review_unit_ok _ _ _ _ _ _ _ E2) as [p [Fp T2]].
  simpl in Fp, T2. rewrite Et, T2. exists p.
  split; [exact Fp |]. split; [| split; [| split]].
  - unfold find_proof. simpl. apply find_update_where; [reflexivity | exact Fp].
  - simpl. apply others_update_where. reflexivity.
  - simpl. apply others_update_where. reflexivity.
  - reflexivity.
Qed.

Lemma review_frame_witness :
  others pp_id 500
    (payment_proofs
       (tables (snd (serve (put_verify Sample.admin 500 (mkVerifyBody "approved" "ok"))
                       (reliable 100) Sample.store))))
  = [Sample.proof2; Sample.proof3].
Proof.
  destruct (review_frame (reliable 100) Sample.store Sample.admin 500
              (mkVerifyBody "approved" "ok") eq_refl) as [p [_ [_ [O _]]]].
  exact O.
Defined.

Lemma upload_unit_ok env c1 bookingId fileUrl fileName u c2 :
  upload_unit bookingId fileUrl fileName env c1 = (Ok u, c2) ->
  tables c2
  = set_bookings
      (update_where (fun b => b_id b =? bookingId)
         (set_booking_status "payment_under_review" (NOW env)) (bookings (tables c1)))
      (set_payment_proofs
         (payment_proofs (tables c1) ++
          [mkProof (payment_proofs_id_seq (seqs c1)) bookingId fileUrl
             (or_default fileName "payment-proof") "pending" None None (NOW env)])
         (tables c1)).
Proof.
  unfold upload_unit, bind, query, insert_proof, set_status_of_booking.
  destruct (fails env (issued c1)); [discriminate |].
  destruct (references b_id _ _ && negb _); simpl; [| discriminate].
  destruct (fails env (S (issued c1))); [discriminate |].
  intros E. injection E as _ <-. reflexivity.
Qed.

Lemma post_payments_ok env c caller body r c' :
  serve (post_payments caller body) env c = (r, c') ->
  statusCode r = 201 ->
  exists c2,
    upload_unit (bookingId body) (fileUrl body) (fileName body) env
      (mkConn (tables c) (seqs c) (S (S (S (S (issued c)))))) = (Ok tt, c2) /\
    tables c' = tables c2.
Proof.
  intros E H.
  unfold serve, post_payments, requireStudent, try_catch in E.
  destruct (negb (u_role caller =? "student")%string);
    [injection E as <- <-; discriminate H |].
  destruct ((bookingId body =? 0) || _);
    [injection E as <- <-; discriminate H |].
  unfold bind at 1 in E. unfold query at 1, students_of_user, select in E.
  destruct (fails env (issued c)); [injection E as <- <-; discriminate H |].
  unfold bind at 1 in E. unfold rows0 in E.
  destruct (filter _ (students (tables c))) as [| st sts];
    [injection E as <- <-; discriminate H |].
  unfold ret at 1 in E. unfold bind at 1 in E.
  unfold query at 1, booking_of_student, select in E. simpl in E.
  destruct (fails env (S (issued c))); [injection E as <- <-; discriminate H |].
  destruct (filter _ (bookings (tables c))) as [| b0 bs]; simpl in E;
    [injection E as <- <-; discriminate H |].
  unfold bind, ret in E.
  set (c0 := mkConn (tables c) (seqs c) (S (S (issued c)))) in *.
  pose proof (transaction_outcome
                (upload_unit (bookingId body) (fileUrl body) (fileName body)) env c0) as T.
  destruct (transaction _ env c0) as [[[] | e] c1];
    [| injection E as <- <-; discriminate H].
  injection E as _ <-. destruct T as [c2 [E2 [Et _]]]. exists c2. split; assumption.
Qed.

(** X8.  [POST /api/payments], when it answers 201, appended exactly one
    proof: it takes the next key of the sequence, is [pending], carries the
    request's booking id and file URL, and the file name
    ['payment-proof'] when none was given; the booking is
    [payment_under_review]; every other booking and table is as before. *)
Theorem upload_frame (env : Env) (c : Conn) (caller : user) (body : payment_body) :
  statusCode (fst (serve (post_payments caller body) env c)) = 201 ->
  let t' := tables (snd (serve (post_payments caller body) env c)) in
  payment_proofs t'
  = (payment_proofs (tables c) ++
     [mkProof (payment_proofs_id_seq (seqs c)) (bookingId body) (fileUrl body)
        (if (fileName body =? "")%string then "payment-proof" else fileName body)
        "pending" None None (NOW env)])%list /\
  (forall b, find_booking (tables c) (bookingId body) = Some b ->
             find_booking t' (bookingId body)
             = Some (set_booking_status "payment_under_review" (NOW env) b)) /\
  others b_id (bookingId body) (bookings t')
  = others b_id (bookingId body) (bookings (tables c)) /\
  t' = set_bookings (bookings t') (set_payment_proofs (payment_proofs t') (tables c)).
Proof.
  intros H. cbv zeta.
  destruct (serve (post_payments caller body) env c) as [r c'] eqn:E. simpl in *.
  destruct (post_payments_ok _ _ _ _ _ _ E H) as [c2 [E2 Et]].
  pose proof (upload_unit_ok _ _ _ _ _ _ _ E2) as T2. simpl in T2.
  rewrite Et, T2. split; [reflexivity |]. split; [| split].
  - intros b Fb. unfold find_booking. simpl.
    apply find_update_where; [reflexivity | exact Fb].
  - simpl. apply others_update_where. reflexivity.
  - reflexivity.
Qed.

Lemma upload_frame_witness :
  payment_proofs
    (tables (snd (serve (post_payments Sample.sam
                           (mkPaymentBody 1000 "https://files.example/p9.png" ""))
                    (reliable 100) Sample.store)))
  = [Sample.proof1; Sample.proof2; Sample.proof3;
     mkProof 503 1000 "https://files.example/p9.png" "payment-proof" "pending"
       None None 100].
Proof.
  exact (proj1 (upload_frame (reliable 100) Sample.store Sample.sam
                  (mkPaymentBody 1000 "https://files.example/p9.png" "") eq_refl)).
Defined.

End Frames.

Module CheckOrder.
Import Bookings Payments.

(** X9.  Order of the checks on the writing routes that have a role guard.  The
    guard comes first: a caller with the wrong role gets 403 whatever the
    body holds.  Validation comes next: with the right role, an invalid body
    gets 400.  In both cases no round trip to the store is made and nothing
    changes, whatever the store would have done. *)
Theorem role_then_validation (env : Env) (c : Conn) (caller : user) :
  (forall id body,
     (u_role caller <> "admin" ->
      serve (put_verify caller id body) env c
      = (failure 403 "Access denied. Admin only.", c)) /\
     (u_role caller = "admin" -> ~ In (status body) ["approved"; "rejected"] ->
      serve (put_verify caller id body) env c
      = (failure 400 "Status must be approved or rejected", c))) /\
  (forall body,
     (u_role caller <> "student" ->
      serve (post_payments caller body) env c
      = (failure 403 "Access denied. Student only.", c)) /\
     (u_role caller = "student" -> bookingId body = 0 \/ fileUrl body = "" ->
      serve (post_payments caller body) env c
      = (failure 400 "Booking ID and file URL are required", c))) /\
  (forall body,
     (u_role caller <> "student" ->
      serve (post_bookings caller body) env c
      = (failure 403 "Access denied. Student only.", c)) /\
     (u_role caller = "student" ->
      scheduledDate body = None \/ duration body < 30 \/ 240 < duration body ->
      serve (post_bookings caller body) env c
      = (mkResponse 400 false None ValidationErrors, c))).
Proof.
  split; [| split].
  - intros id body. split.
    + intros H. apply String.eqb_neq in H.
      unfold serve, put_verify, requireAdmin. rewrite H. reflexivity.
    + intros H Hv. unfold serve, put_verify, requireAdmin, try_catch.
      rewrite H, (includes_not_In _ _ Hv). reflexivity.
  - intros body. split.
    + intros H. apply String.eqb_neq in H.
      unfold serve, post_payments, requireStudent. rewrite H. reflexivity.
    + intros H Hv. unfold serve, post_payments, requireStudent, try_catch. rewrite H.
      assert (E : (bookingId body =? 0) || (fileUrl body =? "")%string = true).
      { destruct Hv as [-> | ->]; [reflexivity | apply orb_true_r]. }
      rewrite E. reflexivity.
  - intros body. split.
    + intros H. apply String.eqb_neq in H.
      unfold serve, post_bookings, requireStudent. rewrite H. reflexivity.
    + intros H Hv. unfold serve, post_bookings, requireStudent, try_catch. rewrite H.
      assert (E : validationResult body = false).
      { unfold validationResult. destruct Hv as [-> | [Hd | Hd]]; [reflexivity | |].
        - assert (L : (30 <=? duration body) = false) by (apply Z.leb_gt; lia).
          rewrite L, andb_false_r. reflexivity.
        - assert (L : (duration body <=? 240) = false) by (apply Z.leb_gt; lia).
          rewrite L, andb_false_r. reflexivity. }
      rewrite E. reflexivity.
Qed.

Lemma role_then_validation_witness :
  serve (put_verify Sample.sam 500 (mkVerifyBody "maybe" "")) (reliable 100) Sample.store
  = (failure 403 "Access denied. Admin only.", Sample.store).
Proof.
  assert (H : u_role Sample.sam <> "admin") by discriminate.
  exact (proj1 (proj1 (role_then_validation (reliable 100) Sample.store Sample.sam)
                  500 (mkVerifyBody "maybe" "")) H).
Defined.

End CheckOrder.

Module Edges.
Import Views Bookings Payments.

(** X10.  A user with role [student] but no row in [students].
    [POST /api/payments], [GET /api/bookings/upcoming/classes] and
    [GET /api/payments] read [studentResult.rows[0].id] unguarded and answer
    500, whatever the store does; [GET /api/bookings] and
    [POST /api/bookings] check the result and answer 404
    ['Student not found'] when the lookup is answered.  Nothing is
    written. *)
Theorem missing_student_profile (env : Env) (c : Conn) (caller : user) :
  u_role caller = "student" ->
  filter (fun st => st_user_id st =? u_id caller) (students (tables c)) = [] ->
  (forall body,
     bookingId body <> 0 -> fileUrl body <> "" ->
     fst (serve (post_payments caller body) env c)
     = failure 500 "Failed to upload payment proof" /\
     tables (snd (serve (post_payments caller body) env c)) = tables c) /\
  fst (serve (get_upcoming caller) env c) = failure 500 "Failed to get upcoming classes" /\
  fst (answer (get_payments caller) env c) = refusal 500 "Failed to get payments" /\
  (fails env (issued c) = false ->
   fst (serve (get_bookings caller) env c) = failure 404 "Student not found" /\
   forall body,
     validationResult body = true ->
     fst (serve (post_bookings caller body) env c) = failure 404 "Student not found" /\
     tables (snd (serve (post_bookings caller body) env c)) = tables c).
Proof.
  intros Hr Hno.
  split; [| split; [| split; [| intros F; split]]].
  - intros body Hid Hurl.
    apply Z.eqb_neq in Hid. apply String.eqb_neq in Hurl.
    unfold serve, post_payments, requireStudent, try_catch.
    rewrite Hr, Hid, Hurl. simpl.
    unfold bind, query, students_of_user, select, rows0, ret, throw.
    destruct (fails env (issued c)); simpl; [split; reflexivity |].
    rewrite Hno. simpl. split; reflexivity.
  - unfold serve, get_upcoming, try_catch. rewrite Hr. simpl.
    unfold bind, query, students_of_user, select, rows0, ret, throw.
    destruct (fails env (issued c)); simpl; [reflexivity |].
    rewrite Hno. reflexivity.
  - unfold answer, get_payments, try_catch. rewrite Hr. simpl.
    unfold bind, query, students_of_user, select, rows0, ret, throw.
    destruct (fails env (issued c)); simpl; [reflexivity |].
    rewrite Hno. reflexivity.
  - unfold serve, get_bookings, try_catch. rewrite Hr. simpl.
    unfold bind, query, students_of_user, select, ret. rewrite F. simpl.
    rewrite Hno. reflexivity.
  - intros body Hv. unfold serve, post_bookings, requireStudent, try_catch.
    rewrite Hr, Hv. simpl.
    unfold bind, query, students_of_user, select, ret. rewrite F. simpl.
    rewrite Hno. split; reflexivity.
Qed.

Lemma missing_student_profile_witness :
  fst (serve (get_upcoming (mkUser 9 "nia@example.com" "Nia" "student" None))
         (reliable 100) Sample.store)
  = failure 500 "Failed to get upcoming classes".
Proof.
  exact (proj1 (proj2 (missing_student_profile (reliable 100) Sample.store
                         (mkUser 9 "nia@example.com" "Nia" "student" None)
                         eq_refl eq_refl))).
Defined.

(** X11.  [POST /api/bookings] does not check that the teacher exists
    before the insert: a valid request with a priced subject and a
    [teacherId] that no teacher has is stopped by the foreign key of
    [bookings.teacher_id] and answered 500 ['Failed to create booking'];
    no table changes. *)
Theorem booking_with_unknown_teacher (env : Env) (c : Conn) (caller : user)
    (body : booking_body) (st : student) (tier : pricing_tier) :
  u_role caller = "student" ->
  validationResult body = true ->
  answers env ->
  hd_error (filter (fun st => st_user_id st =? u_id caller) (students (tables c)))
  = Some st ->
  In tier (pricing_tiers (tables c)) ->
  pt_subject_id tier = subjectId body ->
  st_grade_level st = Some (pt_grade_level tier) ->
  references t_id (teachers (tables c)) (teacherId body) = false ->
  fst (serve (post_bookings caller body) env c) = failure 500 "Failed to create booking" /\
  tables (snd (serve (post_bookings caller body) env c)) = tables c.
Proof.
  intros Hr Hv A Hst Ht Hsub Hg Hte.
  assert (Eteacher : matching t_id (teacherId body) (teachers (tables c)) = [])
    by now apply references_matching.
  unfold serve, post_bookings, requireStudent, try_catch.
  rewrite Hr, Hv. simpl.
  unfold bind, query, students_of_user, price_of, teacher_by_id, insert_booking, select, ret.
  rewrite !A. simpl.
  destruct (filter _ (students (tables c))) as [| st0 sts]; [discriminate |].
  injection Hst as ->. rewrite Hg. simpl.
  destruct (filter _ (pricing_tiers (tables c))) as [| p ps] eqn:E.
  { exfalso.
    assert (I : In tier (filter (fun p => (pt_subject_id p =? subjectId body) &&
                                  (pt_grade_level p =? pt_grade_level tier)%string)
                           (pricing_tiers (tables c)))).
    { apply filter_In. split; [exact Ht |].
      rewrite Hsub, Z.eqb_refl, String.eqb_refl. reflexivity. }
    rewrite E in I. exact I. }
  repeat (rewrite A; simpl).
  fold (matching t_id (teacherId body) (teachers (tables c))).
  rewrite Eteacher. repeat (rewrite A; simpl). rewrite Hte, andb_false_r. simpl.
  destruct (scheduledDate body); split; reflexivity.
Qed.

Lemma booking_with_unknown_teacher_witness :
  fst (serve (post_bookings Sample.sam (mkBookingBody 99 1 (Some 9000) 90 ""))
         (reliable 100) Sample.store)
  = failure 500 "Failed to create booking".
Proof.
  assert (A : answers (reliable 100)) by (intros n; reflexivity).
  assert (T : In Sample.math_middle (pricing_tiers (tables Sample.store)))
    by (left; reflexivity).
  exact (proj1 (booking_with_unknown_teacher (reliable 100) Sample.store Sample.sam
                  (mkBookingBody 99 1 (Some 9000) 90 "") Sample.sam_profile
                  Sample.math_middle eq_refl eq_refl A eq_refl T eq_refl eq_refl eq_refl)).
Defined.

(** X12.  [PUT /api/bookings/:id/status] with a valid status, from a
    caller who is not an administrator and is neither the student nor the
    teacher of the booking: the answer is 404 when no booking has the id and
    403 when one has it, so the two cases can be told apart; nothing is
    written in either. *)
Theorem booking_ids_can_be_probed (now : Z) (c : Conn) (caller : user) (id : Z)
    (status : string) :
  In status validStatuses ->
  u_role caller <> "admin" ->
  (forall b, find_booking (tables c) id = Some b ->
     isStudent (filter (fun st => st_user_id st =? u_id caller) (students (tables c))) b
     = false /\
     isTeacher (filter (fun te => t_user_id te =? u_id caller) (teachers (tables c))) b
     = false) ->
  let r := fst (serve (put_booking_status caller id status) (reliable now) c) in
  (find_booking (tables c) id = None -> r = failure 404 "Booking not found") /\
  (find_booking (tables c) id <> None -> r = failure 403 "Not authorized") /\
  tables (snd (serve (put_booking_status caller id status) (reliable now) c)) = tables c.
Proof.
  intros Hv Hr Hparty. cbv zeta.
  apply includes_In in Hv. apply String.eqb_neq in Hr.
  unfold serve, put_booking_status, try_catch, not_authorized.
  rewrite Hv, Hr.
  unfold bind, query, booking_by_id, students_of_user, teachers_of_user,
    update_booking_status, select, ret.
  simpl.
  unfold find_booking in *.
  destruct (matching b_id id (bookings (tables c))) as [| b rest]; simpl.
  - split; [reflexivity |]. split; [intros H; contradiction | reflexivity].
  - destruct (Hparty b eq_refl) as [Hs Ht]. rewrite Hs, Ht. simpl.
    split; [discriminate |]. split; reflexivity.
Qed.

Lemma booking_ids_can_be_probed_witness :
  fst (serve (put_booking_status Sample.sid 1000 "cancelled") (reliable 100) Sample.store)
  = failure 403 "Not authorized".
Proof.
  assert (H1 : In "cancelled" validStatuses) by (simpl; tauto).
  assert (H2 : u_role Sample.sid <> "admin") by discriminate.
  assert (H3 : forall b, find_booking (tables Sample.store) 1000 = Some b ->
     isStudent (filter (fun st => st_user_id st =? u_id Sample.sid)
                  (students (tables Sample.store))) b = false /\
     isTeacher (filter (fun te => t_user_id te =? u_id Sample.sid)
                  (teachers (tables Sample.store))) b = false).
  { intros b E. injection E as <-. split; reflexivity. }
  refine (proj1 (proj2 (booking_ids_can_be_probed 100 Sample.store Sample.sid 1000
                          "cancelled" H1 H2 H3)) _).
  discriminate.
Defined.

End Edges.

Module Listings.
Import Views Bookings Payments.

Section Sorting.
Context {A : Type} (le : A -> A -> bool) (R : A -> A -> Prop).
Hypothesis le_R : forall x y, le x y = true -> R x y.
Hypothesis le_total : forall x y, le x y = false -> R y x.
Hypothesis R_trans : forall x y z, R x y -> R y z -> R x z.

Lemma insert_by_keeps_sorted (x : A) (l : list A) :
  StronglySorted R l -> StronglySorted R (insert_by le x l).
Proof.
  induction 1 as [| y l S IH F]; simpl.
  - constructor; constructor.
  - destruct (le x y) eqn:E.
    + constructor; [constructor; assumption |].
      constructor; [exact (le_R _ _ E) |].
      rewrite Forall_forall in F |- *. intros z Hz.
      exact (R_trans _ _ _ (le_R _ _ E) (F z Hz)).
    + constructor; [exact IH |].
      rewrite Forall_forall in F |- *. intros z Hz.
      apply (Permutation_in _ (insert_by_perm le x l)) in Hz.
      destruct Hz as [<- | Hz]; [exact (le_total _ _ E) | exact (F z Hz)].
Qed.

Lemma order_by_is_sorted (l : list A) : StronglySorted R (order_by le l).
Proof.
  unfold order_by. induction l as [| x l IH]; simpl.
  - constructor.
  - now apply insert_by_keeps_sorted.
Qed.

End Sorting.

Lemma order_by_desc_sorted {A} (key : A -> Z) (l : list A) :
  StronglySorted (by_key_desc key) (order_by (desc key) l).
Proof.
  apply order_by_is_sorted; unfold desc, by_key_desc.
  - intros x y H. now apply Z.leb_le.
  - intros x y H. apply Z.leb_gt in H. lia.
  - intros x y z. lia.
Qed.

(** Under the constraints every booking joins with exactly one teacher,
    student, subject and with their users. *)
Lemma integrity_booking_join t s :
  integrity t s = true ->
  forall b, In b (bookings t) ->
  exists te tu st su sub,
    matching t_id (b_teacher_id b) (teachers t) = [te] /\
    matching u_id (t_user_id te) (users t) = [tu] /\
    matching st_id (b_student_id b) (students t) = [st] /\
    matching u_id (st_user_id st) (users t) = [su] /\
    matching sub_id (b_subject_id b) (subjects t) = [sub].
Proof.
  intros H b Hb.
  destruct (integrity_parts _ _ H)
    as (U & S & T & Sb & _ & _ & _ & Fs & Ft & _ & Fb & _).
  destruct (Fb b Hb) as (Rst & Rte & Rsub).
  destruct (unique_row sub_id (subjects t) (b_subject_id b) Sb Rsub) as [sub [_ [_ Es]]].
  destruct (unique_row st_id (students t) (b_student_id b) S Rst) as [st [Hst [_ Est]]].
  destruct (unique_row t_id (teachers t) (b_teacher_id b) T Rte) as [te [Hte [_ Ete]]].
  destruct (unique_row u_id (users t) (st_user_id st) U (Fs st Hst)) as [su [_ [_ Esu]]].
  destruct (unique_row u_id (users t) (t_user_id te) U (Ft te Hte)) as [tu [_ [_ Etu]]].
  exists te, tu, st, su, sub. tauto.
Qed.

Lemma Forall_flat_map {A B} (P : B -> Prop) (J : A -> list B) (l : list A) :
  (forall x, In x l -> Forall P (J x)) -> Forall P (flat_map J l).
Proof.
  intros H. rewrite Forall_forall. intros y Hy.
  apply in_flat_map in Hy. destruct Hy as [x [Hx Hy]].
  specialize (H x Hx). rewrite Forall_forall in H. exact (H y Hy).
Qed.

Lemma Forall_filter {A} (P : A -> Prop) (f : A -> bool) (l : list A) :
  Forall P l -> Forall P (filter f l).
Proof.
  rewrite !Forall_forall. intros H x Hx. apply filter_In in Hx. apply H. tauto.
Qed.

Lemma Forall_order_by {A} (P : A -> Prop) (le : A -> A -> bool) (l : list A) :
  Forall P l -> Forall P (order_by le l).
Proof.
  intros H. apply (Permutation_Forall (Permutation_sym (order_by_perm le l))). exact H.
Qed.

(** The join of [GET /api/bookings] for a student, row by row. *)
Lemma student_join t s :
  integrity t s = true ->
  forall b, In b (bookings t) ->
  exists r,
    flat_map (fun te =>
      flat_map (fun u =>
        map (fun sub => mkBookingRow b (u_name u) (u_profile_picture u) (sub_name sub))
            (matching sub_id (b_subject_id b) (subjects t)))
        (matching u_id (t_user_id te) (users t)))
      (matching t_id (b_teacher_id b) (teachers t)) = [r] /\
    br_booking r = b /\ shows t teacher_user r.
Proof.
  intros I b Hb.
  destruct (integrity_booking_join _ _ I b Hb) as (te & tu & st & su & sub & E).
  destruct E as (Ete & Etu & Est & Esu & Es).
  eexists. rewrite Ete. simpl. rewrite Etu. simpl. rewrite Es. simpl.
  split; [reflexivity |]. split; [reflexivity |].
  exists tu, sub. unfold teacher_user, subject_of. simpl.
  rewrite Ete. simpl. rewrite Etu, Es. simpl. repeat split.
Qed.

(** The join of [GET /api/bookings] for a teacher, row by row. *)
Lemma teacher_join t s :
  integrity t s = true ->
  forall b, In b (bookings t) ->
  exists r,
    flat_map (fun st =>
      flat_map (fun u =>
        map (fun sub => mkBookingRow b (u_name u) (u_profile_picture u) (sub_name sub))
            (matching sub_id (b_subject_id b) (subjects t)))
        (matching u_id (st_user_id st) (users t)))
      (matching st_id (b_student_id b) (students t)) = [r] /\
    br_booking r = b /\ shows t student_user r.
Proof.
  intros I b Hb.
  destruct (integrity_booking_join _ _ I b Hb) as (te & tu & st & su & sub & E).
  destruct E as (Ete & Etu & Est & Esu & Es).
  eexists. rewrite Est. simpl. rewrite Esu. simpl. rewrite Es. simpl.
  split; [reflexivity |]. split; [reflexivity |].
  exists su, sub. unfold student_user, subject_of. simpl.
  rewrite Est. simpl. rewrite Esu, Es. simpl. repeat split.
Qed.

(** What a filtered, ordered join of the bookings holds when every booking
    finds one partner row. *)
Lemma listing {le : booking_row -> booking_row -> bool} t party
    (J : booking -> list booking_row) (P : booking -> bool) :
  (forall b, In b (bookings t) ->
             exists r, J b = [r] /\ br_booking r = b /\ shows t party r) ->
  let rows := order_by le (filter (fun r => P (br_booking r)) (flat_map J (bookings t))) in
  Permutation (map br_booking rows) (filter P (bookings t)) /\
  Forall (shows t party) rows.
Proof.
  intros H rows. subst rows. split.
  - rewrite order_by_perm.
    rewrite (join_one_each J br_booking P); [reflexivity |].
    intros b Hb. destruct (H b Hb) as [r [E [Er _]]]. eauto.
  - apply Forall_order_by, Forall_filter, Forall_flat_map.
    intros b Hb. destruct (H b Hb) as [r [E [_ Sh]]]. rewrite E.
    constructor; [exact Sh | constructor].
Qed.

(** X13.  [GET /api/bookings] on a store that answers and satisfies the
    constraints.  A student gets exactly the bookings of their student
    profile, a teacher exactly those of their teacher profile: each once,
    newest first ([created_at DESC]), each row carrying the name and picture
    of the other party's user and the name of the subject. *)
Theorem own_bookings_listed (now : Z) (c : Conn) (caller : user) :
  integrity (tables c) (seqs c) = true ->
  (forall st,
     u_role caller = "student" ->
     hd_error (filter (fun st => st_user_id st =? u_id caller) (students (tables c)))
     = Some st ->
     exists rows,
       fst (serve (get_bookings caller) (reliable now) c)
       = mkResponse 200 true None (BookingRows rows) /\
       Permutation (map br_booking rows)
         (filter (fun b => b_student_id b =? st_id st) (bookings (tables c))) /\
       StronglySorted (by_key_desc (fun r => b_created_at (br_booking r))) rows /\
       Forall (shows (tables c) teacher_user) rows) /\
  (forall te,
     u_role caller = "teacher" ->
     hd_error (filter (fun te => t_user_id te =? u_id caller) (teachers (tables c)))
     = Some te ->
     exists rows,
       fst (serve (get_bookings caller) (reliable now) c)
       = mkResponse 200 true None (BookingRows rows) /\
       Permutation (map br_booking rows)
         (filter (fun b => b_teacher_id b =? t_id te) (bookings (tables c))) /\
       StronglySorted (by_key_desc (fun r => b_created_at (br_booking r))) rows /\
       Forall (shows (tables c) student_user) rows).
Proof.
  intros I. split.
  - intros st Hr Hst.
    unfold serve, get_bookings, try_catch. rewrite Hr. simpl.
    unfold bind, query, students_of_user, bookings_of_student, select, ret. simpl.
    destruct (filter _ (students (tables c))) as [| st0 sts]; [discriminate |].
    injection Hst as ->. simpl.
    eexists. split; [reflexivity |].
    pose proof (listing (le := desc (fun r => b_created_at (br_booking r)))
                  (tables c) teacher_user _ (fun b => b_student_id b =? st_id st)
                  (student_join _ _ I)) as [L1 L2].
    split; [exact L1 |]. split; [apply order_by_desc_sorted | exact L2].
  - intros te Hr Hte.
    assert (Hs : (u_role caller =? "student")%string = false) by (rewrite Hr; reflexivity).
    unfold serve, get_bookings, try_catch. rewrite Hs, Hr. simpl.
    unfold bind, query, teachers_of_user, bookings_of_teacher, select, ret. simpl.
    destruct (filter _ (teachers (tables c))) as [| te0 tes]; [discriminate |].
    injection Hte as ->. simpl.
    eexists. split; [reflexivity |].
    pose proof (listing (le := desc (fun r => b_created_at (br_booking r)))
                  (tables c) student_user _ (fun b => b_teacher_id b =? t_id te)
                  (teacher_join _ _ I)) as [L1 L2].
    split; [exact L1 |]. split; [apply order_by_desc_sorted | exact L2].
Qed.

Lemma own_bookings_listed_witness :
  exists rows,
    fst (serve (get_bookings Sample.sam) (reliable 100) Sample.store)
    = mkResponse 200 true None (BookingRows rows) /\
    Permutation (map br_booking rows) [Sample.sam_booking; Sample.sam_booking2] /\
    StronglySorted (by_key_desc (fun r => b_created_at (br_booking r))) rows /\
    Forall (shows (tables Sample.store) teacher_user) rows.
Proof.
  assert (I : integrity (tables Sample.store) (seqs Sample.store) = true) by reflexivity.
  exact (proj1 (own_bookings_listed 100 Sample.store Sample.sam I)
           Sample.sam_profile eq_refl eq_refl).
Defined.

(** X14.  [GET /api/bookings/upcoming/classes] on a store that answers
    and satisfies the constraints.  The caller gets exactly their bookings
    that are [confirmed] and scheduled after [NOW()]: each once, earliest
    first, with the other party and the subject. *)
Theorem upcoming_classes_listed (now : Z) (c : Conn) (caller : user) :
  integrity (tables c) (seqs c) = true ->
  (forall st,
     u_role caller = "student" ->
     hd_error (filter (fun st => st_user_id st =? u_id caller) (students (tables c)))
     = Some st ->
     exists rows,
       fst (serve (get_upcoming caller) (reliable now) c)
       = mkResponse 200 true None (BookingRows rows) /\
       Permutation (map br_booking rows)
         (filter (fun b => (b_student_id b =? st_id st) &&
                           (b_status b =? "confirmed")%string &&
                           (now <? b_scheduled_date b)) (bookings (tables c))) /\
       StronglySorted (by_key (fun r => b_scheduled_date (br_booking r))) rows /\
       Forall (shows (tables c) teacher_user) rows) /\
  (forall te,
     u_role caller = "teacher" ->
     hd_error (filter (fun te => t_user_id te =? u_id caller) (teachers (tables c)))
     = Some te ->
     exists rows,
       fst (serve (get_upcoming caller) (reliable now) c)
       = mkResponse 200 true None (BookingRows rows) /\
       Permutation (map br_booking rows)
         (filter (fun b => (b_teacher_id b =? t_id te) &&
                           (b_status b =? "confirmed")%string &&
                           (now <? b_scheduled_date b)) (bookings (tables c))) /\
       StronglySorted (by_key (fun r => b_scheduled_date (br_booking r))) rows /\
       Forall (shows (tables c) student_user) rows).
Proof.
  intros I. split.
  - intros st Hr Hst.
    unfold serve, get_upcoming, try_catch. rewrite Hr. simpl.
    unfold bind, query, students_of_user, upcoming_of_student, select, rows0, ret. simpl.
    destruct (filter _ (students (tables c))) as [| st0 sts]; [discriminate |].
    injection Hst as ->. simpl.
    eexists. split; [reflexivity |].
    pose proof (listing (le := asc (fun r => b_scheduled_date (br_booking r)))
                  (tables c) teacher_user _
                  (fun b => (b_student_id b =? st_id st) &&
                            (b_status b =? "confirmed")%string &&
                            (now <? b_scheduled_date b))
                  (student_join _ _ I)) as [L1 L2].
    split; [exact L1 |]. split; [apply order_by_sorted | exact L2].
  - intros te Hr Hte.
    assert (Hs : (u_role caller =? "student")%string = false) by (rewrite Hr; reflexivity).
    unfold serve, get_upcoming, try_catch. rewrite Hs, Hr. simpl.
    unfold bind, query, teachers_of_user, upcoming_of_teacher, select, rows0, ret. simpl.
    destruct (filter _ (teachers (tables c))) as [| te0 tes]; [discriminate |].
    injection Hte as ->. simpl.
    eexists. split; [reflexivity |].
    pose proof (listing (le := asc (fun r => b_scheduled_date (br_booking r)))
                  (tables c) student_user _
                  (fun b => (b_teacher_id b =? t_id te) &&
                            (b_status b =? "confirmed")%string &&
                            (now <? b_scheduled_date b))
                  (teacher_join _ _ I)) as [L1 L2].
    split; [exact L1 |]. split; [apply order_by_sorted | exact L2].
Qed.

Lemma upcoming_classes_listed_witness :
  (exists rows,
     fst (serve (get_upcoming Sample.tara) (reliable 100) Scenarios.agenda)
     = mkResponse 200 true None (BookingRows rows) /\
     Permutation (map br_booking rows) [Scenarios.class_late; Scenarios.class_soon] /\
     StronglySorted (by_key (fun r => b_scheduled_date (br_booking r))) rows /\
     Forall (shows (tables Scenarios.agenda) student_user) rows) /\
  (exists rows,
     fst (serve (get_upcoming Sample.sam) (reliable 100) Scenarios.agenda)
     = mkResponse 200 true None (BookingRows rows) /\
     Permutation (map br_booking rows) [Scenarios.class_late; Scenarios.class_with_tom] /\
     StronglySorted (by_key (fun r => b_scheduled_date (br_booking r))) rows /\
     Forall (shows (tables Scenarios.agenda) teacher_user) rows).
Proof.
  assert (I : integrity (tables Scenarios.agenda) (seqs Scenarios.agenda) = true)
    by reflexivity.
  split.
  - exact (proj2 (upcoming_classes_listed 100 Scenarios.agenda Sample.tara I)
             Sample.tara_profile eq_refl eq_refl).
  - exact (proj1 (upcoming_classes_listed 100 Scenarios.agenda Sample.sam I)
             Sample.sam_profile eq_refl eq_refl).
Defined.

(** A join that finds one partner for the rows satisfying [P] and none for
    the others keeps exactly the former. *)
Lemma join_some {A B} (J : A -> list B) (proj : B -> A) (P : A -> bool) (l : list A) :
  (forall x, In x l ->
     (P x = true /\ exists r, J x = [r] /\ proj r = x) \/ (P x = false /\ J x = [])) ->
  map proj (flat_map J l) = filter P l.
Proof.
  induction l as [| x l IH]; simpl; intros H; [reflexivity |].
  rewrite map_app, IH by (intros y Hy; apply H; now right).
  destruct (H x (or_introl eq_refl)) as [[Px [r [E Hr]]] | [Px E]];
    rewrite Px, E; simpl; [rewrite Hr |]; reflexivity.
Qed.

(** The join of [GET /api/payments], row by row. *)
Lemma payments_join t s cond :
  integrity t s = true ->
  forall pp, In pp (payment_proofs t) ->
  let J pp :=
    flat_map (fun b =>
      if cond b : bool then
        map (fun sub => mkPaymentSummary pp (b_total_amount b) (b_subject_id b) (sub_name sub))
            (matching sub_id (b_subject_id b) (subjects t))
      else [])
      (matching b_id (pp_booking_id pp) (bookings t)) in
  (proof_where t cond pp = true /\
   exists r, J pp = [r] /\ ps_proof r = pp /\ summarizes t r) \/
  (proof_where t cond pp = false /\ J pp = []).
Proof.
  intros I pp Hpp. cbv zeta.
  destruct (integrity_join _ _ I pp Hpp) as (b & sub & st & su & te & tu & E).
  destruct E as (Eb & Es & _).
  unfold proof_where, find_booking. rewrite Eb. simpl.
  destruct (cond b) eqn:C; [left | right; split; reflexivity].
  split; [reflexivity |]. rewrite Es. simpl. eexists.
  split; [reflexivity |]. split; [reflexivity |].
  exists b, sub. unfold find_booking, subject_of. simpl. rewrite Eb, Es. repeat split.
Qed.

Lemma payments_listing t s cond :
  integrity t s = true ->
  forall now s0,
  exists rows,
    payments_where cond now t s0 = (Some (rows, t), s0) /\
    Permutation (map ps_proof rows) (filter (proof_where t cond) (payment_proofs t)) /\
    StronglySorted (by_key_desc (fun r => pp_uploaded_at (ps_proof r))) rows /\
    Forall (summarizes t) rows.
Proof.
  intros I now s0. unfold payments_where, select.
  eexists. split; [reflexivity |]. split; [| split].
  - rewrite order_by_perm.
    rewrite (join_some _ ps_proof (proof_where t cond)); [reflexivity |].
    intros pp Hpp.
    destruct (payments_join t s cond I pp Hpp) as [[P [r [E [Er _]]]] | [P E]];
      [left | right]; eauto.
  - apply order_by_desc_sorted.
  - apply Forall_order_by, Forall_flat_map. intros pp Hpp.
    destruct (payments_join t s cond I pp Hpp) as [[P [r [E [_ Sm]]]] | [P E]];
      cbv zeta in E; rewrite E; [constructor; [exact Sm | constructor] | constructor].
Qed.

(** X15.  [GET /api/payments] on a store that answers and satisfies the
    constraints.  A student gets the proofs of the bookings of their
    profile, a teacher those of theirs, and every other role (administrators
    included) gets every proof: each once, newest upload first, with the
    amount, subject id and subject name of the booking. *)
Theorem payments_listed (now : Z) (c : Conn) (caller : user) :
  integrity (tables c) (seqs c) = true ->
  let shown cond rows :=
    fst (answer (get_payments caller) (reliable now) c)
    = mkReply 200 true None (Some rows) /\
    Permutation (map ps_proof rows)
      (filter (proof_where (tables c) cond) (payment_proofs (tables c))) /\
    StronglySorted (by_key_desc (fun r => pp_uploaded_at (ps_proof r))) rows /\
    Forall (summarizes (tables c)) rows in
  (forall st,
     u_role caller = "student" ->
     hd_error (filter (fun st => st_user_id st =? u_id caller) (students (tables c)))
     = Some st ->
     exists rows, shown (fun b => b_student_id b =? st_id st) rows) /\
  (forall te,
     u_role caller = "teacher" ->
     hd_error (filter (fun te => t_user_id te =? u_id caller) (teachers (tables c)))
     = Some te ->
     exists rows, shown (fun b => b_teacher_id b =? t_id te) rows) /\
  (u_role caller <> "student" -> u_role caller <> "teacher" ->
   exists rows, shown (fun _ => true) rows /\
                Permutation (map ps_proof rows) (payment_proofs (tables c))).
Proof.
  intros I. cbv zeta. split; [| split].
  - intros st Hr Hst.
    pose proof (payments_listing _ _ (fun b => b_student_id b =? st_id st) I now (seqs c))
      as L.
    unfold answer, get_payments, try_catch. rewrite Hr. simpl.
    unfold bind, query, students_of_user, select, rows0, ret. simpl.
    destruct (filter _ (students (tables c))) as [| st0 sts]; [discriminate |].
    injection Hst as ->. simpl.
    destruct L as [rows [E L]]. unfold payments_where, select in E.
    injection E as <-. eexists. split; [reflexivity | exact L].
  - intros te Hr Hte.
    assert (Hs : (u_role caller =? "student")%string = false) by (rewrite Hr; reflexivity).
    pose proof (payments_listing _ _ (fun b => b_teacher_id b =? t_id te) I now (seqs c))
      as L.
    unfold answer, get_payments, try_catch. rewrite Hs, Hr. simpl.
    unfold bind, query, teachers_of_user, select, rows0, ret. simpl.
    destruct (filter _ (teachers (tables c))) as [| te0 tes]; [discriminate |].
    injection Hte as ->. simpl.
    destruct L as [rows [E L]]. unfold payments_where, select in E.
    injection E as <-. eexists. split; [reflexivity | exact L].
  - intros Hs Ht. apply String.eqb_neq in Hs, Ht.
    pose proof (payments_listing _ _ (fun _ => true) I now (seqs c)) as L.
    unfold answer, get_payments, try_catch. rewrite Hs, Ht. simpl.
    unfold bind, query, ret. simpl.
    destruct L as [rows [E L]]. unfold payments_where, select in E.
    injection E as <-. eexists. split; [split; [reflexivity | exact L] |].
    destruct L as [L _]. rewrite L.
    assert (E : filter (proof_where (tables c) (fun _ => true)) (payment_proofs (tables c))
                = payment_proofs (tables c)).
    { apply forallb_filter_id. apply forallb_forall. intros pp Hpp.
      destruct (integrity_join _ _ I pp Hpp) as (b & sub & st & su & te & tu & E).
      destruct E as (Eb & _). unfold proof_where, find_booking. now rewrite Eb. }
    rewrite E. reflexivity.
Qed.

Lemma payments_listed_witness :
  exists rows,
    fst (answer (get_payments Sample.tara) (reliable 100) Sample.store)
    = mkReply 200 true None (Some rows) /\
    Permutation (map ps_proof rows) [Sample.proof1] /\
    StronglySorted (by_key_desc (fun r => pp_uploaded_at (ps_proof r))) rows /\
    Forall (summarizes (tables Sample.store)) rows.
Proof.
  assert (I : integrity (tables Sample.store) (seqs Sample.store) = true) by reflexivity.
  exact (proj1 (proj2 (payments_listed 100 Sample.store Sample.tara I))
           Sample.tara_profile eq_refl eq_refl).
Defined.

End Listings.

Module Details.
Import Views Bookings Payments Listings.

Lemma filter_flat_map_one {A B} (J : A -> list B) (proj : B -> A) (P : A -> bool)
    (l : list A) :
  (forall x, In x l -> exists r, J x = [r] /\ proj r = x) ->
  filter (fun r => P (proj r)) (flat_map J l) = flat_map J (filter P l).
Proof.
  induction l as [| x l IH]; simpl; intros H; [reflexivity |].
  destruct (H x (or_introl eq_refl)) as [r [E Hr]].
  rewrite E. simpl. rewrite Hr, IH by (intros y Hy; apply H; now right).
  destruct (P x); simpl; [rewrite E |]; reflexivity.
Qed.

(** The join of [GET /api/bookings/:id], row by row. *)
Lemma detail_join t s :
  integrity t s = true ->
  forall b, In b (bookings t) ->
  exists d,
    flat_map (fun te =>
      flat_map (fun tu =>
        flat_map (fun st =>
          flat_map (fun su =>
            map (fun sub =>
                   mkBookingDetail b (u_name tu) (u_profile_picture tu)
                     (u_name su) (u_profile_picture su) (sub_name sub))
                (matching sub_id (b_subject_id b) (subjects t)))
            (matching u_id (st_user_id st) (users t)))
          (matching st_id (b_student_id b) (students t)))
        (matching u_id (t_user_id te) (users t)))
      (matching t_id (b_teacher_id b) (teachers t)) = [d] /\
    bd_booking d = b /\ details t d.
Proof.
  intros I b Hb.
  destruct (integrity_booking_join _ _ I b Hb) as (te & tu & st & su & sub & E).
  destruct E as (Ete & Etu & Est & Esu & Es).
  eexists. rewrite Ete. simpl. rewrite Etu. simpl. rewrite Est. simpl.
  rewrite Esu. simpl. rewrite Es. simpl.
  split; [reflexivity |]. split; [reflexivity |].
  exists tu, su, sub. unfold teacher_user, student_user, subject_of. simpl.
  rewrite Ete, Est. simpl. rewrite Etu, Esu, Es. simpl. repeat split.
Qed.

(** What the statement of [GET /api/bookings/:id] returns. *)
Lemma detail_rows t s id :
  integrity t s = true ->
  forall now s0, exists rows,
    booking_detail_by_id id now t s0 = (Some (rows, t), s0) /\
    match find_booking t id with
    | None => rows = []
    | Some b => exists d more, rows = d :: more /\ bd_booking d = b /\ details t d
    end.
Proof.
  intros I now s0. unfold booking_detail_by_id, select.
  eexists. split; [reflexivity |].
  rewrite (filter_flat_map_one _ bd_booking (fun b => b_id b =? id))
    by (intros b Hb; destruct (detail_join _ _ I b Hb) as [d [E [Ed _]]]; eauto).
  change (filter (fun b => b_id b =? id) (bookings t))
    with (matching b_id id (bookings t)).
  unfold find_booking.
  destruct (matching b_id id (bookings t)) as [| b rest] eqn:E; [reflexivity |].
  assert (Hb : In b (bookings t)).
  { assert (J : In b (b :: rest)) by (left; reflexivity).
    rewrite <- E in J. apply filter_In in J. tauto. }
  destruct (detail_join _ _ I b Hb) as [d [Ed [Eb Dt]]].
  simpl. rewrite Ed. simpl. eauto.
Qed.

(** X16.  [GET /api/bookings/:id] on a store that answers and satisfies
    the constraints, for a caller with at most one student and one teacher
    profile: 404 when no booking has the id; the booking with both parties
    and the subject for an administrator, for the student of the booking
    (the caller whose student profile [bookings.student_id] names) and for
    its teacher; 403 for everybody else. *)
Theorem booking_detail_access (now : Z) (c : Conn) (caller : user) (id : Z) :
  integrity (tables c) (seqs c) = true ->
  one_profile (tables c) caller ->
  let r := fst (answer (get_booking caller id) (reliable now) c) in
  (find_booking (tables c) id = None -> r = refusal 404 "Booking not found") /\
  (forall b,
     find_booking (tables c) id = Some b ->
     (u_role caller = "admin" \/ booked_by (tables c) caller b \/
      taught_by (tables c) caller b ->
      exists d, r = mkReply 200 true None (Some d) /\
                bd_booking d = b /\ details (tables c) d) /\
     (u_role caller <> "admin" -> ~ booked_by (tables c) caller b ->
      ~ taught_by (tables c) caller b ->
      r = refusal 403 "Not authorized")).
Proof.
  intros I One. cbv zeta.
  destruct (detail_rows _ _ id I (NOW (reliable now)) (seqs c)) as [rows [E R]].
  unfold answer, get_booking, try_catch, bind, query, students_of_user,
    teachers_of_user, select, ret.
  change (fails (reliable now) (issued c)) with false. cbv iota.
  rewrite E.
  split.
  - intros F. rewrite F in R. subst rows. reflexivity.
  - intros b F. rewrite F in R. destruct R as [d [more [-> [Eb Dt]]]].
    simpl. rewrite Eb.
    destruct (party_tests (tables c) caller b One) as [Ps Pt].
    split.
    + intros H. exists d.
      destruct (u_role caller =? "admin")%string eqn:Ea; simpl;
        [split; [reflexivity | tauto] |].
      destruct H as [H | [H | H]];
        [rewrite H in Ea; discriminate
        | apply Ps in H; rewrite H | apply Pt in H; rewrite H];
        simpl; rewrite ?andb_false_r; simpl; tauto.
    + intros Ha Hs Ht. apply String.eqb_neq in Ha. rewrite Ha. simpl.
      destruct (isStudent _ b) eqn:Es; [exfalso; apply Hs, Ps; reflexivity |].
      destruct (isTeacher _ b) eqn:Et; [exfalso; apply Ht, Pt; reflexivity |].
      reflexivity.
Qed.

Lemma booking_detail_access_witness :
  (exists d,
     fst (answer (get_booking Sample.tara 1000) (reliable 100) Sample.store)
     = mkReply 200 true None (Some d) /\
     bd_booking d = Sample.sam_booking /\ details (tables Sample.store) d) /\
  (exists d,
     fst (answer (get_booking Sample.sam 1000) (reliable 100) Sample.store)
     = mkReply 200 true None (Some d) /\
     bd_booking d = Sample.sam_booking /\ details (tables Sample.store) d) /\
  fst (answer (get_booking Sample.tom 1000) (reliable 100) Sample.store)
  = refusal 403 "Not authorized" /\
  fst (answer (get_booking Sample.sid 1000) (reliable 100) Sample.store)
  = refusal 403 "Not authorized".
Proof.
  assert (I : integrity (tables Sample.store) (seqs Sample.store) = true) by reflexivity.
  assert (One : forall u, one_profile (tables Sample.store) u).
  { intros u. exact (sample_one_profile u _ _). }
  assert (Sam_s : booked_by (tables Sample.store) Sample.sam Sample.sam_booking).
  { exists Sample.sam_profile. split; [split; [left |] |]; reflexivity. }
  assert (Tara_t : taught_by (tables Sample.store) Sample.tara Sample.sam_booking).
  { exists Sample.tara_profile. split; [split; [left |] |]; reflexivity. }
  assert (No_s : forall u, u_id u <> 3 ->
                   ~ booked_by (tables Sample.store) u Sample.sam_booking).
  { intros u N [st [[Hin Hu] Hid]]. simpl in Hin.
    destruct Hin as [<- | [<- | []]]; simpl in *; [congruence | discriminate Hid]. }
  assert (No_t : forall u, u_id u <> 2 ->
                   ~ taught_by (tables Sample.store) u Sample.sam_booking).
  { intros u N [te [[Hin Hu] Hid]]. simpl in Hin.
    destruct Hin as [<- | [<- | []]]; simpl in *; [congruence | discriminate Hid]. }
  pose (D := fun caller =>
               proj2 (booking_detail_access 100 Sample.store caller 1000 I (One caller))
                 Sample.sam_booking eq_refl).
  refine (conj _ (conj _ (conj _ _))).
  - exact (proj1 (D Sample.tara) (or_intror (or_intror Tara_t))).
  - exact (proj1 (D Sample.sam) (or_intror (or_introl Sam_s))).
  - refine (proj2 (D Sample.tom) _ _ _);
      [discriminate | apply No_s; discriminate | apply No_t; discriminate].
  - refine (proj2 (D Sample.sid) _ _ _);
      [discriminate | apply No_s; discriminate | apply No_t; discriminate].
Defined.

(** X17.  [GET /api/subjects/:id/price] and [POST /api/bookings] agree.
    For a student whose profile has a grade level, the price route asked
    with that grade finds no tier exactly when the booking is refused with
    the same message (as 404 there, 400 here); and when the price route
    quotes a price, a booking that is created carries that price per hour
    and that grade level. *)
Theorem quoted_price_is_booked (now : Z) (c : Conn) (caller : user)
    (body : booking_body) (st : student) (g : string) :
  u_role caller = "student" ->
  validationResult body = true ->
  hd_error (filter (fun st => st_user_id st =? u_id caller) (students (tables c)))
  = Some st ->
  st_grade_level st = Some g -> g <> "" ->
  let quote := fst (answer (get_price (subjectId body) (Some g)) (reliable now) c) in
  let r := fst (serve (post_bookings caller body) (reliable now) c) in
  (quote = refusal 404 "Price not found for this subject and grade level" <->
   r = failure 400 "Price not found for this subject and grade level") /\
  (forall p row,
     quote = mkReply 200 true None (Some p) ->
     data r = BookingData (Some row) ->
     b_price_per_hour row = p /\ b_grade_level row = g).
Proof.
  intros Hr Hv Hst Hg Hne. cbv zeta.
  apply String.eqb_neq in Hne.
  unfold answer, get_price, serve, post_bookings, requireStudent, try_catch.
  rewrite Hr, Hv, Hne. simpl.
  unfold bind, query, students_of_user, price_of, teacher_by_id, insert_booking, select, ret.
  simpl.
  destruct (filter _ (students (tables c))) as [| st0 sts]; [discriminate |].
  injection Hst as ->. rewrite Hg. simpl.
  destruct (filter _ (pricing_tiers (tables c))) as [| tier tiers]; simpl.
  - split; [split; reflexivity |]. intros p row H. discriminate H.
  - split.
    + split; intros H; [discriminate H |].
      destruct (scheduledDate body); [| discriminate H].
      destruct (_ && _); simpl in H; discriminate H.
    + intros p row H D. injection H as <-.
      destruct (scheduledDate body); [| discriminate D].
      destruct (_ && _); simpl in D; [| discriminate D].
      injection D as <-. simpl. split; reflexivity.
Qed.

Lemma quoted_price_is_booked_witness :
  (fst (answer (get_price 1 (Some "Grade 11-12 (College)")) (reliable 100) Sample.store)
   = refusal 404 "Price not found for this subject and grade level" /\
   fst (serve (post_bookings Sample.sid Sample.sid_request) (reliable 100) Sample.store)
   = failure 400 "Price not found for this subject and grade level") /\
  (exists row,
     fst (answer (get_price 1 (Some "Grade 6-8 (Middle)")) (reliable 100) Sample.store)
     = mkReply 200 true None (Some (18 # 1)) /\
     data (fst (serve (post_bookings Sample.sam Sample.sam_request) (reliable 100)
                  Sample.store)) = BookingData (Some row) /\
     b_price_per_hour row = 18 # 1 /\ b_grade_level row = "Grade 6-8 (Middle)").
Proof.
  assert (H1 : "Grade 11-12 (College)" <> "") by discriminate.
  assert (H2 : "Grade 6-8 (Middle)" <> "") by discriminate.
  split.
  - split; [reflexivity |].
    exact (proj1 (proj1 (quoted_price_is_booked 100 Sample.store Sample.sid
                           Sample.sid_request Sample.sid_profile
                           "Grade 11-12 (College)" eq_refl eq_refl eq_refl eq_refl H1))
             eq_refl).
  - eexists. split; [reflexivity |]. split; [reflexivity |].
    exact (proj2 (quoted_price_is_booked 100 Sample.store Sample.sam
                    Sample.sam_request Sample.sam_profile "Grade 6-8 (Middle)"
                    eq_refl eq_refl eq_refl eq_refl H2)
             (18 # 1) _ eq_refl eq_refl).
Defined.

End Details.

Module Authentication.
Import Middleware.

(** X18.  [requireOwnerOrAdmin] compares with [!==].  An administrator
    always passes.  For anybody else a non-empty route parameter, which is a
    string, never equals the numeric [req.user.id], so the request is
    refused even when the parameter spells the caller's own id; without the
    parameter, [req.body.userId] passes only when it is the number
    [req.user.id]. *)
Theorem owner_check_is_strict (paramName : string) (params : list (string * string))
    (body_userId : js_value) (caller : user) (next : M Response) :
  let guard := requireOwnerOrAdmin paramName params body_userId caller next in
  let refuse : M Response := ret (failure 403 "Access denied. Not authorized.") in
  (u_role caller = "admin" -> guard = next) /\
  (u_role caller <> "admin" ->
   (forall v, param params paramName = js_string v -> v <> "" -> guard = refuse) /\
   (param params paramName = js_undefined ->
    (body_userId = js_number (u_id caller) -> guard = next) /\
    (body_userId <> js_number (u_id caller) -> guard = refuse))).
Proof.
  cbv zeta. unfold requireOwnerOrAdmin. split.
  - intros ->. reflexivity.
  - intros Hr. apply String.eqb_neq in Hr. rewrite Hr. simpl. split.
    + intros v -> Hv. apply String.eqb_neq in Hv. simpl. rewrite Hv. reflexivity.
    + intros ->. simpl. split.
      * intros ->. simpl. rewrite Z.eqb_refl. reflexivity.
      * intros Hb. destruct body_userId as [| n | s]; simpl; try reflexivity.
        destruct (u_id caller =? n) eqn:E; [| reflexivity].
        apply Z.eqb_eq in E. subst. contradiction.
Qed.

Lemma owner_check_is_strict_witness :
  requireOwnerOrAdmin "userId" [("userId", "3")] js_undefined Sample.sam
    (ret (mkResponse 200 true None NoData))
  = ret (failure 403 "Access denied. Not authorized.").
Proof.
  assert (H1 : u_role Sample.sam <> "admin") by discriminate.
  assert (H2 : "3" <> "") by discriminate.
  exact (proj1 (proj2 (owner_check_is_strict "userId" [("userId", "3")] js_undefined
                         Sample.sam (ret (mkResponse 200 true None NoData))) H1)
           "3" eq_refl H2).
Defined.

(** [split] cuts at the first separator. *)
Lemma split_on_first (sep : Ascii.ascii) (w rest : string) :
  (forall i, String.get i w <> Some sep) ->
  exists more, split_on sep (w ++ String sep rest) = w :: more /\
               more = split_on sep rest.
Proof.
  induction w as [| ch w IH]; simpl; intros H.
  - rewrite Ascii.eqb_refl. eauto.
  - destruct (Ascii.eqb ch sep) eqn:E.
    + apply Ascii.eqb_eq in E. subst. exfalso. apply (H 0%nat). reflexivity.
    + destruct IH as [more [E1 E2]].
      { intros i. exact (H (S i)). }
      rewrite E1. eauto.
Qed.

Lemma split_on_no_sep (sep : Ascii.ascii) (w : string) :
  (forall i, String.get i w <> Some sep) -> split_on sep w = [w].
Proof.
  induction w as [| ch w IH]; simpl; intros H; [reflexivity |].
  destruct (Ascii.eqb ch sep) eqn:E.
  - apply Ascii.eqb_eq in E. subst. exfalso. apply (H 0%nat). reflexivity.
  - rewrite IH by (intros i; exact (H (S i))). reflexivity.
Qed.

(** X19.  The token [authenticate] hands to [jwt.verify].  For a token
    without a space, the header ['Bearer ' + token] passes the
    [startsWith] test and [split(' ')[1]] is the token; anything after a
    further space is ignored. *)
Theorem bearer_token (tok : string) :
  (forall i, String.get i tok <> Some space) ->
  String.prefix "Bearer " ("Bearer " ++ tok) = true /\
  nth 1 (split_on space ("Bearer " ++ tok)) "" = tok /\
  forall rest, nth 1 (split_on space ("Bearer " ++ tok ++ String space rest)) "" = tok.
Proof.
  intros H.
  assert (B : forall i, String.get i "Bearer" <> Some space).
  { intros i. do 7 (destruct i as [| i]; [discriminate |]). discriminate. }
  split; [| split].
  - apply String.prefix_correct. destruct tok; reflexivity.
  - destruct (split_on_first space "Bearer" tok B) as [more [E1 E2]].
    change ("Bearer " ++ tok) with ("Bearer" ++ String space tok).
    rewrite E1, E2, split_on_no_sep by exact H. reflexivity.
  - intros rest.
    destruct (split_on_first space "Bearer" (tok ++ String space rest) B) as [more [E1 E2]].
    change ("Bearer " ++ tok ++ String space rest)
      with ("Bearer" ++ String space (tok ++ String space rest)).
    rewrite E1, E2.
    destruct (split_on_first space tok rest H) as [more' [E3 _]].
    rewrite E3. reflexivity.
Qed.

Lemma bearer_token_witness :
  nth 1 (split_on space "Bearer abc.def") "" = "abc.def".
Proof.
  assert (H : forall i, String.get i "abc.def" <> Some space).
  { intros i. do 8 (destruct i as [| i]; [discriminate |]). discriminate. }
  exact (proj1 (proj2 (bearer_token "abc.def" H))).
Defined.

Ltac refused :=
  right; eexists; eexists;
  split; [reflexivity | split; [simpl; auto | split; reflexivity]].

Lemma authenticate_cases (jwt_verify : string -> Verified)
    (authorization : option string) (next : user -> M Response) (env : Env) (c : Conn) :
  let out := authenticate jwt_verify authorization next env c in
  (exists u, stored_user jwt_verify authorization (tables c) u /\
             out = next u env (mkConn (tables c) (seqs c) (S (issued c)))) \/
  (exists r c', out = (Ok r, c') /\ (statusCode r = 401 \/ statusCode r = 500) /\
                tables c' = tables c /\ seqs c' = seqs c).
Proof.
  cbv zeta. unfold authenticate.
  destruct authorization as [h |]; [| refused].
  destruct (h =? "")%string; simpl; [refused |].
  destruct (String.prefix "Bearer " h) eqn:P; simpl;
    [| refused].
  fold (token_of h).
  destruct (jwt_verify (token_of h)) as [userId | | |] eqn:V;
    try (refused).
  unfold bind, try_catch, query, user_by_id, select, ret.
  destruct (fails env (issued c)); simpl; [refused |].
  destruct userId as [uid |]; [| refused].
  destruct (matching u_id uid (users (tables c))) as [| u us] eqn:E; simpl;
    [refused |].
  left. exists u. split; [| reflexivity].
  exists h, uid. rewrite E. auto.
Qed.

(** X20.  [authenticate] either calls [next] with a user, and then the
    header starts with ['Bearer '], its token was decoded to an id and the
    user is the stored row with that id, read in one round trip; or it
    answers 401 or 500 itself.  It never throws and changes neither tables
    nor sequences. *)
Theorem authenticate_sound (jwt_verify : string -> Verified)
    (authorization : option string) (next : user -> M Response) (env : Env) (c : Conn) :
  let out := authenticate jwt_verify authorization next env c in
  (exists u, stored_user jwt_verify authorization (tables c) u /\
             out = next u env (mkConn (tables c) (seqs c) (S (issued c)))) \/
  (exists r c', out = (Ok r, c') /\ (statusCode r = 401 \/ statusCode r = 500) /\
                tables c' = tables c /\ seqs c' = seqs c).
Proof.
  exact (authenticate_cases jwt_verify authorization next env c).
Qed.

Lemma wrong_role_changes_nothing (u : user) (env : Env) (c : Conn) :
  (forall id body, u_role u <> "admin" ->
     tables (snd (Payments.put_verify u id body env c)) = tables c) /\
  (forall body, u_role u <> "student" ->
     tables (snd (Payments.post_payments u body env c)) = tables c) /\
  (forall body, u_role u <> "student" ->
     tables (snd (Bookings.post_bookings u body env c)) = tables c).
Proof.
  split; [| split]; intros; match goal with H : _ <> _ |- _ => apply String.eqb_neq in H end;
    [unfold Payments.put_verify, requireAdmin
    | unfold Payments.post_payments, requireStudent
    | unfold Bookings.post_bookings, requireStudent];
    rewrite H; reflexivity.
Qed.

(** X21.  The writing routes with their middleware chain
    ([authenticate], then the role guard, then the handler).  If a request
    changes any table, its header carried a token decoded to the id of a
    stored user, and that user is an administrator for
    [PUT /api/payments/:id/verify] and a student for [POST /api/payments]
    and [POST /api/bookings]; [PUT /api/bookings/:id/status] asks for a
    stored user only. *)
Theorem writes_need_a_stored_user (jwt_verify : string -> Verified)
    (authorization : option string) (env : Env) (c : Conn) :
  let stored role :=
    exists u, stored_user jwt_verify authorization (tables c) u /\ role u in
  (forall id body,
     tables (snd (route_put_verify jwt_verify authorization id body env c)) <> tables c ->
     stored (fun u => u_role u = "admin")) /\
  (forall body,
     tables (snd (route_post_payments jwt_verify authorization body env c)) <> tables c ->
     stored (fun u => u_role u = "student")) /\
  (forall body,
     tables (snd (route_post_bookings jwt_verify authorization body env c)) <> tables c ->
     stored (fun u => u_role u = "student")) /\
  (forall id status,
     tables (snd (route_put_booking_status jwt_verify authorization id status env c))
     <> tables c ->
     stored (fun _ => True)).
Proof.
  cbv zeta.
  assert (D : forall s1 s2 : string, s1 = s2 \/ s1 <> s2).
  { intros s1 s2. destruct (String.eqb_spec s1 s2); auto. }
  split; [| split; [| split]]; intros;
    match goal with
    | H : tables (snd (?route _ _)) <> _ |- _ =>
        unfold route_put_verify, route_post_payments, route_post_bookings,
          route_put_booking_status in H;
        match type of H with
        | tables (snd (authenticate _ _ ?next _ _)) <> _ =>
            destruct (authenticate_cases jwt_verify authorization next env c)
              as [[u [St E]] | [r [c' [E [_ [T _]]]]]];
            cbv zeta in E; rewrite E in H;
            [exists u; split; [exact St |] | simpl in H; contradiction]
        end
    end.
  - destruct (D (u_role u) "admin") as [R | R]; [exact R | exfalso; apply H].
    rewrite (proj1 (wrong_role_changes_nothing u env _) id body R). reflexivity.
  - destruct (D (u_role u) "student") as [R | R]; [exact R | exfalso; apply H].
    rewrite (proj1 (proj2 (wrong_role_changes_nothing u env _)) body R). reflexivity.
  - destruct (D (u_role u) "student") as [R | R]; [exact R | exfalso; apply H].
    rewrite (proj2 (proj2 (wrong_role_changes_nothing u env _)) body R). reflexivity.
  - exact I.
Qed.

Lemma writes_need_a_stored_user_witness :
  exists u,
    stored_user sample_jwt (Some "Bearer admin-token") (tables Sample.store) u /\
    u_role u = "admin".
Proof.
  refine (proj1 (writes_need_a_stored_user sample_jwt (Some "Bearer admin-token")
                   (reliable 100) Sample.store) 500 (Payments.mkVerifyBody "approved" "") _).
  intros E. vm_compute in E. discriminate E.
Defined.

End Authentication.

Module Amounts.
Import Bookings.

(** *** Binary64 rounding, as [SpecFloat] defines it *)

Lemma digits_size (p : positive) : digits2_pos p = Pos.size p.
Proof. induction p; simpl; congruence. Qed.

Lemma digits_log2 (p : positive) : Zpos (digits2_pos p) = Z.log2 (Zpos p) + 1.
Proof.
  destruct p; simpl; rewrite ?digits_size, ?Pos2Z.inj_succ; lia.
Qed.

Lemma digits_bounds (p : positive) (d : Z) :
  2 ^ (d - 1) <= Zpos p < 2 ^ d -> Zpos (digits2_pos p) = d.
Proof.
  intros H. rewrite digits_log2.
  assert (0 <= d - 1).
  { destruct (Z.le_gt_cases 0 (d - 1)) as [L | G]; [exact L |].
    exfalso. assert (d <= 0) by lia.
    assert (2 ^ d <= 1).
    { destruct (Z.eq_dec d 0) as [-> | N]; [simpl; lia |].
      rewrite Z.pow_neg_r by lia. lia. }
    lia. }
  rewrite (Z.log2_unique (Zpos p) (d - 1)); [lia | assumption |].
  replace (Z.succ (d - 1)) with d by lia. exact H.
Qed.

Lemma bounds_digits (p : positive) :
  2 ^ (Zpos (digits2_pos p) - 1) <= Zpos p < 2 ^ Zpos (digits2_pos p).
Proof.
  rewrite digits_log2. replace (Z.log2 (Zpos p) + 1 - 1) with (Z.log2 (Zpos p)) by lia.
  pose proof (Z.log2_spec (Zpos p) eq_refl) as S. 
  replace (Z.log2 (Zpos p) + 1) with (Z.succ (Z.log2 (Zpos p))) by lia. exact S.
Qed.

Lemma iter_xO_pow (m k : positive) : Zpos (Pos.iter xO m k) = Zpos m * 2 ^ Zpos k.
Proof.
  induction k as [| k IH] using Pos.peano_ind.
  - simpl. lia.
  - rewrite Pos.iter_succ, Pos2Z.inj_xO, IH, Pos2Z.inj_succ, Z.pow_succ_r by lia. ring.
Qed.

Lemma shr_exact (k m : positive) :
  iter_pos shr_1 k {| shr_m := Zpos (Pos.iter xO m k); shr_r := false; shr_s := false |}
  = {| shr_m := Zpos m; shr_r := false; shr_s := false |}.
Proof.
  revert m. induction k as [k IH | k IH |]; intros m; simpl.
  - rewrite IH, IH. reflexivity.
  - rewrite IH, IH. reflexivity.
  - reflexivity.
Qed.

Lemma fexp_normal (e : Z) : -1021 <= e -> fexp 53 1024 e = e - 53.
Proof. intros H. unfold fexp, emin. lia. Qed.

(** The second normalisation leaves a mantissa of 53 bits as it is. *)
Lemma second_stage (m : positive) (e : Z) :
  Zpos (digits2_pos m) = 53 -> -1074 <= e <= 971 ->
  (let '(mrs, e') := shr_fexp 53 1024 (Zpos m) e loc_Exact in
   match shr_m mrs with
   | 0 => S754_zero false
   | Zpos m' => if e' <=? 1024 - 53 then S754_finite false m' e' else S754_infinity false
   | Zneg _ => S754_nan
   end) = S754_finite false m e.
Proof.
  intros D He. unfold shr_fexp. cbn [Zdigits2]. rewrite D.
  rewrite fexp_normal by lia.
  replace (53 + e - 53 - e) with 0 by lia. cbn.
  destruct (e <=? 971) eqn:L; [reflexivity | apply Z.leb_gt in L; lia].
Qed.

(** Rounding a mantissa whose low bits are zero is exact. *)
Lemma round_exact (m0 M : positive) (k e : Z) :
  Zpos (digits2_pos m0) = 53 -> 0 <= k -> Zpos M = Zpos m0 * 2 ^ k ->
  -1074 <= e + k <= 971 ->
  binary_round_aux 53 1024 false (Zpos M) e loc_Exact = S754_finite false m0 (e + k).
Proof.
  intros D Hk HM He.
  assert (DM : Zpos (digits2_pos M) = 53 + k).
  { apply digits_bounds. rewrite HM. pose proof (bounds_digits m0) as B. rewrite D in B.
    replace (53 + k - 1) with (52 + k) by lia.
    rewrite !Z.pow_add_r by lia. simpl (53 - 1) in B. nia. }
  unfold binary_round_aux. unfold shr_fexp at 1. cbn [Zdigits2]. rewrite DM.
  rewrite fexp_normal by lia.
  replace (53 + k + e - 53 - e) with k by lia.
  destruct k as [| kp | kp]; [| | lia].
  - assert (M = m0) by (rewrite Z.mul_1_r in HM; now injection HM). subst M.
    cbn [shr shr_record_of_loc shr_m loc_of_shr_record round_nearest_even].
    replace (e + 0) with e in * by lia. apply second_stage; assumption.
  - assert (M = Pos.iter xO m0 kp).
    { apply Pos2Z.inj. rewrite iter_xO_pow. exact HM. }
    subst M. unfold shr, shr_record_of_loc. rewrite shr_exact.
    cbn [shr_m loc_of_shr_record round_nearest_even].
    apply second_stage; assumption.
Qed.

(** The mantissa and exponent of a positive integer below 2^53 as a number. *)
Lemma canonical (n : positive) :
  Zpos n < 2 ^ 53 ->
  exists m e, Zpos (digits2_pos m) = 53 /\ Zpos m = Zpos n * 2 ^ (- e) /\
              e = Zpos (digits2_pos n) - 53 /\ -52 <= e <= 0.
Proof.
  intros H. pose proof (bounds_digits n) as B.
  set (d := Zpos (digits2_pos n)) in *.
  assert (1 <= d) by (subst d; lia).
  assert (d <= 53).
  { destruct (Z.le_gt_cases d 53) as [L | G]; [exact L |]. exfalso.
    assert (2 ^ 53 <= 2 ^ (d - 1)) by (apply Z.pow_le_mono_r; lia). lia. }
  assert (P : 0 < Zpos n * 2 ^ (53 - d)) by (apply Z.mul_pos_pos; [lia | apply Z.pow_pos_nonneg; lia]).
  destruct (Zpos n * 2 ^ (53 - d)) as [| m |] eqn:E; [lia | | lia].
  exists m, (d - 53). split; [| split; [| split; [reflexivity | lia]]].
  - apply digits_bounds. rewrite <- E.
    assert (E1 : 2 ^ (53 - 1) = 2 ^ (d - 1) * 2 ^ (53 - d)).
    { rewrite <- Z.pow_add_r by lia. f_equal. lia. }
    assert (E2 : 2 ^ 53 = 2 ^ d * 2 ^ (53 - d)).
    { rewrite <- Z.pow_add_r by lia. f_equal. lia. }
    rewrite E1, E2.
    assert (0 < 2 ^ (53 - d)) by (apply Z.pow_pos_nonneg; lia).
    split; [apply Z.mul_le_mono_nonneg_r; lia | apply Z.mul_lt_mono_pos_r; lia].
  - replace (- (d - 53)) with (53 - d) by lia. symmetry. exact E.
Qed.

Lemma of_int_canonical (n : positive) :
  Zpos n < 2 ^ 53 ->
  exists m e, binary_normalize 53 1024 (Zpos n) 0 false = S754_finite false m e /\
              Zpos (digits2_pos m) = 53 /\ Zpos m = Zpos n * 2 ^ (- e) /\
              e = Zpos (digits2_pos n) - 53 /\ -52 <= e <= 0.
Proof.
  intros H. destruct (canonical n H) as (m & e & D & V & E & R).
  exists m, e. split; [| tauto].
  unfold binary_normalize, binary_round.
  replace (Zpos (digits2_pos n) + 0) with (Zpos (digits2_pos n)) by lia.
  rewrite fexp_normal by lia. rewrite <- E.
  unfold shl_align. replace (e - 0) with e by lia.
  destruct e as [| ep | ep]; [| lia |].
  - assert (m = n).
    { change (2 ^ (- 0)) with 1 in V. rewrite Z.mul_1_r in V. now injection V. }
    subst m.
    rewrite (round_exact n n 0 0); [reflexivity | exact D | lia | simpl; lia | lia].
  - assert (m = Pos.iter xO n ep).
    { apply Pos2Z.inj. rewrite iter_xO_pow. exact V. }
    subst m.
    rewrite (round_exact (Pos.iter xO n ep) (Pos.iter xO n ep) 0 (Zneg ep));
      [f_equal; lia | exact D | lia | simpl; lia | lia].
Qed.

(** The product of two integers whose product is below 2^53 is exact. *)
Lemma mul_canonical (a b ma mb : positive) (ea eb : Z) :
  Zpos (digits2_pos ma) = 53 -> Zpos ma = Zpos a * 2 ^ (- ea) -> -52 <= ea <= 0 ->
  Zpos (digits2_pos mb) = 53 -> Zpos mb = Zpos b * 2 ^ (- eb) -> -52 <= eb <= 0 ->
  Zpos (a * b) < 2 ^ 53 ->
  exists m e, SFmul 53 1024 (S754_finite false ma ea) (S754_finite false mb eb)
              = S754_finite false m e /\
              Zpos (digits2_pos m) = 53 /\ Zpos m = Zpos (a * b) * 2 ^ (- e) /\
              e = Zpos (digits2_pos (a * b)) - 53 /\ -52 <= e <= 0.
Proof.
  intros Da Va Ra Db Vb Rb H.
  destruct (canonical (a * b) H) as (m & e & D & V & E & R).
  exists m, e. split; [| tauto].
  unfold SFmul. cbn [xorb].
  pose proof (bounds_digits ma) as Ba. rewrite Da in Ba. simpl (53 - 1) in Ba.
  pose proof (bounds_digits mb) as Bb. rewrite Db in Bb. simpl (53 - 1) in Bb.
  pose proof (bounds_digits m) as Bm. rewrite D in Bm. simpl (53 - 1) in Bm.
  assert (Prod : Zpos (ma * mb) = Zpos (a * b) * 2 ^ (- ea - eb)).
  { rewrite !Pos2Z.inj_mul, Va, Vb.
    replace (- ea - eb) with (- ea + - eb) by lia.
    rewrite Z.pow_add_r by lia. ring. }
  assert (K : 0 <= e - (ea + eb)).
  { destruct (Z.le_gt_cases 0 (e - (ea + eb))) as [L | G]; [exact L | exfalso].
    (* the product has at least 105 bits, the rounded mantissa 53 *)
    assert (Zpos (ma * mb) * 2 ^ (ea + eb - e) = Zpos m).
    { rewrite Prod, V, <- Z.mul_assoc, <- Z.pow_add_r by lia. f_equal. f_equal. lia. }
    assert (2 ^ 104 <= Zpos (ma * mb)) by (rewrite Pos2Z.inj_mul; nia).
    assert (0 < 2 ^ (ea + eb - e)) by (apply Z.pow_pos_nonneg; lia).
    assert (Zpos (ma * mb) <= Zpos m) by nia.
    assert (2 ^ 53 < 2 ^ 104) by reflexivity. lia. }
  rewrite (round_exact m (ma * mb) (e - (ea + eb)) (ea + eb));
    [f_equal; lia | exact D | exact K | | lia].
  rewrite Prod, V, <- Z.mul_assoc, <- Z.pow_add_r by lia. f_equal. f_equal. lia.
Qed.

(** The quotient and remainder [SFdiv] works with, for two mantissas of 53
    bits. *)
Lemma div_core (m1 m2 : positive) (e1 e2 : Z) :
  Zpos (digits2_pos m1) = 53 -> Zpos (digits2_pos m2) = 53 ->
  -1021 <= e1 - e2 ->
  exists q r,
    SFdiv_core_binary 53 1024 (Zpos m1) e1 (Zpos m2) e2
    = (q, e1 - e2 - 53, new_location (Zpos m2) r) /\
    Zpos m1 * 2 ^ 53 = Zpos m2 * q + r /\ 0 <= r < Zpos m2.
Proof.
  intros D1 D2 He. unfold SFdiv_core_binary. cbv zeta. cbn [Zdigits2].
  rewrite D1, D2.
  replace (Z.min (fexp 53 1024 (53 + e1 - (53 + e2))) (e1 - e2)) with (e1 - e2 - 53)
    by (rewrite fexp_normal by lia; lia).
  replace (e1 - e2 - (e1 - e2 - 53)) with 53 by lia.
  cbv beta iota. rewrite Z.shiftl_mul_pow2 by lia.
  pose proof (Z_div_mod (Zpos m1 * 2 ^ 53) (Zpos m2) eq_refl) as DM.
  destruct (Z.div_eucl (Zpos m1 * 2 ^ 53) (Zpos m2)) as [q r].
  exists q, r. split; [reflexivity | exact DM].
Qed.

(** Dividing an integer by one. *)
Lemma div_by_one (m1 : positive) (e1 : Z) :
  Zpos (digits2_pos m1) = 53 -> -52 <= e1 <= 0 ->
  SFdiv 53 1024 (S754_finite false m1 e1) (S754_finite false 4503599627370496 (-52))
  = S754_finite false m1 e1.
Proof.
  intros D R. unfold SFdiv. cbn [xorb].
  destruct (div_core m1 4503599627370496 e1 (-52) D eq_refl ltac:(lia))
    as (q & r & E & V & B).
  rewrite E.
  change (2 ^ 53) with 9007199254740992 in V.
  assert (q = Zpos (m1~0)) by lia. assert (r = 0) by lia. subst q r.
  change (new_location (Zpos 4503599627370496) 0) with loc_Exact.
  rewrite (round_exact m1 (m1~0) 1 (e1 - -52 - 53)); [f_equal; lia | exact D | lia | lia | lia].
Qed.

(** The second normalisation of a mantissa of 53 bits, or of [2^53]. *)
Lemma second_stage_up (mr : Z) (E : Z) :
  2 ^ 52 <= mr <= 2 ^ 53 -> -1074 <= E <= 970 ->
  exists m' e',
    (let '(mrs, e'') := shr_fexp 53 1024 mr E loc_Exact in
     match shr_m mrs with
     | 0 => S754_zero false
     | Zpos m => if e'' <=? 1024 - 53 then S754_finite false m e'' else S754_infinity false
     | Zneg _ => S754_nan
     end) = S754_finite false m' e' /\
    ((e' = E /\ Zpos m' = mr) \/ (e' = E + 1 /\ 2 * Zpos m' = mr)).
Proof.
  intros B He. destruct (Z.eq_dec mr (2 ^ 53)) as [-> | N].
  - exists 4503599627370496%positive, (E + 1). split; [| right; split; reflexivity].
    unfold shr_fexp. change (Zdigits2 (2 ^ 53)) with 54.
    rewrite fexp_normal by lia. replace (54 + E - 53 - E) with 1 by lia.
    cbn. destruct (E + 1 <=? 971) eqn:L; [reflexivity | apply Z.leb_gt in L; lia].
  - destruct mr as [| pm |]; [simpl in B; lia | | lia].
    exists pm, E. split; [| left; split; reflexivity].
    apply second_stage; [| lia]. apply digits_bounds. simpl (53 - 1). lia.
Qed.

Lemma shr_1_half (q : positive) (l : location) :
  shr_m (shr_1 (shr_record_of_loc (Zpos q) l)) = Z.div2 (Zpos q).
Proof. destruct q; destruct l as [| []]; reflexivity. Qed.

Lemma round_nearest_even_cases (m : Z) (l : location) :
  round_nearest_even m l = m \/ round_nearest_even m l = m + 1.
Proof.
  unfold round_nearest_even. destruct l as [| []]; try destruct (Z.even m); auto.
Qed.

(** What rounding does to a quotient of 53 or 54 bits: it keeps the 53
    leading bits, or adds one to them. *)
Lemma round_cases (q : positive) (e : Z) (l : location) :
  2 ^ 52 <= Zpos q < 2 ^ 54 -> -1074 <= e <= 969 ->
  exists m' e' mr E,
    binary_round_aux 53 1024 false (Zpos q) e l = S754_finite false m' e' /\
    ((e' = E /\ Zpos m' = mr) \/ (e' = E + 1 /\ 2 * Zpos m' = mr)) /\
    ((E = e /\ (mr = Zpos q \/ mr = Zpos q + 1)) \/
     (E = e + 1 /\ (mr = Zpos q / 2 \/ mr = Zpos q / 2 + 1))).
Proof.
  intros B He. unfold binary_round_aux. unfold shr_fexp at 1. cbn [Zdigits2].
  destruct (Z.lt_ge_cases (Zpos q) (2 ^ 53)) as [L | G].
  - (* 53 bits: nothing is shifted out *)
    rewrite (digits_bounds q 53) by (simpl (53 - 1); lia).
    rewrite fexp_normal by lia. replace (53 + e - 53 - e) with 0 by lia.
    cbn [shr].
    assert (S : shr_m (shr_record_of_loc (Zpos q) l) = Zpos q)
      by (destruct l as [| []]; reflexivity).
    rewrite S.
    set (mr := round_nearest_even (Zpos q) (loc_of_shr_record (shr_record_of_loc (Zpos q) l))).
    assert (C : mr = Zpos q \/ mr = Zpos q + 1) by apply round_nearest_even_cases.
    clearbody mr.
    destruct (second_stage_up mr e) as (m' & e' & E1 & E2); [lia | lia |].
    exists m', e', mr, e. split; [exact E1 |]. split; [exact E2 | left; split; [reflexivity | exact C]].
  - (* 54 bits: the last one is shifted out *)
    rewrite (digits_bounds q 54) by (simpl (54 - 1); lia).
    rewrite fexp_normal by lia. replace (54 + e - 53 - e) with 1 by lia.
    cbn [shr iter_pos].
    assert (S : shr_m (shr_1 (shr_record_of_loc (Zpos q) l)) = Zpos q / 2)
      by (rewrite <- Z.div2_div; apply shr_1_half).
    rewrite S.
    set (mr := round_nearest_even (Zpos q / 2)
                 (loc_of_shr_record (shr_1 (shr_record_of_loc (Zpos q) l)))).
    assert (C : mr = Zpos q / 2 \/ mr = Zpos q / 2 + 1) by apply round_nearest_even_cases.
    clearbody mr.
    assert (H2 : 2 ^ 52 <= Zpos q / 2 < 2 ^ 53).
    { change (2 ^ 52) with 4503599627370496. change (2 ^ 53) with 9007199254740992 in *.
      change (2 ^ 54) with 18014398509481984 in *.
      pose proof (Z.div_mod (Zpos q) 2 ltac:(lia)).
      pose proof (Z.mod_pos_bound (Zpos q) 2 ltac:(lia)). lia. }
    destruct (second_stage_up mr (e + 1)) as (m' & e' & E1 & E2); [lia | lia |].
    exists m', e', mr, (e + 1). split; [exact E1 |].
    split; [exact E2 | right; split; [reflexivity | exact C]].
Qed.

(** *** The total of a booking *)

(** [Math.round] of a number with a negative exponent, in integers. *)
Lemma Math_round_number (m' : positive) (e' E mr : Z) :
  (e' = E /\ Zpos m' = mr) \/ (e' = E + 1 /\ 2 * Zpos m' = mr) ->
  E <= -2 ->
  Math_round (number_value (S754_finite false m' e'))
  = (2 * mr + 2 ^ (- E)) / (2 * 2 ^ (- E)).
Proof.
  intros C HE.
  assert (He' : e' <= -1) by lia.
  assert (P : 0 < 2 ^ (- e')) by (apply Z.pow_pos_nonneg; lia).
  destruct (2 ^ (- e')) as [| pe |] eqn:Epe; [lia | | lia].
  assert (V : (number_value (S754_finite false m' e') == Zpos m' # pe)%Q).
  { unfold number_value.
    replace e' with (- (- e')) at 1 by lia.
    rewrite Qpower_opp.
    change 2%Q with (inject_Z 2). rewrite <- Zpower_Qpower by lia. rewrite Epe.
    unfold Qeq. simpl. lia. }
  unfold Math_round. rewrite V.
  unfold Qplus, Qfloor. cbn [Qnum Qden].
  rewrite Pos2Z.inj_mul, <- Epe.
  destruct C as [[-> <-] | [-> <-]].
  - f_equal; lia.
  - replace (- E) with (- (E + 1) + 1) by lia.
    rewrite Z.pow_add_r by lia. change (2 ^ 1) with 2.
    set (H := 2 ^ (- (E + 1))) in *.
    replace (2 * (2 * Zpos m') + H * 2) with ((Zpos m' * 2 + 1 * H) * 2) by lia.
    replace (2 * (H * 2)) with (H * 2 * 2) by lia.
    rewrite Z.div_mul_cancel_r by lia. reflexivity.
Qed.

(** The total the specification writes, in integers. *)
Lemma exact_amount_whole (price duration : Z) :
  exact_amount (inject_Z price) duration = (2 * (price * duration) + 60) / 120.
Proof.
  unfold exact_amount, Math_round, Qdiv, Qinv, Qmult, Qplus, Qfloor, inject_Z.
  cbn [Qnum Qden]. f_equal. lia.
Qed.

(** The rounding of the quotient and [Math.round] together give the
    rounding of [n / 60]: the quotient keeps at least 24 bits after the
    binary point, and [n / 60] is a half or is at least 1/60 away from one. *)
Lemma rounded_quotient (n q r' mr j E : Z) :
  0 < n -> 7 <= j ->
  n * 2 ^ j = 60 * q + r' -> 0 <= r' < 60 ->
  (E = - j /\ (mr = q \/ mr = q + 1)) \/
  (E = - j + 1 /\ (mr = q / 2 \/ mr = q / 2 + 1)) ->
  (2 * mr + 2 ^ (- E)) / (2 * 2 ^ (- E)) = (2 * n + 60) / 120.
Proof.
  intros Hn Hj HN Hr C.
  set (K := (2 * n + 60) / 120).
  pose proof (Z.div_mod (2 * n + 60) 120 ltac:(lia)) as DM.
  pose proof (Z.mod_pos_bound (2 * n + 60) 120 ltac:(lia)) as MB.
  fold K in DM.
  assert (P4 : 2 ^ j = 4 * 2 ^ (j - 2)).
  { replace j with (2 + (j - 2)) at 1 by lia. rewrite Z.pow_add_r by lia. reflexivity. }
  assert (Big : 32 <= 2 ^ (j - 2)).
  { change 32 with (2 ^ 5). apply Z.pow_le_mono_r; lia. }
  set (Q := 2 ^ (j - 2)) in *.
  assert (X : 60 * K * (4 * Q) - 30 * (4 * Q) <= n * (4 * Q) <= 60 * K * (4 * Q) + 29 * (4 * Q))
    by nia.
  rewrite P4 in HN.
  set (N := n * (4 * Q)) in *. set (KQ := K * Q) in *.
  assert (X' : 240 * KQ - 120 * Q <= N <= 240 * KQ + 116 * Q) by (subst KQ; lia).
  destruct C as [[-> C] | [-> C]].
  - replace (- - j) with j by lia. rewrite P4. fold Q.
    symmetry. apply (Z.div_unique _ _ _ (2 * mr + 4 * Q - 8 * KQ)).
    + left. destruct C as [-> | ->]; lia.
    + subst KQ. lia.
  - replace (- (- j + 1)) with (1 + (j - 2)) by lia.
    rewrite Z.pow_add_r by lia. change (2 ^ 1) with 2. fold Q.
    pose proof (Z.div_mod q 2 ltac:(lia)) as DQ.
    pose proof (Z.mod_pos_bound q 2 ltac:(lia)) as QB.
    symmetry. apply (Z.div_unique _ _ _ (2 * mr + 2 * Q - 4 * KQ)).
    + left. destruct C as [-> | ->]; lia.
    + subst KQ. lia.
Qed.

(** X22.  At a whole price the binary64 computation of
    [Math.round((pricePerHour * duration) / 60)] loses nothing: for every
    price without cents that a [DECIMAL(10,2)] column holds (0 to 100000000)
    and every duration the validator admits (30 to 240 minutes), the total is
    [price * duration / 60] rounded to the nearest integer, halves up.  The
    seeded tiers are whole prices; 18 an hour for 90 minutes is 27. *)
Theorem whole_prices_round_exactly (price duration : Z) :
  0 <= price <= 100000000 -> 30 <= duration <= 240 ->
  totalAmount (inject_Z price) duration = exact_amount (inject_Z price) duration.
Proof.
  intros Hp Hd. rewrite exact_amount_whole.
  unfold totalAmount, Number, number_of_Z. cbn [Qnum Qden inject_Z].
  change (binary_normalize 53 1024 1 0 false)
    with (S754_finite false 4503599627370496 (-52)).
  change (binary_normalize 53 1024 60 0 false)
    with (S754_finite false 8444249301319680 (-47)).
  destruct duration as [| d |]; [lia | | lia].
  destruct (of_int_canonical d) as (md & ed & Ed & Dd & Vd & _ & Rd).
  { change (2 ^ 53) with 9007199254740992. lia. }
  rewrite Ed.
  destruct price as [| p |]; [| | lia].
  - reflexivity.
  - destruct (of_int_canonical p) as (mp & ep & Ep & Dp & Vp & _ & Rp).
    { change (2 ^ 53) with 9007199254740992. lia. }
    rewrite Ep, div_by_one by assumption.
    assert (Hn : Zpos (p * d) < 2 ^ 35).
    { rewrite Pos2Z.inj_mul. change (2 ^ 35) with 34359738368. nia. }
    destruct (mul_canonical p d mp md ep ed Dp Vp Rp Dd Vd Rd) as (m1 & e1 & E1 & D1 & V1 & X1 & R1).
    { change (2 ^ 53) with 9007199254740992. change (2 ^ 35) with 34359738368 in Hn. lia. }
    rewrite E1.
    assert (He1 : e1 <= -18).
    { pose proof (bounds_digits (p * d)) as B.
      assert (L : 2 ^ (Zpos (digits2_pos (p * d)) - 1) < 2 ^ 35) by lia.
      apply Z.pow_lt_mono_r_iff in L; lia. }
    unfold SFdiv. cbn [xorb].
    destruct (div_core m1 8444249301319680 e1 (-47) D1 eq_refl ltac:(lia))
      as (q & r & Ec & Vc & Bc).
    rewrite Ec.
    pose proof (bounds_digits m1) as B1. rewrite D1 in B1.
    change (2 ^ (53 - 1)) with 4503599627370496 in B1.
    change (2 ^ 53) with 9007199254740992 in B1, Vc.
    assert (Bq : 2 ^ 52 <= q < 2 ^ 54).
    { change (2 ^ 52) with 4503599627370496. change (2 ^ 54) with 18014398509481984. lia. }
    destruct q as [| pq |]; [simpl in Bq; lia | | lia].
    destruct (round_cases pq (e1 - -47 - 53) (new_location (Zpos 8444249301319680) r) Bq)
      as (m' & e' & mr & E & Er & Cv & Cm); [lia |].
    rewrite Er, (Math_round_number m' e' E mr Cv) by lia.
    rewrite <- Pos2Z.inj_mul.
    assert (W : 0 < 2 ^ (- e1)) by (apply Z.pow_pos_nonneg; lia).
    assert (J : 2 ^ (6 - e1) = 64 * 2 ^ (- e1)).
    { replace (6 - e1) with (6 + - e1) by lia. rewrite Z.pow_add_r by lia. reflexivity. }
    apply (rounded_quotient (Zpos (p * d)) (Zpos pq)
             (Zpos (p * d) * 2 ^ (6 - e1) - 60 * Zpos pq) mr (6 - e1) E);
      [lia | lia | lia | | ].
    + rewrite J. rewrite V1 in Vc.
      set (NW := Zpos (p * d) * 2 ^ (- e1)) in *. lia.
    + destruct Cm as [[-> C] | [-> C]]; [left | right]; (split; [lia | exact C]).
Qed.

Lemma whole_prices_round_exactly_witness :
  totalAmount (inject_Z 18) 90 = 27 /\ totalAmount (inject_Z 45) 50 = 38.
Proof.
  assert (P1 : 0 <= 18 <= 100000000) by lia.
  assert (D1 : 30 <= 90 <= 240) by lia.
  assert (P2 : 0 <= 45 <= 100000000) by lia.
  assert (D2 : 30 <= 50 <= 240) by lia.
  split.
  - exact (whole_prices_round_exactly 18 90 P1 D1).
  - exact (whole_prices_round_exactly 45 50 P2 D2).
Defined.

End Amounts.

Module AccountDeletion.
Import Accounts Middleware StoreInvariant.

Lemma delete_users_run env c caller id :
  u_role caller = "admin" ->
  answers env ->
  serve (delete_users caller id) env c
  = match matching u_id id (users (tables c)) with
    | [] => (failure 404 "User not found", mkConn (tables c) (seqs c) (S (issued c)))
    | _ :: _ =>
        match delete_user id (NOW env) (tables c) (seqs c) with
        | (Some (_, t'), s') =>
            (mkResponse 200 true (Some "User deleted successfully") NoData,
             mkConn t' s' (S (S (issued c))))
        | (None, s') =>
            (failure 500 "Failed to delete user",
             mkConn (tables c) s' (S (S (issued c))))
        end
    end.
Proof.
  intros Hr A.
  unfold serve, delete_users, requireAdmin, try_catch, bind, query, user_row, select, ret.
  rewrite Hr. simpl. rewrite A.
  destruct (matching u_id id (users (tables c))) as [| u us]; [reflexivity |].
  simpl. rewrite A.
  destruct (delete_user id (NOW env) (tables c) (seqs c)) as [[[[] t'] |] s']; reflexivity.
Qed.

(** X23.  [DELETE /api/admin/users/:id] by an administrator on a store
    that answers.  404 when no user has the id.  500 with nothing deleted
    when a booking refers to a student or teacher profile of the user (the
    cascade reaches the profile, and [bookings] holds it back).  Otherwise
    200, and exactly the user and their profiles are gone: every other user
    and profile, and all bookings, proofs, subjects and tiers remain. *)
Theorem delete_user_outcomes (env : Env) (c : Conn) (caller : user) (id : Z) :
  u_role caller = "admin" ->
  answers env ->
  let r := fst (serve (delete_users caller id) env c) in
  let t' := tables (snd (serve (delete_users caller id) env c)) in
  (matching u_id id (users (tables c)) = [] ->
   r = failure 404 "User not found" /\ t' = tables c) /\
  (forall u b, In u (users (tables c)) -> u_id u = id ->
     In b (bookings (tables c)) ->
     (exists st, In st (students (tables c)) /\ st_user_id st = id /\
                 b_student_id b = st_id st) \/
     (exists te, In te (teachers (tables c)) /\ t_user_id te = id /\
                 b_teacher_id b = t_id te) ->
     r = failure 500 "Failed to delete user" /\ t' = tables c) /\
  (forall u, In u (users (tables c)) -> u_id u = id ->
     (forall b st, In b (bookings (tables c)) -> In st (students (tables c)) ->
                   st_user_id st = id -> b_student_id b <> st_id st) ->
     (forall b te, In b (bookings (tables c)) -> In te (teachers (tables c)) ->
                   t_user_id te = id -> b_teacher_id b <> t_id te) ->
     statusCode r = 200 /\
     users t' = others u_id id (users (tables c)) /\
     students t' = others st_user_id id (students (tables c)) /\
     teachers t' = others t_user_id id (teachers (tables c)) /\
     bookings t' = bookings (tables c) /\
     payment_proofs t' = payment_proofs (tables c) /\
     subjects t' = subjects (tables c) /\
     pricing_tiers t' = pricing_tiers (tables c)).
Proof.
  intros Hr A. cbv zeta. rewrite (delete_users_run env c caller id Hr A).
  assert (Some_row : forall u, In u (users (tables c)) -> u_id u = id ->
            exists u0 us, matching u_id id (users (tables c)) = u0 :: us).
  { intros u Hu Hid.
    destruct (matching u_id id (users (tables c))) as [| u0 us] eqn:E; [| eauto].
    exfalso. assert (I : In u (matching u_id id (users (tables c)))).
    { apply filter_In. split; [exact Hu | now apply Z.eqb_eq]. }
    rewrite E in I. exact I. }
  split; [| split].
  - intros E. rewrite E. split; reflexivity.
  - intros u b Hu Hid Hb Href.
    destruct (Some_row u Hu Hid) as [u0 [us E]]. rewrite E.
    unfold delete_user.
    assert (B : existsb (fun b =>
                  references st_id (filter (fun st => st_user_id st =? id)
                                      (students (tables c))) (b_student_id b) ||
                  references t_id (filter (fun te => t_user_id te =? id)
                                     (teachers (tables c))) (b_teacher_id b))
                  (bookings (tables c)) = true).
    { apply existsb_exists. exists b. split; [exact Hb |].
      apply orb_true_iff.
      destruct Href as [[st [Hst [Hu' Hs]]] | [te [Hte [Hu' Ht]]]]; [left | right];
        unfold references; apply existsb_exists.
      - exists st. split; [apply filter_In; split; [exact Hst | now apply Z.eqb_eq] |].
        apply Z.eqb_eq. congruence.
      - exists te. split; [apply filter_In; split; [exact Hte | now apply Z.eqb_eq] |].
        apply Z.eqb_eq. congruence. }
    rewrite B. split; reflexivity.
  - intros u Hu Hid Hs Ht.
    destruct (Some_row u Hu Hid) as [u0 [us E]]. rewrite E.
    unfold delete_user.
    assert (B : existsb (fun b =>
                  references st_id (filter (fun st => st_user_id st =? id)
                                      (students (tables c))) (b_student_id b) ||
                  references t_id (filter (fun te => t_user_id te =? id)
                                     (teachers (tables c))) (b_teacher_id b))
                  (bookings (tables c)) = false).
    { destruct (existsb _ (bookings (tables c))) eqn:X; [| reflexivity].
      exfalso. apply existsb_exists in X. destruct X as [b [Hb X]].
      apply orb_true_iff in X. unfold references in X.
      destruct X as [X | X]; apply existsb_exists in X; destruct X as [x [Hx X]];
        apply filter_In in Hx; destruct Hx as [Hx Hx']; apply Z.eqb_eq in Hx', X.
      - exact (Hs b x Hb Hx Hx' (eq_sym X)).
      - exact (Ht b x Hb Hx Hx' (eq_sym X)). }
    rewrite B. simpl. repeat split.
Qed.

Lemma delete_user_outcomes_witness :
  fst (serve (delete_users Sample.admin 3) (reliable 100) Sample.store)
  = failure 500 "Failed to delete user" /\
  tables (snd (serve (delete_users Sample.admin 3) (reliable 100) Sample.store))
  = tables Sample.store.
Proof.
  assert (A : answers (reliable 100)) by (intros n; reflexivity).
  assert (U : In Sample.sam (users (tables Sample.store))) by (simpl; tauto).
  assert (B : In Sample.sam_booking (bookings (tables Sample.store))) by (simpl; tauto).
  assert (P : In Sample.sam_profile (students (tables Sample.store))) by (simpl; tauto).
  refine (proj1 (proj2 (delete_user_outcomes (reliable 100) Sample.store Sample.admin 3
                          eq_refl A))
            Sample.sam Sample.sam_booking U eq_refl B _).
  left. exists Sample.sam_profile. split; [exact P | split; reflexivity].
Defined.

Lemma distinct_filter_keeps {A} (id_of : A -> Z) (f : A -> bool) (l : list A) :
  distinct Z.eqb (map id_of l) = true -> distinct Z.eqb (map id_of (filter f l)) = true.
Proof.
  induction l as [| x l IH]; simpl; intros D; [reflexivity |].
  apply andb_prop in D. destruct D as [D1 D2]. specialize (IH D2).
  destruct (f x); simpl; [| exact IH]. rewrite IH, andb_true_r.
  apply negb_true_iff in D1. apply negb_true_iff.
  destruct (existsb _ (map id_of (filter f l))) eqn:E; [| reflexivity].
  apply existsb_exists in E. destruct E as [k [Hk E]].
  apply in_map_iff in Hk. destruct Hk as [y [Hy Hin]]. apply filter_In in Hin.
  assert (X : existsb (Z.eqb (id_of x)) (map id_of l) = true).
  { apply existsb_exists. exists k. split; [| exact E].
    apply in_map_iff. exists y. tauto. }
  congruence.
Qed.

Lemma references_filter_keeps {A} (id_of : A -> Z) (f : A -> bool) (l : list A) (k : Z) :
  references id_of l k = true ->
  (forall r, In r l -> id_of r = k -> f r = true) ->
  references id_of (filter f l) k = true.
Proof.
  unfold references. intros R H. apply existsb_exists in R. destruct R as [r [Hr E]].
  apply existsb_exists. exists r. split; [| exact E].
  apply filter_In. split; [exact Hr |]. apply H; [exact Hr | now apply Z.eqb_eq].
Qed.

Lemma references_filter_false {A} (id_of : A -> Z) (f : A -> bool) (l : list A) (k : Z) :
  references id_of (filter f l) k = false ->
  forall r, In r l -> id_of r = k -> f r = false.
Proof.
  unfold references. intros R r Hr E.
  destruct (f r) eqn:F; [| reflexivity].
  assert (X : existsb (fun r => id_of r =? k) (filter f l) = true).
  { apply existsb_exists. exists r. split; [| now apply Z.eqb_eq].
    apply filter_In. tauto. }
  congruence.
Qed.

Lemma stmt_keeps_delete_user id : stmt_keeps (delete_user id).
Proof.
  intros now t s I. unfold delete_user.
  destruct (existsb _ (bookings t)) eqn:B; [apply ahead_refl |].
  split; [| apply ahead_refl].
  assert (NB : forall b, In b (bookings t) ->
            references st_id (filter (fun st => st_user_id st =? id) (students t))
              (b_student_id b) = false /\
            references t_id (filter (fun te => t_user_id te =? id) (teachers t))
              (b_teacher_id b) = false).
  { intros b Hb. apply orb_false_elim.
    destruct (_ || _) eqn:X; [| reflexivity].
    assert (Y : existsb (fun b =>
                  references st_id (filter (fun st => st_user_id st =? id) (students t))
                    (b_student_id b) ||
                  references t_id (filter (fun te => t_user_id te =? id) (teachers t))
                    (b_teacher_id b)) (bookings t) = true)
      by (apply existsb_exists; exists b; split; assumption).
    congruence. }
  revert I. unfold integrity. simpl. rewrite !andb_true_iff, !forallb_forall.
  intros [[[[[[[[[[[[[U S] T] Sb] Bk] Pp] Ti] Fs] Ft] Fp] Fb] Fpp] Ab] Ap].
  repeat split; try assumption; try (apply distinct_filter_keeps; assumption).
  - intros st Hst. apply filter_In in Hst. destruct Hst as [Hst Hk].
    apply references_filter_keeps; [exact (Fs st Hst) |].
    intros x _ Hx. rewrite Hx. exact Hk.
  - intros te Hte. apply filter_In in Hte. destruct Hte as [Hte Hk].
    apply references_filter_keeps; [exact (Ft te Hte) |].
    intros x _ Hx. rewrite Hx. exact Hk.
  - intros b Hb. specialize (Fb b Hb). rewrite !andb_true_iff in Fb |- *.
    destruct Fb as [[F1 F2] F3]. destruct (NB b Hb) as [N1 N2].
    repeat split; try assumption.
    + apply references_filter_keeps; [exact F1 |].
      intros st Hst E. rewrite (references_filter_false _ _ _ _ N1 st Hst E). reflexivity.
    + apply references_filter_keeps; [exact F2 |].
      intros te Hte E. rewrite (references_filter_false _ _ _ _ N2 te Hte E). reflexivity.
Qed.

(** X24.  [DELETE /api/admin/users/:id] keeps the constraints of
    [schema.sql], for every caller, id and behaviour of the store: after a
    delete every remaining profile still has its user and every booking its
    student and teacher. *)
Theorem delete_keeps_integrity (caller : user) (id : Z) :
  keeps (delete_users caller id).
Proof.
  unfold delete_users, requireAdmin.
  destruct (negb _); [apply keeps_ret |].
  apply keeps_try_catch; [| intros e; apply keeps_ret].
  apply keeps_bind; [apply keeps_query, stmt_keeps_select |]. intros rows.
  destruct (_ =? _)%nat; [apply keeps_ret |].
  apply keeps_bind; [apply keeps_query, stmt_keeps_delete_user |].
  intros _. apply keeps_ret.
Qed.

Lemma delete_keeps_integrity_witness :
  sound (snd (delete_users Sample.admin 4 (reliable 100) Sample.store)).
Proof.
  assert (H : sound Sample.store) by reflexivity.
  exact (proj1 (delete_keeps_integrity Sample.admin 4 (reliable 100) Sample.store H)).
Defined.

Lemma matching_removed (id : Z) (l : list user) :
  matching u_id id (filter (fun u => negb (u_id u =? id)) l) = [].
Proof.
  unfold matching. induction l as [| u us IH]; simpl; [reflexivity |].
  destruct (u_id u =? id) eqn:E; simpl; [exact IH | rewrite E; exact IH].
Qed.

(** X25.  After [DELETE /api/admin/users/:id] has answered 200, a token
    that still decodes to the deleted id is refused by [authenticate] with
    401 ['User not found'] (when the lookup is answered): [next] is not
    called. *)
Theorem deleted_user_cannot_authenticate (env : Env) (c : Conn) (caller : user) (id : Z)
    (jwt_verify : string -> Verified) (h : string) (next : user -> M Response)
    (env' : Env) :
  statusCode (fst (serve (delete_users caller id) env c)) = 200 ->
  String.prefix "Bearer " h = true ->
  jwt_verify (token_of h) = Decoded (Some id) ->
  let c' := snd (serve (delete_users caller id) env c) in
  fails env' (issued c') = false ->
  fst (authenticate jwt_verify (Some h) next env' c') = Ok (failure 401 "User not found").
Proof.
  intros H P V. cbv zeta.
  assert (Gone : matching u_id id
                   (users (tables (snd (serve (delete_users caller id) env c)))) = []).
  { revert H.
    unfold serve, delete_users, requireAdmin, try_catch, bind, query, user_row, select, ret.
    destruct (negb _); simpl; [discriminate |].
    destruct (fails env (issued c)); simpl; [discriminate |].
    destruct (matching u_id id (users (tables c))); simpl; [discriminate |].
    destruct (fails env (S (issued c))); simpl; [discriminate |].
    unfold delete_user. destruct (existsb _ (bookings (tables c))); simpl; [discriminate |].
    intros _. apply matching_removed. }
  intros F. unfold authenticate.
  assert (Hne : (h =? "")%string = false).
  { destruct h; [discriminate P | reflexivity]. }
  rewrite Hne, P. simpl. fold (token_of h). rewrite V.
  unfold bind, try_catch, query, user_by_id, select, ret. rewrite F, Gone. reflexivity.
Qed.

Lemma deleted_user_cannot_authenticate_witness :
  fst (authenticate (fun _ => Decoded (Some 4)) (Some "Bearer sid-token")
         (fun _ => ret (mkResponse 200 true None NoData)) (reliable 101)
         (snd (serve (delete_users Sample.admin 4) (reliable 100) Sample.store)))
  = Ok (failure 401 "User not found").
Proof.
  exact (deleted_user_cannot_authenticate (reliable 100) Sample.store Sample.admin 4
           (fun _ => Decoded (Some 4)) "Bearer sid-token"
           (fun _ => ret (mkResponse 200 true None NoData)) (reliable 101)
           eq_refl eq_refl eq_refl eq_refl).
Defined.

End AccountDeletion.

Module Statistics.
Import Accounts Views Listings.

Lemma filter_disjoint_le {A} (P Q R : A -> bool) (l : list A) :
  (forall x, P x = true -> R x = true) ->
  (forall x, Q x = true -> R x = true) ->
  (forall x, P x = true -> Q x = false) ->
  (List.length (filter P l) + List.length (filter Q l) <= List.length (filter R l))%nat.
Proof.
  intros HP HQ HD. induction l as [| x l IH]; simpl; [lia |].
  specialize (HP x). specialize (HQ x). specialize (HD x).
  destruct (P x), (Q x), (R x); simpl; try lia;
    try (specialize (HP eq_refl); discriminate);
    try (specialize (HQ eq_refl); discriminate);
    try (specialize (HD eq_refl); discriminate).
Qed.

Lemma nodup_shorter (l : list Z) : (List.length (nodup Z.eq_dec l) <= List.length l)%nat.
Proof.
  induction l as [| x l IH]; simpl; [lia |].
  destruct (in_dec Z.eq_dec x l); simpl; lia.
Qed.

Lemma get_stats_run now c caller st :
  u_role caller = "student" ->
  hd_error (filter (fun st => st_user_id st =? u_id caller) (students (tables c))) = Some st ->
  let t := tables c in
  let mine := fun b => b_student_id b =? st_id st in
  get_stats caller (reliable now) c =
  (Ok (mkReply 200 true None
         (Some (mkStats
                  (Z.of_nat (List.length (filter mine (bookings t))))
                  (Z.of_nat (List.length
                     (filter (fun b => mine b && (b_status b =? "confirmed")%string &&
                                       (now <? b_scheduled_date b)) (bookings t))))
                  (Z.of_nat (List.length
                     (filter (fun b => mine b && (b_status b =? "completed")%string)
                        (bookings t))))
                  (fold_right Qplus 0%Q
                     (map b_total_amount (filter (fun b => mine b && paid b) (bookings t))))
                  (Z.of_nat (List.length
                     (nodup Z.eq_dec
                        (map b_teacher_id
                           (filter (fun b => mine b && paid b) (bookings t))))))))),
   mkConn (tables c) (seqs c) (6 + issued c)).
Proof.
  intros Hr Hst. cbv zeta.
  unfold get_stats, try_catch. rewrite Hr. simpl.
  unfold bind, query, students_of_user, count_bookings, sum_spent, count_teachers,
    select, ret. simpl.
  destruct (filter _ (students (tables c))) as [| st0 sts]; [discriminate |].
  injection Hst as ->. simpl. reflexivity.
Qed.

(** X26.  [GET /api/students/stats] on a store that answers and
    satisfies the constraints.  A student without a profile gets 404
    ['Student not found'].  A student with a profile gets figures that agree
    with each other and with [GET /api/bookings/upcoming/classes]:
    [upcomingClasses] is the number of rows that route lists,
    [upcomingClasses + completedClasses] and [favoriteTeachers] are at most
    [totalBookings], and [totalSpent] is 0 when [favoriteTeachers] is.
    Nothing is written. *)
Theorem student_stats_consistent (now : Z) (c : Conn) (caller : user) :
  integrity (tables c) (seqs c) = true ->
  u_role caller = "student" ->
  (filter (fun st => st_user_id st =? u_id caller) (students (tables c)) = [] ->
   exists c',
     get_stats caller (reliable now) c = (Ok (refusal 404 "Student not found"), c') /\
     tables c' = tables c) /\
  (filter (fun st => st_user_id st =? u_id caller) (students (tables c)) <> [] ->
   exists stats c' rows,
     get_stats caller (reliable now) c = (Ok (mkReply 200 true None (Some stats)), c') /\
     tables c' = tables c /\
     fst (serve (get_upcoming caller) (reliable now) c)
     = mkResponse 200 true None (BookingRows rows) /\
     upcomingClasses stats = Z.of_nat (List.length rows) /\
     upcomingClasses stats + completedClasses stats <= totalBookings stats /\
     favoriteTeachers stats <= totalBookings stats /\
     (favoriteTeachers stats = 0 -> totalSpent stats = 0%Q)).
Proof.
  intros I Hr. split.
  - intros E. unfold get_stats, try_catch. rewrite Hr. simpl.
    unfold bind, query, students_of_user, select, ret. simpl. rewrite E. simpl.
    eexists. split; reflexivity.
  - intros N.
    destruct (filter (fun st => st_user_id st =? u_id caller) (students (tables c)))
      as [| st sts] eqn:E; [contradiction |].
    assert (Hst : hd_error (filter (fun st => st_user_id st =? u_id caller)
                              (students (tables c))) = Some st) by (rewrite E; reflexivity).
    rewrite (get_stats_run now c caller st Hr Hst).
    pose proof (listing (le := asc (fun r => b_scheduled_date (br_booking r)))
                  (tables c) teacher_user _
                  (fun b => (b_student_id b =? st_id st) &&
                            (b_status b =? "confirmed")%string &&
                            (now <? b_scheduled_date b))
                  (student_join _ _ I)) as [L1 _].
    eexists. eexists. eexists. split; [reflexivity |]. split; [reflexivity |].
    split.
    { unfold serve, get_upcoming, try_catch. rewrite Hr. simpl.
      unfold bind, query, students_of_user, upcoming_of_student, select, rows0, ret. simpl.
      rewrite E. simpl. reflexivity. }
    simpl. split; [| split; [| split]].
    + apply Permutation_length in L1. rewrite length_map in L1. rewrite L1. reflexivity.
    + rewrite <- Nat2Z.inj_add. apply Nat2Z.inj_le. apply filter_disjoint_le.
      * intros b Hb. rewrite !andb_true_iff in Hb. tauto.
      * intros b Hb. rewrite !andb_true_iff in Hb. tauto.
      * intros b Hb. rewrite !andb_true_iff in Hb. destruct Hb as [[_ Hs] _].
        apply String.eqb_eq in Hs. rewrite Hs. apply andb_false_r.
    + apply Nat2Z.inj_le.
      etransitivity; [apply nodup_shorter |]. rewrite length_map.
      pose proof (filter_disjoint_le
                    (fun b => (b_student_id b =? st_id st) && paid b)
                    (fun _ => false)
                    (fun b => b_student_id b =? st_id st) (bookings (tables c))) as L.
      assert (Z0 : forall l : list booking, filter (fun _ => false) l = []).
      { induction l; simpl; auto. }
      rewrite Z0 in L. simpl in L. rewrite Nat.add_0_r in L. apply L.
      * intros b Hb. rewrite andb_true_iff in Hb. tauto.
      * discriminate.
      * reflexivity.
    + intros F.
      destruct (filter (fun b => (b_student_id b =? st_id st) && paid b)
                  (bookings (tables c))) as [| b bs]; [reflexivity |].
      exfalso. simpl in F.
      destruct (in_dec Z.eq_dec (b_teacher_id b) (map b_teacher_id bs)) as [Hin | Hn].
      * destruct (nodup Z.eq_dec (map b_teacher_id bs)) eqn:ND; [| discriminate F].
        apply (nodup_In Z.eq_dec) in Hin. rewrite ND in Hin. exact Hin.
      * discriminate F.
Qed.

Lemma student_stats_consistent_witness :
  exists stats c',
    get_stats Sample.sam (reliable 100) Sample.store
    = (Ok (mkReply 200 true None (Some stats)), c') /\
    upcomingClasses stats + completedClasses stats <= totalBookings stats.
Proof.
  assert (I : integrity (tables Sample.store) (seqs Sample.store) = true) by reflexivity.
  assert (N : filter (fun st => st_user_id st =? u_id Sample.sam)
                (students (tables Sample.store)) <> []) by discriminate.
  destruct (proj2 (student_stats_consistent 100 Sample.store Sample.sam I eq_refl) N)
    as [stats [c' [rows [E [_ [_ [_ [L _]]]]]]]].
  exists stats, c'. split; [exact E | exact L].
Defined.

End Statistics.
